(** * The study-schedule allocation engine of [app.py]

    A shallow embedding of [generate_schedule] (app.py, lines 60-139), of
    [parse_topics] (lines 34-58) and of the main flow on submit (lines
    142-162), and a verification of the properties the specification
    states and of further properties the code shows.

    Modelling choices.
    - Python floats are modelled by exact rationals ([Q]).  The
      counterexamples below are decided by dyadic values only (halves,
      quarters, eighths, sixteenths, and quotients that are dyadic), on
      which IEEE-754 double arithmetic is exact, so their evaluations are
      the values CPython computes.
    - The one place where double arithmetic decides a value is the
      proportional share of line 93: there the demand model is also given
      over an arbitrary division and multiplication ([demand_model_fl]),
      and the rounding rule of lines 95-97 is stated for the share so
      computed; [div64] and [mul64] are the operations of doubles.
    - Python's [round(x)] on a float returns the nearest integer and
      resolves ties to the even neighbour; it is [py_round].
    - A [datetime.date] is its proleptic Gregorian ordinal
      ([date.toordinal()]); [weekday()] is [(ordinal + 6) mod 7], and
      [strftime("%Y-%m-%d")] is injective, so a row keeps the date itself.
    - [date.today()] is ambient in the source; it is the explicit argument
      [today] here.
    - The dict [remaining_hours] is an association list in insertion
      order: the order decides the tie-break of [max] and the order of
      [topic_names] in the fallback.
    - Exceptions are values of [exn]; a function that can raise returns a
      sum.  The [while] loop runs on fuel; [None] means the fuel ran out,
      and the termination theorem shows this never happens with
      [day_fuel]. *)

From Stdlib Require Import ZArith QArith Qabs Qround Qminmax Lqa Lia.
From Stdlib Require Import List String Ascii Bool Sorted.
Import ListNotations.

Local Open Scope Q_scope.

(** ** Python arithmetic on floats, over the rationals *)

Definition Qlt_bool (x y : Q) : bool := negb (Qle_bool y x).

(** [round(x)]: nearest integer, ties to even. *)
Definition py_round (x : Q) : Z :=
  let f := Qfloor x in
  match Qcompare (x - inject_Z f) (1 # 2) with
  | Lt => f
  | Gt => (f + 1)%Z
  | Eq => if Z.even f then f else (f + 1)%Z
  end.

(** The spec's wording of the rounding rule, for comparison with
    [py_round]: round half up. *)
Definition round_half_up (x : Q) : Z := Qfloor (x + (1 # 2)).

(** ** Data model *)

Record Topic := mkTopic {
  name : string;
  difficulty : Z;
  priority : bool
}.

Record ScheduleRow := mkRow {
  Date : Z;
  Topic_ : string;
  Hours : Q
}.

Inductive exn :=
| ValueError (msg : string)
| ZeroDivisionError.

(** *** The dict [remaining_hours] *)

Definition dict := list (string * Q).

Fixpoint dict_get (d : dict) (k : string) : option Q :=
  match d with
  | [] => None
  | (k', v) :: d' => if String.eqb k' k then Some v else dict_get d' k
  end.

(** [d[k] = v]: overwrite in place, or append a new key. *)
Fixpoint dict_set (d : dict) (k : string) (v : Q) : dict :=
  match d with
  | [] => [(k, v)]
  | (k', v') :: d' =>
      if String.eqb k' k then (k', v) :: d' else (k', v') :: dict_set d' k v
  end.

Definition dict_keys (d : dict) : list string := map fst d.
Definition dict_values (d : dict) : list Q := map snd d.

(** [max(d.items(), key=lambda x: x[1])]: the first item, in insertion
    order, whose value is maximal; [None] stands for the [ValueError] on
    an empty dict. *)
Fixpoint max_item (d : dict) : option (string * Q) :=
  match d with
  | [] => None
  | (k, v) :: d' =>
      match max_item d' with
      | None => Some (k, v)
      | Some (k', v') => if Qlt_bool v v' then Some (k', v') else Some (k, v)
      end
  end.

(** ** Study window (lines 66-78) *)

Definition weekday (d : Z) : Z := ((d + 6) mod 7)%Z.

Definition study_days_of (today exam_date : Z) (include_weekends : bool) : list Z :=
  filter (fun d => include_weekends || (weekday d <? 5)%Z)
         (map (fun i => (today + Z.of_nat i)%Z)
              (seq 0 (Z.to_nat (exam_date - today)))).

(** ** Demand model (lines 80-98) *)

Definition weight (t : Topic) : Q :=
  let w := 1 * inject_Z (difficulty t) in
  if priority t then w * 2 else w.

Definition sum_weights (ws : list Q) : Q := fold_left Qplus ws 0.

(** Lines 93-97 for one topic: the proportional share, rounded to 0.5
    hours, with the 0.5 floor.  The division raises when [sum_w] is 0. *)
Definition allocated_hours (w sum_w total : Q) : exn + Q :=
  if Qeq_bool sum_w 0 then inl ZeroDivisionError
  else
    let allocated := (w / sum_w) * total in
    let allocated := inject_Z (py_round (allocated * 2)) / 2 in
    inr (if Qlt_bool allocated (1 # 2) then 1 # 2 else allocated).

(** The loop of lines 92-98 over [zip(topics, weights)]. *)
Fixpoint demand_loop (tws : list (Topic * Q)) (sum_w total : Q)
         (remaining_hours : dict) : exn + dict :=
  match tws with
  | [] => inr remaining_hours
  | (t, w) :: rest =>
      match allocated_hours w sum_w total with
      | inl e => inl e
      | inr allocated =>
          demand_loop rest sum_w total (dict_set remaining_hours (name t) allocated)
      end
  end.

Definition demand_model (topics : list Topic) (total : Q) : exn + dict :=
  let weights := map weight topics in
  let sum_w := sum_weights weights in
  demand_loop (combine topics weights) sum_w total [].

(** *** The share as the machine computes it

    Line 93 is double arithmetic: [w / sum_w] and the product with
    [total_available_hours] are each rounded to a double, so the computed
    share can differ from the exact one in the last bit, and that decides
    which side of a tie it falls on.  The demand model is therefore given
    a second time with the division and the multiplication of line 93 as
    parameters, any two operations on (finite) floats; lines 95-98 are as
    above, and are exact in double arithmetic: doubling a double,
    [round], halving an integer and comparing with 0.5.  [allocated_hours]
    is the instance with exact operations. *)

Section Float_share.

Variables (fdiv fmul : Q -> Q -> Q).

Definition allocated_hours_fl (w sum_w total : Q) : exn + Q :=
  if Qeq_bool sum_w 0 then inl ZeroDivisionError
  else
    let allocated := fmul (fdiv w sum_w) total in
    let allocated := inject_Z (py_round (allocated * 2)) / 2 in
    inr (if Qlt_bool allocated (1 # 2) then 1 # 2 else allocated).

Fixpoint demand_loop_fl (tws : list (Topic * Q)) (sum_w total : Q)
         (remaining_hours : dict) : exn + dict :=
  match tws with
  | [] => inr remaining_hours
  | (t, w) :: rest =>
      match allocated_hours_fl w sum_w total with
      | inl e => inl e
      | inr allocated =>
          demand_loop_fl rest sum_w total (dict_set remaining_hours (name t) allocated)
      end
  end.

Definition demand_model_fl (topics : list Topic) (total : Q) : exn + dict :=
  let weights := map weight topics in
  let sum_w := sum_weights weights in
  demand_loop_fl (combine topics weights) sum_w total [].

End Float_share.

(** The double nearest to a rational [x], ties to the even significand
    (IEEE-754 binary64, round to nearest even), for [x] in the normal
    range: [e] is the exponent of [x], 52 bits follow the leading one. *)
Definition binary64 (x : Q) : Q :=
  if Qeq_bool x 0 then 0
  else
    let a := Qabs x in
    let e0 := (Z.log2 (Qnum a) - Z.log2 (Zpos (Qden a)))%Z in
    let e := if Qle_bool (2 ^ e0) a then e0 else (e0 - 1)%Z in
    let ulp := 2 ^ (e - 52) in
    let m := inject_Z (py_round (a / ulp)) * ulp in
    if Qle_bool 0 x then m else - m.

(** Division and multiplication of doubles: the exact result, rounded. *)
Definition div64 (x y : Q) : Q := binary64 (x / y).
Definition mul64 (x y : Q) : Q := binary64 (x * y).

(** ** Day allocator (lines 100-124) *)

Record loop_state := mkState {
  remaining_hours : dict;
  hours_left : Q;
  schedule_rows : list ScheduleRow
}.

Inductive flow := Next | Stop.

(** The [while] condition of line 105. *)
Definition loop_guard (st : loop_state) : bool :=
  Qle_bool (1 # 4) (hours_left st)
  && existsb (fun h => Qlt_bool (249 # 1000) h) (dict_values (remaining_hours st)).

(** One run of the [while] body, lines 106-124.  [Stop] is a [break].
    The value [r] paired with [topic] by [max] is [remaining_hours[topic]],
    the keys of a dict being unique (lemma [max_item_get]). *)
Definition loop_body (day : Z) (st : loop_state) : loop_state * flow :=
  match max_item (remaining_hours st) with
  | None => (st, Stop)
  | Some (topic, r) =>
      if Qlt_bool r (1 # 4) then (st, Stop)
      else
        let alloc := Qmin r (hours_left st) in
        let alloc := inject_Z (py_round (alloc * 4)) / 4 in
        if Qle_bool alloc 0 then (st, Stop)
        else
          let rows := schedule_rows st ++ [mkRow day topic alloc] in
          let rem := dict_set (remaining_hours st) topic
                       (inject_Z (py_round ((r - alloc) * 4)) / 4) in
          let hl := inject_Z (py_round ((hours_left st - alloc) * 4)) / 4 in
          (mkState rem hl rows, if Qlt_bool hl (1 # 4) then Stop else Next)
  end.

(** The [while] loop; [fuel] bounds the number of runs of the body. *)
Fixpoint while_loop (fuel : nat) (day : Z) (st : loop_state) : option loop_state :=
  if loop_guard st then
    match fuel with
    | O => None
    | S fuel' =>
        match loop_body day st with
        | (st', Stop) => Some st'
        | (st', Next) => while_loop fuel' day st'
        end
    end
  else Some st.

(** The [for day in study_days] loop of line 102. *)
Fixpoint for_days (fuel : nat) (days : list Z) (daily_hours : Q)
         (rem : dict) (rows : list ScheduleRow) : option (dict * list ScheduleRow) :=
  match days with
  | [] => Some (rem, rows)
  | day :: days' =>
      match while_loop fuel day (mkState rem daily_hours rows) with
      | None => None
      | Some st =>
          for_days fuel days' daily_hours (remaining_hours st) (schedule_rows st)
      end
  end.

(** ** Fallback (lines 127-135) *)

(** [topic_names[ti % len(topic_names)]]; the modulo raises on an empty list. *)
Fixpoint fallback_rows (days : list Z) (topic_names : list string) (ti : nat)
         (daily_hours : Q) : exn + list ScheduleRow :=
  match days with
  | [] => inr []
  | day :: days' =>
      match List.length topic_names with
      | O => inl ZeroDivisionError
      | S _ =>
          match fallback_rows days' topic_names (S ti) daily_hours with
          | inl e => inl e
          | inr rows =>
              inr (mkRow day (nth (Nat.modulo ti (List.length topic_names)) topic_names EmptyString)
                         daily_hours :: rows)
          end
      end
  end.

(** ** Aggregation (line 138) *)

(** [groupby(["Date", "Topic"]).sum()]: one row per (date, topic) pair,
    in increasing key order, with the hours of the pair summed. *)
Definition key_compare (a b : ScheduleRow) : comparison :=
  match Z.compare (Date a) (Date b) with
  | Eq => String.compare (Topic_ a) (Topic_ b)
  | c => c
  end.

Fixpoint agg_insert (r : ScheduleRow) (acc : list ScheduleRow) : list ScheduleRow :=
  match acc with
  | [] => [r]
  | a :: acc' =>
      match key_compare r a with
      | Eq => mkRow (Date a) (Topic_ a) (Hours a + Hours r) :: acc'
      | Lt => r :: a :: acc'
      | Gt => a :: agg_insert r acc'
      end
  end.

Definition groupby_sum (rows : list ScheduleRow) : list ScheduleRow :=
  fold_left (fun acc r => agg_insert r acc) rows [].

(** ** [generate_schedule] (lines 60-139) *)

Definition result : Type := exn + (list ScheduleRow * dict * Q).

Definition generate_schedule_fuel (fuel : nat) (today : Z) (topics : list Topic)
           (exam_date : Z) (daily_hours : Q) (include_weekends : bool)
  : option result :=
  if (exam_date <=? today)%Z then
    Some (inl (ValueError "Exam date must be in the future."))
  else
    let study_days := study_days_of today exam_date include_weekends in
    let total_days := List.length study_days in
    if Nat.eqb total_days 0 then
      Some (inl (ValueError "No study days available (check exam date / weekend option)."))
    else
      let total_available_hours := inject_Z (Z.of_nat total_days) * daily_hours in
      match demand_model topics total_available_hours with
      | inl e => Some (inl e)
      | inr remaining0 =>
          match for_days fuel study_days daily_hours remaining0 [] with
          | None => None
          | Some (remaining, rows) =>
              let df :=
                match rows with
                | [] => fallback_rows study_days (dict_keys remaining) 0 daily_hours
                | _ :: _ => inr rows
                end in
              match df with
              | inl e => Some (inl e)
              | inr rows' =>
                  Some (inr (groupby_sum rows', remaining, total_available_hours))
              end
          end
      end.

(** Enough fuel for one day: the body runs at most [floor (8 * daily_hours)]
    times (theorem [while_loop_terminates]). *)
Definition day_fuel (daily_hours : Q) : nat := Z.to_nat (Qfloor (8 * daily_hours)).

Definition generate_schedule (today : Z) (topics : list Topic) (exam_date : Z)
           (daily_hours : Q) (include_weekends : bool) : option result :=
  generate_schedule_fuel (day_fuel daily_hours) today topics exam_date
                         daily_hours include_weekends.

(** ** [parse_topics] (lines 34-58)

    Text is ASCII: a [string] is the sequence of the code points of the
    Python [str], all below 128.  On such text [str.isspace] holds of the
    code points 9-13 and 28-32, [str.splitlines] breaks at 10-13 and
    28-30 (a CR LF pair is one break), and [lower] and [title] change the
    letters A-Z and a-z only. *)

Definition is_space (c : ascii) : bool :=
  let n := nat_of_ascii c in
  ((9 <=? n) && (n <=? 13) || (28 <=? n) && (n <=? 32))%nat.

Definition is_linebreak (c : ascii) : bool :=
  let n := nat_of_ascii c in
  ((10 <=? n) && (n <=? 13) || (28 <=? n) && (n <=? 30))%nat.

Definition is_upper (c : ascii) : bool :=
  let n := nat_of_ascii c in ((65 <=? n) && (n <=? 90))%nat.

Definition is_lower (c : ascii) : bool :=
  let n := nat_of_ascii c in ((97 <=? n) && (n <=? 122))%nat.

Definition lower_char (c : ascii) : ascii :=
  if is_upper c then ascii_of_nat (nat_of_ascii c + 32) else c.

Definition upper_char (c : ascii) : ascii :=
  if is_lower c then ascii_of_nat (nat_of_ascii c - 32) else c.

(** [s.lower()]. *)
Fixpoint lower (s : string) : string :=
  match s with
  | EmptyString => EmptyString
  | String c s' => String (lower_char c) (lower s')
  end.

(** [s.title()]: a letter that follows a letter is lowered, any other
    letter is raised. *)
Fixpoint title_from (previous_is_cased : bool) (s : string) : string :=
  match s with
  | EmptyString => EmptyString
  | String c s' =>
      String (if previous_is_cased then lower_char c else upper_char c)
             (title_from (is_upper c || is_lower c) s')
  end.

Definition title (s : string) : string := title_from false s.

Fixpoint lstrip (s : string) : string :=
  match s with
  | EmptyString => EmptyString
  | String c s' => if is_space c then lstrip s' else s
  end.

Fixpoint rstrip (s : string) : string :=
  match s with
  | EmptyString => EmptyString
  | String c s' =>
      match rstrip s' with
      | EmptyString => if is_space c then EmptyString else String c EmptyString
      | r => String c r
      end
  end.

(** [s.strip()]. *)
Definition strip (s : string) : string := rstrip (lstrip s).

(** [s.split(",")]: at least one part, empty parts kept. *)
Fixpoint split_comma (s : string) : list string :=
  match s with
  | EmptyString => [EmptyString]
  | String c s' =>
      if Ascii.eqb c ","%char then EmptyString :: split_comma s'
      else match split_comma s' with
           | part :: parts => String c part :: parts
           | [] => [String c EmptyString]
           end
  end.

(** [s.splitlines()]: the lines without their breaks; no line after a
    final break, none for the empty text. *)
Fixpoint splitlines (s : string) : list string :=
  match s with
  | EmptyString => []
  | String c s' =>
      if is_linebreak c then
        EmptyString ::
        match s' with
        | String c' s'' =>
            if Ascii.eqb c "013"%char && Ascii.eqb c' "010"%char
            then splitlines s'' else splitlines s'
        | EmptyString => []
        end
      else match splitlines s' with
           | line :: lines => String c line :: lines
           | [] => [String c EmptyString]
           end
  end.

Definition token_in (token : string) (words : list string) : bool :=
  existsb (String.eqb token) words.

(** The [if]/[elif] chain of lines 48-55 on one token. *)
Definition scan_token (st : Z * bool) (token : string) : Z * bool :=
  let (difficulty, priority) := st in
  if token_in token ["easy"; "e"]%string then (1%Z, priority)
  else if token_in token ["medium"; "m"]%string then (2%Z, priority)
  else if token_in token ["hard"; "h"]%string then (3%Z, priority)
  else if token_in token ["priority"; "p"; "important"]%string then (difficulty, true)
  else (difficulty, priority).

(** The body of the loop of lines 41-57 on one line. *)
Definition parse_line (ln : string) : Topic :=
  let parts := map (fun p => lower (strip p)) (split_comma ln) in
  let name := title (hd EmptyString parts) in
  let (difficulty, priority) := fold_left scan_token (tl parts) (2%Z, false) in
  mkTopic name difficulty priority.

Definition parse_topics (text_block : string) : list Topic :=
  let lines :=
    map strip
        (filter (fun l => negb (String.eqb (strip l) EmptyString))
                (splitlines text_block)) in
  map parse_line lines.

(** ** Main flow on submit (lines 142-162)

    What the page shows after the form: nothing while the form is not
    submitted, the warning, the plan with its summary figures, or the
    message of a caught exception.  The Streamlit rendering of these and
    the CSV text are left out. *)

Inductive outcome :=
| NotSubmitted
| Warning (msg : string)
| Plan (df : list ScheduleRow) (study_days_shown : nat)
       (total_available_hours : Q) (remaining : dict)
| ErrorShown (e : exn).

Definition main_flow (submitted : bool) (today : Z) (topics_input : string)
           (exam_date : Z) (daily_hours : Q) (include_weekends : bool)
  : option outcome :=
  if submitted then
    let topics := parse_topics topics_input in
    if Nat.eqb (List.length topics) 0 then
      Some (Warning "Please enter at least one topic (one per line).")
    else
      match generate_schedule today topics exam_date daily_hours include_weekends with
      | None => None
      | Some (inl e) => Some (ErrorShown e)
      | Some (inr (df, remaining, total_available_hours)) =>
          Some (Plan df (List.length (nodup Z.eq_dec (map Date df)))
                     total_available_hours remaining)
      end
  else Some NotSubmitted.

(** * Vocabulary of the properties *)

(** The source writes [round(x * 4) / 4.0] in three places. *)
Local Abbreviation round4 x := (inject_Z (py_round (x * 4)) / 4).

(** A non-negative whole number of quarter hours. *)
Definition quarter (x : Q) : Prop := exists n : Z, (0 <= n)%Z /\ x == inject_Z n / 4.

(** A positive whole number of quarter hours. *)
Definition pos_quarter (x : Q) : Prop := exists n : Z, (1 <= n)%Z /\ x == inject_Z n / 4.

(** The invariant of the dict during allocation: unique keys, every
    entry a non-negative whole number of quarter hours. *)
Definition dict_ok (d : dict) : Prop :=
  NoDup (dict_keys d) /\ Forall (fun kv => quarter (snd kv)) d.

(** Entries of the initial dict: quarters, at least half an hour. *)
Definition demand_ok (d : dict) : Prop :=
  dict_ok d /\ Forall (fun kv => 1 # 2 <= snd kv) d.

(** A topic as [parse_topics] produces it and the docstring of
    [generate_schedule] describes it: difficulty 1, 2 or 3. *)
Definition valid_topic (t : Topic) : Prop := (1 <= difficulty t <= 3)%Z.

(** What a run of the body that emits a row does, in terms of the
    selected topic [topic], its remaining hours [r] and the amount
    [alloc]. *)
Definition emits (day : Z) (st st' : loop_state) (fl : flow)
           (topic : string) (r alloc : Q) : Prop :=
  max_item (remaining_hours st) = Some (topic, r) /\
  1 # 4 <= r /\
  alloc = round4 (Qmin r (hours_left st)) /\
  0 < alloc /\
  st' = mkState (dict_set (remaining_hours st) topic (round4 (r - alloc)))
                (round4 (hours_left st - alloc))
                (schedule_rows st ++ [mkRow day topic alloc]) /\
  fl = (if Qlt_bool (round4 (hours_left st - alloc)) (1 # 4) then Stop else Next).

Definition sum_hours (rows : list ScheduleRow) : Q :=
  fold_right (fun r acc => Hours r + acc) 0 rows.

(** The hours of a date in a list of rows. *)
Definition day_sum (d : Z) (rows : list ScheduleRow) : Q :=
  sum_hours (filter (fun r => Z.eqb (Date r) d) rows).

(** The rows a loop adds: all of the day, all positive quarters. *)
Definition day_rows (day : Z) (new : list ScheduleRow) : Prop :=
  Forall (fun r => Date r = day /\ pos_quarter (Hours r)) new.

(** What holds of the rows of the greedy pass: unless there are none,
    [daily_hours] is at least a quarter, every row carries a positive
    number of quarters and no date carries more than
    [daily_hours + 1/8]. *)
Definition greedy_inv (daily_hours : Q) (rows : list ScheduleRow) : Prop :=
  rows = [] \/
  (1 # 4 <= daily_hours /\
   Forall (fun r => pos_quarter (Hours r)) rows /\
   forall d, day_sum d rows <= daily_hours + (1 # 8)).

(** Strictly increasing date order; rows in that order are their own
    aggregate. *)
Definition date_lt (a b : ScheduleRow) : Prop := (Date a < Date b)%Z.

(** The round robin of the spec: day [i] gets topic [(ti + i) mod n]
    of the list, and the full [daily_hours]. *)
Fixpoint round_robin (days : list Z) (topic_names : list string) (ti : nat)
         (daily_hours : Q) : list ScheduleRow :=
  match days with
  | [] => []
  | day :: days' =>
      mkRow day (nth (Nat.modulo ti (List.length topic_names)) topic_names EmptyString)
            daily_hours
      :: round_robin days' topic_names (S ti) daily_hours
  end.

(** The states the loops of lines 102-124 go through, from the dict
    [rem0] of the demand model: the start of the first day, a run of
    the body under the loop condition, the start of a further day. *)
Inductive reachable (daily_hours : Q) (rem0 : dict) : loop_state -> Prop :=
| reach_start : reachable daily_hours rem0 (mkState rem0 daily_hours [])
| reach_body day st st' fl :
    reachable daily_hours rem0 st ->
    loop_guard st = true ->
    loop_body day st = (st', fl) ->
    reachable daily_hours rem0 st'
| reach_day st :
    reachable daily_hours rem0 st ->
    reachable daily_hours rem0
              (mkState (remaining_hours st) daily_hours (schedule_rows st)).

(** [d'] has the keys of [d], each with a value that is not negative and
    not above the one in [d]. *)
Definition dict_below (d' d : dict) : Prop :=
  forall k v, dict_get d k = Some v ->
              exists v', dict_get d' k = Some v' /\ 0 <= v' /\ v' <= v.

(** The names of a list, each kept at its first occurrence: the keys of
    a dict filled in list order. *)
Definition distinct_names (names : list string) : list string :=
  fold_left (fun acc k => if in_dec string_dec k acc then acc else acc ++ [k]) names [].

(** The same topic, marked as priority. *)
Definition mark_priority (t : Topic) : Topic :=
  mkTopic (name t) (difficulty t) true.

(** The hours of a topic name in a list of rows. *)
Definition topic_sum (k : string) (rows : list ScheduleRow) : Q :=
  sum_hours (filter (fun r => String.eqb (Topic_ r) k) rows).

(** Strictly increasing (date, topic) order. *)
Definition key_lt (a b : ScheduleRow) : Prop := key_compare a b = Lt.

(** No hours left in any entry. *)
Definition all_done (d : dict) : Prop := Forall (fun kv => snd kv == 0) d.

(** A whole number of half hours, at least one. *)
Definition pos_half (x : Q) : Prop := exists n : Z, (1 <= n)%Z /\ x == inject_Z n / 2.

(** Only white space. *)
Definition blank (s : string) : Prop := strip s = EmptyString.

(** The difficulty a token sets, if any, and whether it sets the
    priority: the words of lines 48-54. *)
Definition difficulty_of_word (token : string) : option Z :=
  if token_in token ["easy"; "e"]%string then Some 1%Z
  else if token_in token ["medium"; "m"]%string then Some 2%Z
  else if token_in token ["hard"; "h"]%string then Some 3%Z
  else None.

Definition is_priority_word (token : string) : bool :=
  token_in token ["priority"; "p"; "important"]%string.

(** The tokens of a line: its parts after the first comma, stripped and
    lowered. *)
Definition tokens_of (ln : string) : list string :=
  tl (map (fun p => lower (strip p)) (split_comma ln)).

Fixpoint string_forall (p : ascii -> bool) (s : string) : bool :=
  match s with
  | EmptyString => true
  | String c s' => p c && string_forall p s'
  end.

(** * Verification *)

(** ** Comparisons *)

Lemma Qlt_bool_iff x y : Qlt_bool x y = true <-> x < y.
Proof.
  unfold Qlt_bool. rewrite negb_true_iff.
  split; intro H.
  - apply Qnot_le_lt. intro C. apply Qle_bool_iff in C. congruence.
  - destruct (Qle_bool y x) eqn:E; [|reflexivity].
    apply Qle_bool_iff in E. lra.
Qed.

Lemma Qlt_bool_false x y : Qlt_bool x y = false <-> y <= x.
Proof.
  unfold Qlt_bool. rewrite negb_false_iff. apply Qle_bool_iff.
Qed.

Lemma Qle_bool_false x y : Qle_bool x y = false <-> y < x.
Proof.
  rewrite <- Qlt_bool_iff. unfold Qlt_bool.
  destruct (Qle_bool x y); simpl; split; congruence.
Qed.

(** ** [round]: nearest integer, ties to even *)

Section Rounding.

Lemma floor_bounds x : inject_Z (Qfloor x) <= x /\ x < inject_Z (Qfloor x) + 1.
Proof.
  split; [apply Qfloor_le|].
  generalize (Qlt_floor x). rewrite inject_Z_plus. simpl. auto.
Qed.

Lemma py_round_bounds x :
  inject_Z (py_round x) - (1 # 2) <= x /\ x <= inject_Z (py_round x) + (1 # 2).
Proof.
  unfold py_round. destruct (floor_bounds x) as [Hl Hu].
  destruct (Qcompare_spec (x - inject_Z (Qfloor x)) (1 # 2)) as [E|E|E].
  - destruct (Z.even (Qfloor x)); rewrite ?inject_Z_plus;
      change (inject_Z 1) with 1; lra.
  - lra.
  - rewrite inject_Z_plus. change (inject_Z 1) with 1. lra.
Qed.

Global Instance py_round_comp : Proper (Qeq ==> eq) py_round.
Proof.
  intros x y E. unfold py_round.
  rewrite (Qfloor_comp x y E).
  rewrite (Qcompare_comp (x - inject_Z (Qfloor y)) (y - inject_Z (Qfloor y))
             ltac:(rewrite E; reflexivity) (1 # 2) (1 # 2) ltac:(reflexivity)).
  reflexivity.
Qed.

Lemma inject_Z_lt_succ (a b : Z) : inject_Z a < inject_Z b + 1 -> (a <= b)%Z.
Proof.
  intro H. change 1 with (inject_Z 1) in H. rewrite <- inject_Z_plus in H.
  rewrite <- Zlt_Qlt in H. lia.
Qed.

(** A value strictly closer than 1/2 to [n] rounds to [n]. *)
Lemma py_round_near (n : Z) x :
  inject_Z n - (1 # 2) < x -> x < inject_Z n + (1 # 2) -> py_round x = n.
Proof.
  intros Hl Hu. destruct (py_round_bounds x) as [Bl Bu].
  assert (py_round x <= n)%Z by (apply inject_Z_lt_succ; lra).
  assert (n <= py_round x)%Z by (apply inject_Z_lt_succ; lra).
  lia.
Qed.

Lemma py_round_inject (n : Z) : py_round (inject_Z n) = n.
Proof. apply py_round_near; lra. Qed.

(** A tie goes to the even neighbour. *)
Lemma py_round_tie (n : Z) x :
  x == inject_Z n + (1 # 2) ->
  py_round x = if Z.even n then n else (n + 1)%Z.
Proof.
  intro E. rewrite E. unfold py_round.
  assert (F : Qfloor (inject_Z n + (1 # 2)) = n).
  { destruct (floor_bounds (inject_Z n + (1 # 2))) as [Hl Hu].
    assert (Qfloor (inject_Z n + (1 # 2)) <= n)%Z by (apply inject_Z_lt_succ; lra).
    assert (n <= Qfloor (inject_Z n + (1 # 2)))%Z by (apply inject_Z_lt_succ; lra).
    lia. }
  rewrite F.
  destruct (Qcompare_spec (inject_Z n + (1 # 2) - inject_Z n) (1 # 2)) as [H|H|H];
    [reflexivity | lra | lra].
Qed.

Lemma py_round_mono x y : x <= y -> (py_round x <= py_round y)%Z.
Proof.
  intro H. destruct (Z_le_gt_dec (py_round x) (py_round y)) as [L|G]; [exact L|].
  exfalso.
  destruct (py_round_bounds x) as [Bxl Bxu], (py_round_bounds y) as [Byl Byu].
  assert (G' : inject_Z (py_round y) + 1 <= inject_Z (py_round x)).
  { change 1 with (inject_Z 1). rewrite <- inject_Z_plus, <- Zle_Qle. lia. }
  assert (E : x == y) by lra.
  rewrite E in G. lia.
Qed.

(** Rounding a whole number of units of size [1/u] leaves it unchanged. *)
Lemma py_round_scaled (n : Z) (x u : Q) :
  ~ u == 0 -> x == inject_Z n / u -> py_round (x * u) = n.
Proof.
  intros Hu E. rewrite <- (py_round_inject n). apply py_round_comp.
  rewrite E. field. exact Hu.
Qed.

End Rounding.

(** ** Rounding to a quarter of an hour *)

Section Quarters.

Lemma inject_Z_le_0 (n : Z) : (0 <= n)%Z <-> 0 <= inject_Z n.
Proof. change 0 with (inject_Z 0). rewrite Zle_Qle. reflexivity. Qed.

Lemma inject_Z_ge_1 (n : Z) : (1 <= n)%Z <-> 1 <= inject_Z n.
Proof. change 1 with (inject_Z 1). rewrite Zle_Qle. reflexivity. Qed.

Lemma inject_Z_pos (n : Z) : 0 < inject_Z n -> 1 <= inject_Z n.
Proof.
  intro H. apply (proj1 (inject_Z_ge_1 n)). change 0 with (inject_Z 0) in H.
  rewrite <- Zlt_Qlt in H. lia.
Qed.

Lemma quarter_nonneg x : quarter x -> 0 <= x.
Proof.
  intros (n & Hn & E). apply (proj1 (inject_Z_le_0 n)) in Hn. rewrite E.
  unfold Qdiv. change (/ 4) with (1 # 4). lra.
Qed.

Lemma pos_quarter_quarter x : pos_quarter x -> quarter x.
Proof. intros (n & Hn & E). exists n. split; [lia | exact E]. Qed.

Lemma pos_quarter_ge x : pos_quarter x -> 1 # 4 <= x.
Proof.
  intros (n & Hn & E). apply (proj1 (inject_Z_ge_1 n)) in Hn. rewrite E.
  unfold Qdiv. change (/ 4) with (1 # 4). lra.
Qed.

Lemma pos_quarter_plus x y : pos_quarter x -> pos_quarter y -> pos_quarter (x + y).
Proof.
  intros (n & Hn & En) (m & Hm & Em). exists (n + m)%Z. split; [lia|].
  rewrite En, Em, inject_Z_plus. field.
Qed.

Lemma round4_exact (n : Z) x : x == inject_Z n / 4 -> py_round (x * 4) = n.
Proof. intro E. apply py_round_scaled; [discriminate | exact E]. Qed.

Lemma round4_bounds x : x - (1 # 8) <= round4 x /\ round4 x <= x + (1 # 8).
Proof.
  destruct (py_round_bounds (x * 4)) as [Hl Hu].
  unfold Qdiv. change (/ 4) with (1 # 4). split; lra.
Qed.

Lemma round4_mono x y : x <= y -> round4 x <= round4 y.
Proof.
  intro H. assert (L : (py_round (x * 4) <= py_round (y * 4))%Z)
    by (apply py_round_mono; lra).
  rewrite Zle_Qle in L. unfold Qdiv. change (/ 4) with (1 # 4). lra.
Qed.

Lemma py_round_neg_half : py_round (- (1 # 2)) = 0%Z.
Proof. reflexivity. Qed.

(** Rounding never goes below zero from [-1/8]: the tie at [-0.5]
    quarter goes to the even neighbour 0. *)
Lemma round4_quarter x : - (1 # 8) <= x -> quarter (round4 x).
Proof.
  intro H. exists (py_round (x * 4)). split; [|reflexivity].
  rewrite <- py_round_neg_half. apply py_round_mono. lra.
Qed.

Lemma round4_pos x : 0 < round4 x -> pos_quarter (round4 x).
Proof.
  intro H. exists (py_round (x * 4)). split; [|reflexivity].
  apply (proj2 (inject_Z_ge_1 _)), inject_Z_pos.
  unfold Qdiv in H. change (/ 4) with (1 # 4) in H. lra.
Qed.

(** On quarters the subtraction is exact and needs no rounding. *)
Lemma round4_sub_exact x y :
  quarter x -> pos_quarter y -> round4 (x - y) == x - y.
Proof.
  intros (n & Hn & En) (m & Hm & Em).
  rewrite (round4_exact (n - m) (x - y)).
  - rewrite En, Em. unfold Z.sub. rewrite inject_Z_plus, inject_Z_opp. field.
  - rewrite En, Em. unfold Z.sub. rewrite inject_Z_plus, inject_Z_opp. field.
Qed.

Lemma round4_min_exact x y :
  quarter x -> quarter y -> round4 (Qmin x y) == Qmin x y.
Proof.
  intros Hx Hy.
  assert (Hm : quarter (Qmin x y)).
  { destruct (Q.min_spec x y) as [[_ E]|[_ E]].
    - destruct Hx as (n & Hn & En). exists n. split; [exact Hn|]. rewrite E. exact En.
    - destruct Hy as (n & Hn & En). exists n. split; [exact Hn|]. rewrite E. exact En. }
  destruct Hm as (n & Hn & En).
  rewrite (round4_exact n _ En). symmetry. exact En.
Qed.

End Quarters.

(** ** The dict [remaining_hours] *)

Section Dict.

Implicit Types (d : dict) (k : string) (v : Q).

Lemma dict_get_set_same d k v : dict_get (dict_set d k v) k = Some v.
Proof.
  induction d as [|[k' v'] d IH]; simpl.
  - now rewrite String.eqb_refl.
  - destruct (String.eqb k' k) eqn:E; simpl; rewrite E; auto.
Qed.

Lemma dict_get_set_other d k k' v :
  k <> k' -> dict_get (dict_set d k v) k' = dict_get d k'.
Proof.
  intro N. induction d as [|[k0 v0] d IH]; simpl.
  - apply String.eqb_neq in N. now rewrite N.
  - destruct (String.eqb k0 k) eqn:E; simpl.
    + apply String.eqb_eq in E. subst k0.
      apply String.eqb_neq in N. now rewrite N.
    + now rewrite IH.
Qed.

Lemma dict_get_In d k v : dict_get d k = Some v -> In (k, v) d.
Proof.
  induction d as [|[k' v'] d IH]; simpl; [discriminate|].
  destruct (String.eqb k' k) eqn:E.
  - apply String.eqb_eq in E. intros [= ->]. subst. now left.
  - auto.
Qed.

Lemma In_dict_get d k v :
  NoDup (dict_keys d) -> In (k, v) d -> dict_get d k = Some v.
Proof.
  induction d as [|[k' v'] d IH]; simpl; [tauto|].
  intros ND [E|H].
  - inversion E; subst. now rewrite String.eqb_refl.
  - inversion ND as [|? ? Hn ND']; subst.
    destruct (String.eqb k' k) eqn:E.
    + apply String.eqb_eq in E. subst k'. exfalso. apply Hn.
      change k with (fst (k, v)). now apply in_map.
    + auto.
Qed.

Lemma dict_keys_set_old d k v :
  In k (dict_keys d) -> dict_keys (dict_set d k v) = dict_keys d.
Proof.
  induction d as [|[k' v'] d IH]; simpl; [tauto|].
  intros H. destruct (String.eqb k' k) eqn:E; simpl; [reflexivity|].
  f_equal. apply IH. destruct H as [H|H]; [|exact H].
  apply String.eqb_neq in E. contradiction.
Qed.

Lemma dict_keys_set_new d k v :
  ~ In k (dict_keys d) -> dict_keys (dict_set d k v) = dict_keys d ++ [k].
Proof.
  induction d as [|[k' v'] d IH]; simpl; [reflexivity|].
  intros H. destruct (String.eqb k' k) eqn:E; simpl.
  - apply String.eqb_eq in E. tauto.
  - f_equal. apply IH. tauto.
Qed.

Lemma dict_set_NoDup d k v :
  NoDup (dict_keys d) -> NoDup (dict_keys (dict_set d k v)).
Proof.
  intro ND. destruct (in_dec string_dec k (dict_keys d)) as [I|I].
  - now rewrite dict_keys_set_old.
  - rewrite dict_keys_set_new by exact I.
    apply NoDup_app; [exact ND | repeat constructor; auto |].
    intros x Hx [<-|[]]. contradiction.
Qed.

Lemma dict_set_Forall (P : Q -> Prop) d k v :
  Forall (fun kv => P (snd kv)) d -> P v ->
  Forall (fun kv => P (snd kv)) (dict_set d k v).
Proof.
  intros H Hv. induction H as [|[k' v'] d Hkv H IH]; simpl.
  - repeat constructor. exact Hv.
  - destruct (String.eqb k' k); constructor; auto.
Qed.

Lemma max_item_In d k v : max_item d = Some (k, v) -> In (k, v) d.
Proof.
  revert k v. induction d as [|[k' v'] d IH]; simpl; [discriminate|].
  intros k v. destruct (max_item d) as [[k0 v0]|].
  - destruct (Qlt_bool v' v0); intros [= <- <-]; auto.
  - intros [= <- <-]. auto.
Qed.

Lemma max_item_max d k v :
  max_item d = Some (k, v) -> Forall (fun kv => snd kv <= v) d.
Proof.
  revert k v. induction d as [|[k' v'] d IH]; simpl; [constructor|].
  intros k v. destruct (max_item d) as [[k0 v0]|] eqn:M.
  - specialize (IH _ _ eq_refl).
    destruct (Qlt_bool v' v0) eqn:L; intros [= <- <-].
    + apply Qlt_bool_iff in L. constructor; [simpl; lra | exact IH].
    + apply Qlt_bool_false in L. constructor; [simpl; lra|].
      eapply Forall_impl; [|exact IH]. simpl. intros a Ha. lra.
  - intros [= <- <-]. destruct d as [|[k1 v1] d]; [|simpl in M].
    + repeat constructor. simpl. lra.
    + destruct (max_item d) as [[? ?]|]; [destruct (Qlt_bool v1 q)|]; discriminate.
Qed.

Lemma max_item_None d : max_item d = None -> d = [].
Proof.
  destruct d as [|[k v] d]; [reflexivity|]. simpl.
  destruct (max_item d) as [[? ?]|]; [destruct (Qlt_bool v q)|]; discriminate.
Qed.

(** [max(...)[0]] and then [remaining_hours[topic]]: the same item. *)
Lemma max_item_get d k v :
  NoDup (dict_keys d) -> max_item d = Some (k, v) -> dict_get d k = Some v.
Proof. intros ND M. apply In_dict_get; [exact ND | now apply max_item_In]. Qed.

End Dict.

(** ** One run of the loop body *)

(** Under the loop condition the dict is not empty, so the [max] of
    line 107 does not raise. *)
Lemma loop_guard_max_item st :
  loop_guard st = true -> max_item (remaining_hours st) <> None.
Proof.
  unfold loop_guard. rewrite andb_true_iff. intros [_ H] M.
  apply max_item_None in M. rewrite M in H. discriminate.
Qed.

Lemma loop_body_cases day st st' fl :
  loop_body day st = (st', fl) ->
  (st' = st /\ fl = Stop) \/ exists topic r alloc, emits day st st' fl topic r alloc.
Proof.
  unfold loop_body.
  destruct (max_item (remaining_hours st)) as [[topic r]|] eqn:M.
  2: { intros [= <- <-]. now left. }
  destruct (Qlt_bool r (1 # 4)) eqn:Lr.
  { intros [= <- <-]. now left. }
  destruct (Qle_bool (round4 (Qmin r (hours_left st))) 0) eqn:La.
  { intros [= <- <-]. now left. }
  intros [= <- <-]. right. exists topic, r, (round4 (Qmin r (hours_left st))).
  apply Qlt_bool_false in Lr. apply Qle_bool_false in La.
  repeat split; auto.
Qed.

Section Step.

Variables (day : Z) (st st' : loop_state) (fl : flow).
Variables (topic : string) (r alloc : Q).
Hypothesis E : emits day st st' fl topic r alloc.

Lemma emits_alloc_pos_quarter : pos_quarter alloc.
Proof.
  destruct E as (_ & _ & -> & Hpos & _). now apply round4_pos.
Qed.

(** The amount is within 1/8 hour of [min(remaining[topic], hours_left)]. *)
Lemma emits_alloc_near :
  Qmin r (hours_left st) - (1 # 8) <= alloc /\
  alloc <= Qmin r (hours_left st) + (1 # 8).
Proof. destruct E as (_ & _ & -> & _). apply round4_bounds. Qed.

Lemma emits_rows : schedule_rows st' = schedule_rows st ++ [mkRow day topic alloc].
Proof. destruct E as (_ & _ & _ & _ & -> & _). reflexivity. Qed.

Lemma emits_hours_left : hours_left st' = round4 (hours_left st - alloc).
Proof. destruct E as (_ & _ & _ & _ & -> & _). reflexivity. Qed.

Lemma emits_remaining :
  remaining_hours st' = dict_set (remaining_hours st) topic (round4 (r - alloc)).
Proof. destruct E as (_ & _ & _ & _ & -> & _). reflexivity. Qed.

(** [hours_left] stays a non-negative number of quarters. *)
Lemma emits_hours_left_quarter : quarter (hours_left st').
Proof.
  rewrite emits_hours_left. apply round4_quarter.
  destruct emits_alloc_near as [_ Hu].
  pose proof (Q.le_min_r r (hours_left st)). lra.
Qed.

(** [hours_left] drops by at least 1/8 hour. *)
Lemma emits_hours_left_drop : hours_left st' <= hours_left st - (1 # 8).
Proof.
  rewrite emits_hours_left.
  destruct (round4_bounds (hours_left st - alloc)) as [_ Hu].
  pose proof (pos_quarter_ge _ emits_alloc_pos_quarter). lra.
Qed.

(** When [hours_left] is already a number of quarters, nothing is
    rounded: the drop is [alloc] itself. *)
Lemma emits_hours_left_exact :
  quarter (hours_left st) -> hours_left st' == hours_left st - alloc.
Proof.
  intro Hq. rewrite emits_hours_left.
  apply round4_sub_exact; [exact Hq | exact emits_alloc_pos_quarter].
Qed.

Section Quarter_remaining.

Hypothesis Hr : quarter r.

Lemma emits_alloc_le_r : alloc <= r.
Proof.
  destruct E as (_ & _ & -> & _).
  destruct Hr as (n & Hn & En).
  assert (R : round4 r == r) by (rewrite (round4_exact n r En); symmetry; exact En).
  rewrite <- R at 2. apply round4_mono. apply Q.le_min_l.
Qed.

Lemma emits_remaining_exact : round4 (r - alloc) == r - alloc.
Proof. apply round4_sub_exact; [exact Hr | exact emits_alloc_pos_quarter]. Qed.

Lemma emits_remaining_quarter : quarter (round4 (r - alloc)).
Proof. apply round4_quarter. pose proof emits_alloc_le_r. lra. Qed.

Lemma emits_alloc_exact :
  quarter (hours_left st) -> alloc == Qmin r (hours_left st).
Proof.
  intro Hq. destruct E as (_ & _ & -> & _).
  now apply round4_min_exact.
Qed.

End Quarter_remaining.

End Step.

(** ** The dict across a run of the body *)

Lemma dict_ok_max d topic r :
  dict_ok d -> max_item d = Some (topic, r) -> quarter r.
Proof.
  intros [_ F] M. apply max_item_In in M.
  rewrite Forall_forall in F. exact (F _ M).
Qed.

Lemma emits_dict_ok day st st' fl topic r alloc :
  emits day st st' fl topic r alloc ->
  dict_ok (remaining_hours st) -> dict_ok (remaining_hours st').
Proof.
  intros E Hok. pose proof (dict_ok_max _ _ _ Hok (proj1 E)) as Hr.
  rewrite (emits_remaining _ _ _ _ _ _ _ E). destruct Hok as [ND F]. split.
  - now apply dict_set_NoDup.
  - apply dict_set_Forall; [exact F|]. eapply emits_remaining_quarter; eauto.
Qed.

Lemma loop_body_dict_ok day st st' fl :
  loop_body day st = (st', fl) ->
  dict_ok (remaining_hours st) -> dict_ok (remaining_hours st').
Proof.
  intros B Hok. destruct (loop_body_cases _ _ _ _ B) as [[-> _]|(t & r & a & E)].
  - exact Hok.
  - eapply emits_dict_ok; eauto.
Qed.

(** Every entry of the dict after a run of the body is at most what it
    was, and not negative. *)
Lemma loop_body_decreases day st st' fl k v :
  dict_ok (remaining_hours st) ->
  loop_body day st = (st', fl) ->
  dict_get (remaining_hours st) k = Some v ->
  exists v', dict_get (remaining_hours st') k = Some v' /\ 0 <= v' /\ v' <= v.
Proof.
  intros Hok B G.
  assert (Hv : quarter v).
  { destruct Hok as [_ F]. rewrite Forall_forall in F.
    exact (F _ (dict_get_In _ _ _ G)). }
  destruct (loop_body_cases _ _ _ _ B) as [[-> _]|(t & r & a & E)].
  - exists v. split; [exact G|]. split; [now apply quarter_nonneg | lra].
  - pose proof (dict_ok_max _ _ _ Hok (proj1 E)) as Hr.
    rewrite (emits_remaining _ _ _ _ _ _ _ E).
    destruct (string_dec t k) as [<-|N].
    + rewrite dict_get_set_same. eexists. split; [reflexivity|].
      assert (v = r).
      { pose proof (max_item_get _ _ _ (proj1 Hok) (proj1 E)). congruence. }
      subst v. split.
      * apply quarter_nonneg. eapply emits_remaining_quarter; eauto.
      * rewrite (emits_remaining_exact _ _ _ _ _ _ _ E Hr).
        pose proof (pos_quarter_ge _ (emits_alloc_pos_quarter _ _ _ _ _ _ _ E)). lra.
    + rewrite dict_get_set_other by exact N. exists v.
      split; [exact G|]. split; [now apply quarter_nonneg | lra].
Qed.

(** ** The [while] loop of one day *)

Lemma sum_hours_app l1 l2 : sum_hours (l1 ++ l2) == sum_hours l1 + sum_hours l2.
Proof.
  induction l1 as [|a l1 IH]; simpl; [lra|]. rewrite IH. lra.
Qed.

Lemma day_sum_app d l1 l2 : day_sum d (l1 ++ l2) == day_sum d l1 + day_sum d l2.
Proof. unfold day_sum. rewrite filter_app. apply sum_hours_app. Qed.

Lemma loop_guard_hours st : loop_guard st = true -> 1 # 4 <= hours_left st.
Proof.
  unfold loop_guard. rewrite andb_true_iff. intros [H _].
  now apply Qle_bool_iff.
Qed.

Lemma while_loop_rows fuel day : forall st st',
  dict_ok (remaining_hours st) ->
  while_loop fuel day st = Some st' ->
  dict_ok (remaining_hours st') /\
  exists new,
    schedule_rows st' = schedule_rows st ++ new /\
    day_rows day new /\
    (new = [] \/ (1 # 4 <= hours_left st /\ sum_hours new <= hours_left st + (1 # 8))) /\
    (quarter (hours_left st) -> sum_hours new <= hours_left st).
Proof.
  induction fuel as [|fuel IH]; intros st st' Hok; simpl.
  - destruct (loop_guard st); [discriminate|]. intros [= <-].
    split; [exact Hok|]. exists []. rewrite app_nil_r.
    repeat split; [constructor | now left |].
    intro Hq. simpl. now apply quarter_nonneg.
  - destruct (loop_guard st) eqn:G.
    2: { intros [= <-]. split; [exact Hok|]. exists []. rewrite app_nil_r.
         repeat split; [constructor | now left |].
         intro Hq. simpl. now apply quarter_nonneg. }
    apply loop_guard_hours in G.
    destruct (loop_body day st) as [st1 fl1] eqn:B.
    destruct (loop_body_cases _ _ _ _ B) as [[-> ->]|(t & r & a & E)].
    { intros [= <-]. split; [exact Hok|]. exists []. rewrite app_nil_r.
      repeat split; [constructor | now left |].
      intro Hq. simpl. now apply quarter_nonneg. }
    pose proof (emits_dict_ok _ _ _ _ _ _ _ E Hok) as Hok1.
    pose proof (dict_ok_max _ _ _ Hok (proj1 E)) as Hr.
    pose proof (emits_alloc_pos_quarter _ _ _ _ _ _ _ E) as Ha.
    pose proof (emits_alloc_near _ _ _ _ _ _ _ E) as [_ Hnear].
    pose proof (emits_hours_left_quarter _ _ _ _ _ _ _ E) as Hq1.
    pose proof (emits_rows _ _ _ _ _ _ _ E) as Hrows.
    pose proof (Q.le_min_r r (hours_left st)) as Hmin.
    assert (Hhl1 : hours_left st1 <= hours_left st - a + (1 # 8)).
    { rewrite (emits_hours_left _ _ _ _ _ _ _ E). apply round4_bounds. }
    destruct fl1.
    + intro W. destruct (IH _ _ Hok1 W) as (Hok' & new & Hn & Hd & _ & Hs).
      split; [exact Hok'|].
      exists (mkRow day t a :: new). rewrite Hn, Hrows, <- app_assoc.
      split; [reflexivity|]. split; [constructor; [split|]; auto|].
      specialize (Hs Hq1). simpl. split.
      * right. split; [exact G | lra].
      * intro Hq.
        pose proof (emits_hours_left_exact _ _ _ _ _ _ _ E Hq) as Hex. lra.
    + intros [= <-]. split; [exact Hok1|].
      exists [mkRow day t a]. split; [exact Hrows|].
      split; [repeat constructor; auto|]. simpl. split.
      * right. split; [exact G | lra].
      * intro Hq.
        pose proof (emits_alloc_exact _ _ _ _ _ _ _ E Hr Hq) as Hex. lra.
Qed.

(** ** Termination *)

Lemma floor_lt a b : a <= b - 1 -> (Qfloor a < Qfloor b)%Z.
Proof.
  intro H. destruct (floor_bounds a) as [Ha _], (floor_bounds b) as [_ Hb].
  rewrite Zlt_Qlt. lra.
Qed.

(** A run of the body that goes on to the next iteration takes at least
    one off [floor (8 * hours_left)]. *)
Lemma loop_body_next_measure day st st' :
  loop_body day st = (st', Next) ->
  (0 <= Qfloor (8 * hours_left st') < Qfloor (8 * hours_left st))%Z.
Proof.
  intro B. destruct (loop_body_cases _ _ _ _ B) as [[_ [=]]|(t & r & a & E)].
  pose proof (emits_hours_left_drop _ _ _ _ _ _ _ E) as Hd.
  pose proof (emits_hours_left_quarter _ _ _ _ _ _ _ E) as Hq.
  apply quarter_nonneg in Hq. split.
  - change 0%Z with (Qfloor 0). apply Qfloor_resp_le. lra.
  - apply floor_lt. lra.
Qed.

Lemma while_loop_terminates fuel : forall day st,
  (Z.to_nat (Qfloor (8 * hours_left st)) <= fuel)%nat ->
  exists st', while_loop fuel day st = Some st'.
Proof.
  induction fuel as [|fuel IH]; intros day st Hf; simpl.
  - destruct (loop_guard st) eqn:G; [|eauto]. exfalso.
    apply loop_guard_hours in G.
    assert (Qfloor 2 <= Qfloor (8 * hours_left st))%Z
      by (apply Qfloor_resp_le; lra).
    change (Qfloor 2) with 2%Z in *. lia.
  - destruct (loop_guard st) eqn:G; [|eauto].
    destruct (loop_body day st) as [st1 [|]] eqn:B; [|eauto].
    apply IH. pose proof (loop_body_next_measure _ _ _ B). lia.
Qed.

Lemma while_loop_fuel_mono fuel : forall fuel' day st st',
  (fuel <= fuel')%nat ->
  while_loop fuel day st = Some st' -> while_loop fuel' day st = Some st'.
Proof.
  induction fuel as [|fuel IH]; intros fuel' day st st' Hle; simpl.
  - destruct (loop_guard st) eqn:G; [discriminate|].
    intros [= <-]. destruct fuel'; simpl; now rewrite G.
  - destruct fuel' as [|fuel']; [lia|]. simpl.
    destruct (loop_guard st); [|auto].
    destruct (loop_body day st) as [st1 [|]]; [|auto].
    apply IH. lia.
Qed.

Lemma for_days_terminates fuel daily_hours days : forall rem rows,
  (day_fuel daily_hours <= fuel)%nat ->
  exists res, for_days fuel days daily_hours rem rows = Some res.
Proof.
  induction days as [|day days IH]; intros rem rows Hf; simpl; [eauto|].
  destruct (while_loop_terminates fuel day (mkState rem daily_hours rows) Hf)
    as [st ->].
  now apply IH.
Qed.

Lemma for_days_fuel_mono fuel fuel' daily_hours days : forall rem rows res,
  (fuel <= fuel')%nat ->
  for_days fuel days daily_hours rem rows = Some res ->
  for_days fuel' days daily_hours rem rows = Some res.
Proof.
  induction days as [|day days IH]; intros rem rows res Hle; simpl; [auto|].
  destruct (while_loop fuel day (mkState rem daily_hours rows)) as [st|] eqn:W;
    [|discriminate].
  rewrite (while_loop_fuel_mono _ _ _ _ _ Hle W). now apply IH.
Qed.

Lemma generate_schedule_fuel_enough fuel today topics exam_date daily_hours iw :
  (day_fuel daily_hours <= fuel)%nat ->
  generate_schedule_fuel fuel today topics exam_date daily_hours iw
  = generate_schedule today topics exam_date daily_hours iw.
Proof.
  intro Hf. unfold generate_schedule, generate_schedule_fuel.
  destruct (exam_date <=? today)%Z; [reflexivity|].
  destruct (Nat.eqb _ 0); [reflexivity|].
  destruct (demand_model topics _) as [e|rem0]; [reflexivity|].
  destruct (for_days_terminates (day_fuel daily_hours) daily_hours
              (study_days_of today exam_date iw) rem0 [] (Nat.le_refl _)) as [res W].
  rewrite W, (for_days_fuel_mono _ _ _ _ _ _ _ Hf W). reflexivity.
Qed.

Lemma generate_schedule_returns today topics exam_date daily_hours iw :
  exists res, generate_schedule today topics exam_date daily_hours iw = Some res.
Proof.
  unfold generate_schedule, generate_schedule_fuel.
  destruct (exam_date <=? today)%Z; [eauto|].
  destruct (Nat.eqb _ 0); [eauto|].
  destruct (demand_model topics _) as [e|rem0]; [eauto|].
  destruct (for_days_terminates (day_fuel daily_hours) daily_hours
              (study_days_of today exam_date iw) rem0 [] (Nat.le_refl _))
    as [[rem rows] ->].
  destruct rows; [|eauto].
  destruct (fallback_rows _ _ _ _); eauto.
Qed.

(** ** The demand model *)

Section Demand.

Lemma weight_ge_1 t : valid_topic t -> 1 <= weight t.
Proof.
  unfold valid_topic, weight. intros [H _].
  apply (proj1 (inject_Z_ge_1 _)) in H. destruct (priority t); lra.
Qed.

Lemma fold_left_Qplus ws : forall a, fold_left Qplus ws a == a + fold_left Qplus ws 0.
Proof.
  induction ws as [|w ws IH]; intro a; simpl; [lra|].
  rewrite (IH (a + w)), (IH (0 + w)). lra.
Qed.

Lemma sum_weights_cons w ws : sum_weights (w :: ws) == w + sum_weights ws.
Proof. unfold sum_weights. simpl. rewrite fold_left_Qplus. lra. Qed.

Lemma sum_weights_nonneg ws : Forall (fun w => 1 <= w) ws -> 0 <= sum_weights ws.
Proof.
  induction 1 as [|w ws Hw _ IH]; [unfold sum_weights; simpl; lra|].
  rewrite sum_weights_cons. lra.
Qed.

Lemma sum_weights_pos ws :
  ws <> [] -> Forall (fun w => 1 <= w) ws -> 0 < sum_weights ws.
Proof.
  intros N H. destruct H as [|w ws Hw H]; [congruence|].
  rewrite sum_weights_cons. pose proof (sum_weights_nonneg _ H). lra.
Qed.

Lemma weights_valid topics :
  Forall valid_topic topics -> Forall (fun w => 1 <= w) (map weight topics).
Proof.
  induction 1; simpl; constructor; auto using weight_ge_1.
Qed.

(** The stored entitlement: a whole number of half hours, at least one. *)
Lemma allocated_hours_value w sum_w total a :
  allocated_hours w sum_w total = inr a ->
  ~ sum_w == 0 /\
  a == Qmax (1 # 2) (inject_Z (py_round (w / sum_w * total * 2)) / 2).
Proof.
  unfold allocated_hours. destruct (Qeq_bool sum_w 0) eqn:Z; [discriminate|].
  apply Qeq_bool_neq in Z. split; [exact Z|].
  destruct (Qlt_bool _ (1 # 2)) eqn:L; injection H as <-.
  - apply Qlt_bool_iff in L. rewrite Q.max_l; [reflexivity | lra].
  - apply Qlt_bool_false in L. rewrite Q.max_r; [reflexivity | exact L].
Qed.

Lemma allocated_hours_half w sum_w total a :
  allocated_hours w sum_w total = inr a -> quarter a /\ 1 # 2 <= a.
Proof.
  unfold allocated_hours. destruct (Qeq_bool sum_w 0); [discriminate|].
  set (z := py_round (w / sum_w * total * 2)).
  destruct (Qlt_bool (inject_Z z / 2) (1 # 2)) eqn:L; intros [= <-].
  - split; [|lra]. exists 2%Z. split; [lia | reflexivity].
  - apply Qlt_bool_false in L. split; [|exact L].
    exists (2 * z)%Z. split.
    + apply (proj2 (inject_Z_le_0 _)). rewrite inject_Z_mult.
      unfold Qdiv in L. change (/ 2) with (1 # 2) in L.
      change (inject_Z 2) with 2. lra.
    + rewrite inject_Z_mult. change (inject_Z 2) with 2. field.
Qed.

Lemma allocated_hours_defined w sum_w total :
  ~ sum_w == 0 -> exists a, allocated_hours w sum_w total = inr a.
Proof.
  intro N. unfold allocated_hours.
  destruct (Qeq_bool sum_w 0) eqn:Z; [|eauto].
  apply Qeq_bool_iff in Z. contradiction.
Qed.

Lemma allocated_hours_zero w sum_w total :
  sum_w == 0 -> allocated_hours w sum_w total = inl ZeroDivisionError.
Proof.
  intro Z. unfold allocated_hours. apply Qeq_bool_iff in Z. now rewrite Z.
Qed.

Lemma demand_loop_ok tws sum_w total : forall d0 d,
  demand_loop tws sum_w total d0 = inr d -> demand_ok d0 -> demand_ok d.
Proof.
  induction tws as [|[t w] tws IH]; intros d0 d; simpl.
  - now intros [= <-].
  - destruct (allocated_hours w sum_w total) as [e|a] eqn:A; [discriminate|].
    intros L [[ND F] G]. apply (IH _ _ L).
    destruct (allocated_hours_half _ _ _ _ A) as [Hq Hh].
    repeat split.
    + now apply dict_set_NoDup.
    + now apply dict_set_Forall.
    + now apply (dict_set_Forall (fun v => 1 # 2 <= v)).
Qed.

Lemma demand_loop_defined tws sum_w total : forall d0,
  ~ sum_w == 0 -> exists d, demand_loop tws sum_w total d0 = inr d.
Proof.
  induction tws as [|[t w] tws IH]; intros d0 N; simpl; [eauto|].
  destruct (allocated_hours_defined w sum_w total N) as [a ->]. now apply IH.
Qed.

Lemma demand_loop_keys tws sum_w total : forall d0 d,
  demand_loop tws sum_w total d0 = inr d ->
  forall k, In k (dict_keys d0) \/ In k (map (fun tw => name (fst tw)) tws) ->
            In k (dict_keys d).
Proof.
  induction tws as [|[t w] tws IH]; intros d0 d; simpl.
  - intros [= <-] k [H|[]]. exact H.
  - destruct (allocated_hours w sum_w total) as [e|a]; [discriminate|].
    intros L k H. apply (IH _ _ L).
    destruct (in_dec string_dec (name t) (dict_keys d0)) as [I|I].
    + rewrite dict_keys_set_old by exact I.
      destruct H as [H|[<-|H]]; auto.
    + rewrite dict_keys_set_new by exact I.
      rewrite in_app_iff. simpl. destruct H as [H|[<-|H]]; auto.
Qed.

Lemma demand_model_ok topics total d :
  demand_model topics total = inr d -> demand_ok d.
Proof.
  intro H. apply (demand_loop_ok _ _ _ _ _ H).
  repeat split; constructor.
Qed.

Lemma demand_model_defined topics total :
  topics <> [] -> Forall valid_topic topics ->
  exists d, demand_model topics total = inr d /\ d <> [].
Proof.
  intros N V. unfold demand_model.
  assert (P : 0 < sum_weights (map weight topics)).
  { apply sum_weights_pos; [|now apply weights_valid].
    destruct topics; [congruence | discriminate]. }
  destruct (demand_loop_defined (combine topics (map weight topics))
              (sum_weights (map weight topics)) total []) as [d Hd].
  { intro Z. rewrite Z in P. lra. }
  exists d. split; [exact Hd|].
  destruct topics as [|t topics]; [congruence|].
  pose proof (demand_loop_keys _ _ _ _ _ Hd (name t)) as K.
  simpl in K. specialize (K (or_intror (or_introl eq_refl))).
  intros ->. exact K.
Qed.

End Demand.

(** ** The greedy pass over the study days *)

Section Greedy.

Variable daily_hours : Q.

Lemma day_sum_absent d rows :
  (forall r, In r rows -> Date r <> d) -> day_sum d rows = 0.
Proof.
  intro H. unfold day_sum.
  replace (filter (fun r => (Date r =? d)%Z) rows) with (@nil ScheduleRow);
    [reflexivity|].
  symmetry. induction rows as [|a rows IH]; simpl; [reflexivity|].
  destruct (Z.eqb_spec (Date a) d) as [Ed|_].
  - exfalso. apply (H a); simpl; auto.
  - apply IH. intros r Hr. apply H. simpl. auto.
Qed.

Lemma day_sum_day_rows day new : day_rows day new -> day_sum day new = sum_hours new.
Proof.
  intro H. unfold day_sum. f_equal.
  induction H as [|a new [Ha _] _ IH]; simpl; [reflexivity|].
  rewrite Ha, Z.eqb_refl. now f_equal.
Qed.

Lemma day_sum_other_day d day new : d <> day -> day_rows day new -> day_sum d new = 0.
Proof.
  intros N H. apply day_sum_absent. intros r Hr.
  unfold day_rows in H. rewrite Forall_forall in H.
  destruct (H _ Hr) as [-> _]. auto.
Qed.

Lemma sum_hours_nonneg rows :
  Forall (fun r => pos_quarter (Hours r)) rows -> 0 <= sum_hours rows.
Proof.
  induction 1 as [|a rows Ha _ IH]; simpl; [lra|].
  apply pos_quarter_ge in Ha. lra.
Qed.

Lemma for_days_rows fuel days : forall rem rows rem' rows',
  dict_ok rem -> NoDup days ->
  (forall r, In r rows -> ~ In (Date r) days) ->
  greedy_inv daily_hours rows ->
  for_days fuel days daily_hours rem rows = Some (rem', rows') ->
  dict_ok rem' /\ greedy_inv daily_hours rows'.
Proof.
  induction days as [|day days IH]; intros rem rows rem' rows' Hok ND Hfresh Hinv;
    simpl.
  - intros [= <- <-]. auto.
  - destruct (while_loop fuel day (mkState rem daily_hours rows)) as [st|] eqn:W;
      [|discriminate].
    destruct (while_loop_rows fuel day (mkState rem daily_hours rows) st Hok W)
      as (Hok1 & new & Hn & Hd & Hb & _).
    simpl in Hn, Hb. inversion ND as [|? ? Hday ND']; subst.
    apply IH; auto.
    + rewrite Hn. intros r Hr. apply in_app_or in Hr. destruct Hr as [Hr|Hr].
      * intro C. apply (Hfresh r Hr). simpl. auto.
      * unfold day_rows in Hd. rewrite Forall_forall in Hd.
        destruct (Hd _ Hr) as [-> _]. exact Hday.
    + rewrite Hn. destruct Hb as [->|[Hq Hs]]; [now rewrite app_nil_r|].
      right. split; [exact Hq|].
      assert (Hnew : Forall (fun r => pos_quarter (Hours r)) new).
      { eapply Forall_impl; [|exact Hd]. simpl. tauto. }
      split.
      * apply Forall_app. split; [|exact Hnew].
        destruct Hinv as [->|(_ & F & _)]; [constructor | exact F].
      * intro d. rewrite day_sum_app.
        destruct (Z.eq_dec d day) as [->|N].
        -- rewrite (day_sum_absent day rows), (day_sum_day_rows _ _ Hd); [lra|].
           intros r Hr E. apply (Hfresh r Hr). simpl. auto.
        -- rewrite (day_sum_other_day _ _ _ N Hd).
           destruct Hinv as [->|(_ & _ & S)]; [|specialize (S d); lra].
           unfold day_sum. simpl. lra.
Qed.

(** Below a quarter of an hour a day, the greedy pass does nothing. *)
Lemma for_days_idle fuel days rem rows :
  daily_hours < 1 # 4 ->
  for_days fuel days daily_hours rem rows = Some (rem, rows).
Proof.
  intro H. induction days as [|day days IH]; simpl; [reflexivity|].
  assert (G : loop_guard (mkState rem daily_hours rows) = false).
  { unfold loop_guard. simpl. apply andb_false_iff. left.
    now apply Qle_bool_false. }
  destruct fuel; simpl; rewrite G; exact IH.
Qed.

Lemma while_loop_grows fuel day : forall st st',
  while_loop fuel day st = Some st' ->
  exists new, schedule_rows st' = schedule_rows st ++ new.
Proof.
  induction fuel as [|fuel IH]; intros st st'; simpl.
  - destruct (loop_guard st); [discriminate|]. intros [= <-].
    exists []. now rewrite app_nil_r.
  - destruct (loop_guard st).
    2: { intros [= <-]. exists []. now rewrite app_nil_r. }
    destruct (loop_body day st) as [st1 fl] eqn:B.
    assert (G1 : exists new, schedule_rows st1 = schedule_rows st ++ new).
    { destruct (loop_body_cases _ _ _ _ B) as [[-> _]|(t & r & a & E)].
      - exists []. now rewrite app_nil_r.
      - eexists. eapply emits_rows; eauto. }
    destruct G1 as [n1 H1]. destruct fl.
    + intro W. destruct (IH _ _ W) as [n2 H2].
      exists (n1 ++ n2). now rewrite H2, H1, app_assoc.
    + intros [= <-]. eauto.
Qed.

Lemma for_days_grows fuel days : forall rem rows rem' rows',
  for_days fuel days daily_hours rem rows = Some (rem', rows') ->
  exists new, rows' = rows ++ new.
Proof.
  induction days as [|day days IH]; intros rem rows rem' rows'; simpl.
  - intros [= <- <-]. exists []. now rewrite app_nil_r.
  - destruct (while_loop fuel day (mkState rem daily_hours rows)) as [st|] eqn:W;
      [|discriminate].
    destruct (while_loop_grows _ _ _ _ W) as [n1 H1]. simpl in H1.
    intro F. destruct (IH _ _ _ _ F) as [n2 H2].
    exists (n1 ++ n2). now rewrite H2, H1, app_assoc.
Qed.

(** With at least a quarter of an hour a day, the first run of the
    body on a fresh demand model emits a row. *)
Lemma first_step_emits day rem rows :
  demand_ok rem -> rem <> [] -> 1 # 4 <= daily_hours ->
  let st := mkState rem daily_hours rows in
  loop_guard st = true /\
  exists st1 fl topic r alloc,
    loop_body day st = (st1, fl) /\ emits day st st1 fl topic r alloc.
Proof.
  intros [Hok Hhalf] Hne Hd st.
  destruct rem as [|[k v] rem]; [congruence|].
  assert (Hv : 1 # 2 <= v) by (inversion Hhalf; auto).
  split.
  { unfold loop_guard. apply andb_true_iff. split.
    - now apply Qle_bool_iff.
    - simpl. apply orb_true_iff. left. apply Qlt_bool_iff. lra. }
  destruct (max_item ((k, v) :: rem)) as [[t r]|] eqn:M.
  2: { apply max_item_None in M. discriminate. }
  assert (Hr : 1 # 2 <= r).
  { pose proof (max_item_max _ _ _ M) as F. inversion F. simpl in *. lra. }
  assert (Ha : 1 # 4 <= round4 (Qmin r daily_hours)).
  { assert (E4 : round4 (1 # 4) == 1 # 4) by reflexivity.
    rewrite <- E4 at 1. apply round4_mono. apply Q.min_glb; lra. }
  destruct (loop_body day st) as [st1 fl] eqn:B.
  exists st1, fl, t, r, (round4 (Qmin r daily_hours)).
  split; [reflexivity|].
  unfold loop_body in B. subst st.
  cbn [remaining_hours hours_left schedule_rows] in B. rewrite M in B.
  destruct (Qlt_bool r (1 # 4)) eqn:L1.
  { apply Qlt_bool_iff in L1. lra. }
  destruct (Qle_bool (round4 (Qmin r daily_hours)) 0) eqn:L2.
  { apply Qle_bool_iff in L2. lra. }
  injection B as <- <-. unfold emits.
  cbn [remaining_hours hours_left schedule_rows].
  repeat split; auto; lra.
Qed.

Lemma for_days_nonempty fuel day days rem rem' rows' :
  demand_ok rem -> rem <> [] -> 1 # 4 <= daily_hours ->
  for_days fuel (day :: days) daily_hours rem [] = Some (rem', rows') ->
  rows' <> [].
Proof.
  intros Hok Hne Hd. simpl.
  destruct (while_loop fuel day (mkState rem daily_hours [])) as [st|] eqn:W;
    [|discriminate].
  intro F. destruct (for_days_grows _ _ _ _ _ _ F) as [n2 ->].
  assert (S1 : schedule_rows st <> []).
  { destruct (first_step_emits day rem [] Hok Hne Hd) as (G & st1 & fl & t & r & a & B & E).
    destruct fuel; simpl in W; rewrite G in W; [discriminate|].
    rewrite B in W. pose proof (emits_rows _ _ _ _ _ _ _ E) as R. simpl in R.
    destruct fl.
    - destruct (while_loop_grows _ _ _ _ W) as [n ->]. rewrite R. discriminate.
    - injection W as <-. rewrite R. discriminate. }
  destruct (schedule_rows st); [congruence | discriminate].
Qed.

End Greedy.

(** ** Aggregation *)

Section Aggregation.

Lemma key_compare_Eq r a : key_compare r a = Eq -> Date r = Date a.
Proof.
  unfold key_compare. destruct (Z.compare_spec (Date r) (Date a)); congruence.
Qed.

Lemma agg_insert_nonempty r acc : agg_insert r acc <> [].
Proof. destruct acc as [|a acc]; simpl; [|destruct (key_compare r a)]; discriminate. Qed.

Lemma groupby_sum_nonempty rows : rows <> [] -> groupby_sum rows <> [].
Proof.
  unfold groupby_sum. intro N.
  destruct (exists_last N) as (l & r & ->).
  rewrite fold_left_app. simpl. apply agg_insert_nonempty.
Qed.

Lemma day_sum_cons d a rows :
  day_sum d (a :: rows) = if (Date a =? d)%Z then Hours a + day_sum d rows else day_sum d rows.
Proof. unfold day_sum. simpl. now destruct (Date a =? d)%Z. Qed.

Lemma day_sum_nil d : day_sum d [] = 0.
Proof. reflexivity. Qed.

Lemma day_sum_agg_insert d r : forall acc,
  day_sum d (agg_insert r acc) == day_sum d acc + day_sum d [r].
Proof.
  induction acc as [|a acc IH]; cbn [agg_insert].
  - rewrite !day_sum_cons, !day_sum_nil. destruct (Date r =? d)%Z; lra.
  - destruct (key_compare r a) eqn:K.
    + apply key_compare_Eq in K. rewrite !day_sum_cons, !day_sum_nil.
      cbn [Date Hours]. rewrite K. destruct (Date a =? d)%Z; lra.
    + rewrite !day_sum_cons, !day_sum_nil.
      destruct (Date r =? d)%Z, (Date a =? d)%Z; lra.
    + rewrite !day_sum_cons, !day_sum_nil in *.
      destruct (Date a =? d)%Z; rewrite IH; lra.
Qed.

Lemma day_sum_fold d rows : forall acc,
  day_sum d (fold_left (fun acc r => agg_insert r acc) rows acc)
  == day_sum d acc + day_sum d rows.
Proof.
  induction rows as [|r rows IH]; intro acc; cbn [fold_left].
  - rewrite day_sum_nil. lra.
  - rewrite IH, day_sum_agg_insert, !day_sum_cons, !day_sum_nil.
    destruct (Date r =? d)%Z; lra.
Qed.

(** Aggregation leaves the hours of every date unchanged. *)
Lemma day_sum_groupby d rows : day_sum d (groupby_sum rows) == day_sum d rows.
Proof.
  unfold groupby_sum. rewrite day_sum_fold, day_sum_nil. lra.
Qed.

Lemma agg_insert_pos_quarter r : forall acc,
  pos_quarter (Hours r) ->
  Forall (fun a => pos_quarter (Hours a)) acc ->
  Forall (fun a => pos_quarter (Hours a)) (agg_insert r acc).
Proof.
  intros acc Hr H. induction H as [|a acc Ha H IH]; simpl.
  - repeat constructor. exact Hr.
  - destruct (key_compare r a); repeat constructor; auto.
    simpl. now apply pos_quarter_plus.
Qed.

Lemma groupby_sum_pos_quarter rows :
  Forall (fun a => pos_quarter (Hours a)) rows ->
  Forall (fun a => pos_quarter (Hours a)) (groupby_sum rows).
Proof.
  unfold groupby_sum. generalize (@nil ScheduleRow) (Forall_nil (fun a => pos_quarter (Hours a))).
  intros acc Hacc H. revert acc Hacc.
  induction H as [|r rows Hr H IH]; intros acc Hacc; simpl; [exact Hacc|].
  apply IH. now apply agg_insert_pos_quarter.
Qed.

Lemma agg_insert_last r : forall acc,
  Forall (fun a => date_lt a r) acc -> agg_insert r acc = acc ++ [r].
Proof.
  induction 1 as [|a acc Ha H IH]; simpl; [reflexivity|].
  unfold key_compare. unfold date_lt in Ha.
  destruct (Z.compare_spec (Date r) (Date a)); try lia.
  now rewrite IH.
Qed.

Lemma fold_agg_sorted rows : forall acc,
  StronglySorted date_lt (acc ++ rows) ->
  fold_left (fun acc r => agg_insert r acc) rows acc = acc ++ rows.
Proof.
  induction rows as [|r rows IH]; intros acc S; simpl.
  - now rewrite app_nil_r.
  - assert (E : acc ++ r :: rows = (acc ++ [r]) ++ rows)
      by (now rewrite <- app_assoc).
    rewrite agg_insert_last.
    + rewrite IH; [now rewrite <- app_assoc | now rewrite <- E].
    + clear IH E. induction acc as [|a acc IHa]; [constructor|].
      simpl in S. inversion S as [|? ? S' F]; subst.
      constructor; [|auto].
      rewrite Forall_forall in F. apply F. apply in_or_app. right. now left.
Qed.

Lemma groupby_sum_sorted rows :
  StronglySorted date_lt rows -> groupby_sum rows = rows.
Proof. intro S. unfold groupby_sum. now rewrite fold_agg_sorted. Qed.

End Aggregation.

(** ** The study window *)

Section Window.

Lemma offsets_sorted today n : forall s,
  StronglySorted Z.lt (map (fun i => (today + Z.of_nat i)%Z) (seq s n)).
Proof.
  induction n as [|n IH]; intro s; simpl; constructor; [apply IH|].
  rewrite Forall_forall. intros x Hx. apply in_map_iff in Hx.
  destruct Hx as (i & <- & Hi). apply in_seq in Hi. lia.
Qed.

Lemma filter_sorted (f : Z -> bool) l :
  StronglySorted Z.lt l -> StronglySorted Z.lt (filter f l).
Proof.
  induction 1 as [|a l S IH F]; simpl; [constructor|].
  destruct (f a); [|exact IH]. constructor; [exact IH|].
  rewrite Forall_forall in *. intros x Hx. apply filter_In in Hx. now apply F.
Qed.

Lemma study_days_sorted today exam_date iw :
  StronglySorted Z.lt (study_days_of today exam_date iw).
Proof. apply filter_sorted, offsets_sorted. Qed.

Lemma sorted_NoDup l : StronglySorted Z.lt l -> NoDup l.
Proof.
  induction 1 as [|a l S IH F]; constructor; [|exact IH].
  intro I. rewrite Forall_forall in F. specialize (F _ I). lia.
Qed.

(** The study days lie in [today, exam_date). *)
Lemma study_days_range today exam_date iw d :
  In d (study_days_of today exam_date iw) -> (today <= d < exam_date)%Z.
Proof.
  unfold study_days_of. intro H. apply filter_In in H. destruct H as [H _].
  apply in_map_iff in H. destruct H as (i & <- & Hi). apply in_seq in Hi. lia.
Qed.

End Window.

(** ** The fallback *)

Section Fallback.

Lemma fallback_rows_nonempty_names names daily_hours days : forall ti,
  names <> [] ->
  fallback_rows days names ti daily_hours = inr (round_robin days names ti daily_hours).
Proof.
  induction days as [|day days IH]; intros ti N; simpl; [reflexivity|].
  destruct names as [|k names]; [congruence|].
  cbn [List.length]. rewrite IH by exact N. reflexivity.
Qed.

Lemma fallback_rows_no_names daily_hours day days ti :
  fallback_rows (day :: days) [] ti daily_hours = inl ZeroDivisionError.
Proof. reflexivity. Qed.

Lemma round_robin_dates names daily_hours days : forall ti,
  map Date (round_robin days names ti daily_hours) = days.
Proof. induction days; intro ti; simpl; [|rewrite IHdays]; reflexivity. Qed.

Lemma round_robin_hours names daily_hours days : forall ti,
  Forall (fun r => Hours r = daily_hours) (round_robin days names ti daily_hours).
Proof. induction days; intro ti; simpl; constructor; auto. Qed.

Lemma round_robin_nth names daily_hours days : forall ti i,
  (i < List.length days)%nat ->
  nth_error (round_robin days names ti daily_hours) i
  = Some (mkRow (nth i days 0%Z)
                (nth (Nat.modulo (ti + i) (List.length names)) names EmptyString)
                daily_hours).
Proof.
  induction days as [|day days IH]; intros ti i Hi; simpl in Hi; [lia|].
  destruct i as [|i]; simpl.
  - now rewrite Nat.add_0_r.
  - rewrite IH by lia. now rewrite Nat.add_succ_r.
Qed.

Lemma round_robin_sorted names daily_hours days : forall ti,
  StronglySorted Z.lt days ->
  StronglySorted date_lt (round_robin days names ti daily_hours).
Proof.
  intros ti Hs. revert ti.
  induction Hs as [|day days Hs IH F]; intro ti; simpl; constructor; [apply IH|].
  rewrite Forall_forall in *. intros r Hr. unfold date_lt. simpl.
  apply F. rewrite <- (round_robin_dates names daily_hours days (S ti)).
  now apply in_map.
Qed.

(** On distinct dates, each date of the round robin carries
    [daily_hours]. *)
Lemma round_robin_day_sum names daily_hours days : forall ti d,
  NoDup days -> In d days ->
  day_sum d (round_robin days names ti daily_hours) == daily_hours.
Proof.
  induction days as [|day days IH]; intros ti d ND I; [destruct I|].
  inversion ND as [|? ? Hn ND']; subst. simpl. rewrite day_sum_cons. simpl.
  destruct (Z.eqb_spec day d) as [->|N].
  - rewrite day_sum_absent; [lra|].
    intros r Hr E. apply Hn.
    rewrite <- (round_robin_dates names daily_hours days (S ti)), <- E.
    now apply in_map.
  - apply IH; [exact ND'|]. destruct I; [contradiction | assumption].
Qed.

End Fallback.

(** ** Entries of the initial dict *)

Section Demand_entries.

Variables (sum_w total : Q).

Lemma demand_loop_absent k tws : forall d0 d,
  demand_loop tws sum_w total d0 = inr d ->
  ~ In k (map (fun tw => name (fst tw)) tws) ->
  dict_get d k = dict_get d0 k.
Proof.
  induction tws as [|[t w] tws IH]; intros d0 d; simpl.
  - now intros [= <-].
  - destruct (allocated_hours w sum_w total) as [e|a]; [discriminate|].
    intros L N. rewrite (IH _ _ L) by tauto.
    apply dict_get_set_other. tauto.
Qed.

(** The entry of a name is the value computed for the last topic
    carrying it. *)
Lemma demand_loop_last pre t w post : forall d0 d,
  demand_loop (pre ++ (t, w) :: post) sum_w total d0 = inr d ->
  ~ In (name t) (map (fun tw => name (fst tw)) post) ->
  exists a, allocated_hours w sum_w total = inr a /\ dict_get d (name t) = Some a.
Proof.
  induction pre as [|[t0 w0] pre IH]; intros d0 d; simpl.
  - destruct (allocated_hours w sum_w total) as [e|a]; [discriminate|].
    intros L N. exists a. split; [reflexivity|].
    rewrite (demand_loop_absent _ _ _ _ L N). apply dict_get_set_same.
  - destruct (allocated_hours w0 sum_w total) as [e|a0]; [discriminate|].
    apply IH.
Qed.

Lemma demand_loop_keys_distinct tws : forall d0 d,
  demand_loop tws sum_w total d0 = inr d ->
  NoDup (dict_keys d0 ++ map (fun tw => name (fst tw)) tws) ->
  dict_keys d = dict_keys d0 ++ map (fun tw => name (fst tw)) tws.
Proof.
  induction tws as [|[t w] tws IH]; intros d0 d; simpl.
  - intros [= <-] _. now rewrite app_nil_r.
  - destruct (allocated_hours w sum_w total) as [e|a]; [discriminate|].
    intros L ND.
    assert (I : ~ In (name t) (dict_keys d0)).
    { intro I. apply NoDup_remove_2 in ND. apply ND, in_or_app. auto. }
    assert (K : dict_keys (dict_set d0 (name t) a) ++ map (fun tw => name (fst tw)) tws
                = dict_keys d0 ++ name t :: map (fun tw => name (fst tw)) tws).
    { rewrite dict_keys_set_new by exact I. now rewrite <- app_assoc. }
    rewrite (IH _ _ L); [exact K | now rewrite K].
Qed.

Lemma demand_loop_keys_fold tws : forall d0 d,
  demand_loop tws sum_w total d0 = inr d ->
  dict_keys d
  = fold_left (fun acc k => if in_dec string_dec k acc then acc else acc ++ [k])
              (map (fun tw => name (fst tw)) tws) (dict_keys d0).
Proof.
  induction tws as [|[t w] tws IH]; intros d0 d; simpl.
  - now intros [= <-].
  - destruct (allocated_hours w sum_w total) as [e|a]; [discriminate|].
    intros L. rewrite (IH _ _ L).
    destruct (in_dec string_dec (name t) (dict_keys d0)) as [I|I].
    + now rewrite dict_keys_set_old.
    + now rewrite dict_keys_set_new.
Qed.

End Demand_entries.

Lemma combine_weights topics :
  combine topics (map weight topics) = map (fun t => (t, weight t)) topics.
Proof. induction topics; simpl; [|rewrite IHtopics]; reflexivity. Qed.

Lemma names_of_pairs topics :
  map (fun tw : Topic * Q => name (fst tw)) (map (fun t => (t, weight t)) topics)
  = map name topics.
Proof. rewrite map_map. reflexivity. Qed.

(** The entry the demand model stores for topic [t]. *)
Lemma demand_model_entry pre t post total d :
  demand_model (pre ++ t :: post) total = inr d ->
  ~ In (name t) (map name post) ->
  exists a,
    allocated_hours (weight t) (sum_weights (map weight (pre ++ t :: post))) total = inr a /\
    dict_get d (name t) = Some a.
Proof.
  unfold demand_model. rewrite combine_weights, map_app. simpl.
  intros L N. eapply demand_loop_last; [exact L|].
  now rewrite names_of_pairs.
Qed.

(** The keys of the dict are the topic names, each at its first
    occurrence. *)
Lemma demand_model_keys_distinct topics total d :
  demand_model topics total = inr d ->
  dict_keys d = distinct_names (map name topics).
Proof.
  unfold demand_model, distinct_names. rewrite combine_weights. intros L.
  rewrite (demand_loop_keys_fold _ _ _ _ _ L). simpl. now rewrite names_of_pairs.
Qed.

Lemma distinct_names_NoDup names : NoDup names -> distinct_names names = names.
Proof.
  unfold distinct_names. intro ND.
  enough (H : forall acc, NoDup (acc ++ names) ->
              fold_left (fun acc k => if in_dec string_dec k acc then acc else acc ++ [k])
                        names acc = acc ++ names)
    by (apply (H [] ND)).
  clear ND. induction names as [|k names IH]; intros acc ND; simpl.
  - now rewrite app_nil_r.
  - destruct (in_dec string_dec k acc) as [I|I].
    + exfalso. apply NoDup_remove_2 in ND. apply ND, in_or_app. auto.
    + rewrite IH; rewrite <- app_assoc; [reflexivity | exact ND].
Qed.

(** With distinct names the keys are the topic names, in list order. *)
Lemma demand_model_keys topics total d :
  demand_model topics total = inr d ->
  NoDup (map name topics) -> dict_keys d = map name topics.
Proof.
  unfold demand_model. rewrite combine_weights. intros L ND.
  rewrite (demand_loop_keys_distinct _ _ _ _ _ L); simpl; now rewrite names_of_pairs.
Qed.

Section Half_up.

Lemma Qfloor_unique (n : Z) x :
  inject_Z n <= x -> x < inject_Z n + 1 -> Qfloor x = n.
Proof.
  intros Hl Hu. destruct (floor_bounds x) as [Fl Fu].
  assert (Qfloor x <= n)%Z by (apply inject_Z_lt_succ; lra).
  assert (n <= Qfloor x)%Z by (apply inject_Z_lt_succ; lra).
  lia.
Qed.

(** Away from ties, [round] is round-half-up. *)
Lemma py_round_half_up x :
  (forall n : Z, ~ x == inject_Z n + (1 # 2)) -> py_round x = round_half_up x.
Proof.
  intro N. unfold py_round, round_half_up.
  destruct (floor_bounds x) as [Fl Fu].
  destruct (Qcompare_spec (x - inject_Z (Qfloor x)) (1 # 2)) as [E|E|E].
  - exfalso. apply (N (Qfloor x)). lra.
  - symmetry. apply Qfloor_unique; lra.
  - symmetry. apply Qfloor_unique; rewrite inject_Z_plus;
      change (inject_Z 1) with 1; lra.
Qed.

End Half_up.

(** ** Loop states of a run *)

Section Reachable.

Variables (daily_hours : Q) (rem0 : dict).

Lemma reachable_dict_ok st :
  dict_ok rem0 -> reachable daily_hours rem0 st -> dict_ok (remaining_hours st).
Proof.
  intros H0 R. induction R as [|day st st' fl R IH G B|st R IH]; simpl; auto.
  eapply loop_body_dict_ok; eauto.
Qed.

Lemma reachable_quarter st :
  quarter daily_hours -> reachable daily_hours rem0 st -> quarter (hours_left st).
Proof.
  intros HD R. induction R as [|day st st' fl R IH G B|st R IH]; simpl; auto.
  destruct (loop_body_cases _ _ _ _ B) as [[-> _]|(t & r & a & E)]; [exact IH|].
  eapply emits_hours_left_quarter; eauto.
Qed.

(** The states of an actual run are reachable. *)
Lemma while_loop_reachable fuel day : forall st st',
  reachable daily_hours rem0 st ->
  while_loop fuel day st = Some st' -> reachable daily_hours rem0 st'.
Proof.
  induction fuel as [|fuel IH]; intros st st' R; simpl.
  - destruct (loop_guard st); [discriminate|]. now intros [= <-].
  - destruct (loop_guard st) eqn:G; [|now intros [= <-]].
    destruct (loop_body day st) as [st1 fl] eqn:B.
    pose proof (reach_body _ _ _ _ _ _ R G B) as R1.
    destruct fl; [now apply IH | now intros [= <-]].
Qed.

Lemma for_days_reachable fuel days : forall st rem rows,
  reachable daily_hours rem0 st ->
  for_days fuel days daily_hours (remaining_hours st) (schedule_rows st)
  = Some (rem, rows) ->
  reachable daily_hours rem0 (mkState rem daily_hours rows).
Proof.
  induction days as [|day days IH]; intros st rem rows R; simpl.
  - intros [= <- <-]. now apply reach_day.
  - destruct (while_loop fuel day _) as [st1|] eqn:W; [|discriminate].
    apply IH. eapply while_loop_reachable; [|exact W]. now apply reach_day.
Qed.

End Reachable.

(** ** The dict over a whole run *)

Lemma dict_below_refl d : dict_ok d -> dict_below d d.
Proof.
  intros [_ F] k v G. exists v. split; [exact G|].
  rewrite Forall_forall in F. pose proof (F _ (dict_get_In _ _ _ G)) as Hq.
  apply quarter_nonneg in Hq. simpl in Hq. split; lra.
Qed.

Lemma dict_below_trans d1 d2 d3 :
  dict_below d2 d1 -> dict_below d3 d2 -> dict_below d3 d1.
Proof.
  intros H12 H23 k v G. destruct (H12 _ _ G) as (v2 & G2 & _ & L2).
  destruct (H23 _ _ G2) as (v3 & G3 & P3 & L3).
  exists v3. repeat split; auto. lra.
Qed.

Lemma while_loop_below fuel day : forall st st',
  dict_ok (remaining_hours st) ->
  while_loop fuel day st = Some st' ->
  dict_below (remaining_hours st') (remaining_hours st).
Proof.
  induction fuel as [|fuel IH]; intros st st' Hok; simpl.
  - destruct (loop_guard st); [discriminate|]. intros [= <-].
    now apply dict_below_refl.
  - destruct (loop_guard st); [|intros [= <-]; now apply dict_below_refl].
    destruct (loop_body day st) as [st1 fl] eqn:B.
    assert (B1 : dict_below (remaining_hours st1) (remaining_hours st))
      by (intros k v G; eapply loop_body_decreases; eauto).
    destruct fl.
    + intro W. eapply dict_below_trans; [exact B1|].
      apply IH; [|exact W]. eapply loop_body_dict_ok; eauto.
    + now intros [= <-].
Qed.

Lemma for_days_below fuel daily_hours days : forall rem rows rem' rows',
  dict_ok rem ->
  for_days fuel days daily_hours rem rows = Some (rem', rows') ->
  dict_below rem' rem.
Proof.
  induction days as [|day days IH]; intros rem rows rem' rows' Hok; simpl.
  - intros [= <- <-]. now apply dict_below_refl.
  - destruct (while_loop fuel day (mkState rem daily_hours rows)) as [st|] eqn:W;
      [|discriminate].
    pose proof (while_loop_below fuel day (mkState rem daily_hours rows) st Hok W) as B1.
    destruct (while_loop_rows fuel day (mkState rem daily_hours rows) st Hok W)
      as [Hok1 _].
    intro F. eapply dict_below_trans; [exact B1|]. eapply IH; eauto.
Qed.

(** ** A run of [generate_schedule] on a valid input *)

Lemma study_days_future today exam_date iw :
  study_days_of today exam_date iw <> [] -> (today < exam_date)%Z.
Proof.
  intro N. destruct (Z_lt_le_dec today exam_date) as [L|L]; [exact L|].
  exfalso. apply N. unfold study_days_of.
  replace (Z.to_nat (exam_date - today)) with 0%nat by lia. reflexivity.
Qed.

(** Past the two window checks, [generate_schedule] is the demand
    model, the greedy pass, the fallback and the aggregation. *)
Lemma generate_schedule_window today topics exam_date daily_hours iw :
  study_days_of today exam_date iw <> [] ->
  generate_schedule today topics exam_date daily_hours iw =
  let study_days := study_days_of today exam_date iw in
  let total := inject_Z (Z.of_nat (List.length study_days)) * daily_hours in
  match demand_model topics total with
  | inl e => Some (inl e)
  | inr remaining0 =>
      match for_days (day_fuel daily_hours) study_days daily_hours remaining0 [] with
      | None => None
      | Some (remaining, rows) =>
          match (match rows with
                 | [] => fallback_rows study_days (dict_keys remaining) 0 daily_hours
                 | _ :: _ => inr rows
                 end) with
          | inl e => Some (inl e)
          | inr rows' => Some (inr (groupby_sum rows', remaining, total))
          end
      end
  end.
Proof.
  intro N. pose proof (study_days_future _ _ _ N) as L.
  unfold generate_schedule, generate_schedule_fuel.
  destruct (Z.leb_spec exam_date today); [lia|].
  destruct (study_days_of today exam_date iw) as [|d ds]; [congruence|].
  reflexivity.
Qed.

Section Valid_run.

Variables (today exam_date : Z) (topics : list Topic) (daily_hours : Q)
          (include_weekends : bool).

Let study_days := study_days_of today exam_date include_weekends.
Let total := inject_Z (Z.of_nat (List.length study_days)) * daily_hours.

Hypothesis Htopics : topics <> [].
Hypothesis Hvalid : Forall valid_topic topics.
Hypothesis Hdays : study_days <> [].

(** The run returns a schedule; [rows] are the rows of the greedy
    pass, and the fallback replaces them when there are none. *)
Lemma valid_run :
  exists rem0 rem rows,
    demand_model topics total = inr rem0 /\
    demand_ok rem0 /\ rem0 <> [] /\
    for_days (day_fuel daily_hours) study_days daily_hours rem0 [] = Some (rem, rows) /\
    dict_ok rem /\
    greedy_inv daily_hours rows /\
    (daily_hours < 1 # 4 -> rows = [] /\ rem = rem0) /\
    (1 # 4 <= daily_hours -> rows <> []) /\
    generate_schedule today topics exam_date daily_hours include_weekends
    = Some (inr (groupby_sum
                   (match rows with
                    | [] => round_robin study_days (dict_keys rem) 0 daily_hours
                    | _ :: _ => rows
                    end), rem, total)).
Proof.
  destruct (demand_model_defined topics total Htopics Hvalid) as (rem0 & D0 & N0).
  pose proof (demand_model_ok _ _ _ D0) as Hok0.
  destruct (for_days_terminates (day_fuel daily_hours) daily_hours study_days rem0 []
              (Nat.le_refl _)) as [[rem rows] F].
  destruct (for_days_rows daily_hours _ _ _ _ _ _ (proj1 Hok0)
              (sorted_NoDup _ (study_days_sorted today exam_date include_weekends))
              (fun r (H : In r []) => match H with end)
              (or_introl eq_refl) F) as [Hok Hinv].
  exists rem0, rem, rows. repeat split; auto; try apply Hok0; try apply Hok.
  - rewrite (for_days_idle daily_hours _ study_days rem0 [] H) in F. congruence.
  - rewrite (for_days_idle daily_hours _ study_days rem0 [] H) in F. congruence.
  - intro Hq. fold study_days in F. destruct study_days as [|day days] eqn:Ed;
      [congruence|].
    eapply for_days_nonempty; eauto.
  - rewrite generate_schedule_window by exact Hdays.
    cbv zeta. fold study_days. fold total. rewrite D0, F.
    destruct rows; [|reflexivity].
    assert (K : dict_keys rem <> []).
    { destruct (Q_dec daily_hours (1 # 4)) as [[L|G]|E].
      - rewrite (for_days_idle daily_hours _ study_days rem0 [] L) in F.
        injection F as <-. destruct rem0; [congruence | discriminate].
      - exfalso. destruct study_days as [|day days]; [congruence|].
        eapply (for_days_nonempty daily_hours); eauto. lra.
      - exfalso. destruct study_days as [|day days]; [congruence|].
        eapply (for_days_nonempty daily_hours); eauto. lra. }
    rewrite fallback_rows_nonempty_names by exact K. reflexivity.
Qed.

End Valid_run.

(** * The claims *)

Lemma small_not_pos_quarter x : x < 1 # 4 -> ~ pos_quarter x.
Proof. intros H P. apply pos_quarter_ge in P. lra. Qed.

(** C3. For every input with at least one topic and at least one study
    day, [generate_schedule] returns a schedule in which the hours of
    each date sum to at most [daily_hours + 0.25], on the greedy path
    and on the fallback path alike. *)
Theorem daily_capacity_bound today topics exam_date daily_hours include_weekends :
  topics <> [] ->
  Forall valid_topic topics ->
  study_days_of today exam_date include_weekends <> [] ->
  exists sched rem total,
    generate_schedule today topics exam_date daily_hours include_weekends
    = Some (inr (sched, rem, total)) /\
    forall d, In d (map Date sched) -> day_sum d sched <= daily_hours + (1 # 4).
Proof.
  intros Ht Hv Hd.
  destruct (valid_run today exam_date topics daily_hours include_weekends Ht Hv Hd)
    as (rem0 & rem & rows & _ & _ & _ & _ & _ & Hinv & _ & Hne & G).
  eexists _, rem, _. split; [exact G|].
  pose proof (study_days_sorted today exam_date include_weekends) as Hs.
  destruct rows as [|r rows].
  - rewrite groupby_sum_sorted by (now apply round_robin_sorted).
    intros d I. rewrite round_robin_dates in I.
    rewrite round_robin_day_sum; [lra | now apply sorted_NoDup | exact I].
  - intros d _. rewrite day_sum_groupby.
    destruct Hinv as [C|(_ & _ & S)]; [discriminate|]. specialize (S d). lra.
Qed.

Lemma daily_capacity_bound_witness :
  exists sched rem total,
    generate_schedule 738000
      [mkTopic "Calculus" 3 true; mkTopic "Biology" 2 false; mkTopic "History" 1 false]
      738010 3 true
    = Some (inr (sched, rem, total)) /\
    forall d, In d (map Date sched) -> day_sum d sched <= 3 + (1 # 4).
Proof.
  apply daily_capacity_bound.
  - discriminate.
  - repeat constructor; unfold valid_topic; simpl; lia.
  - vm_compute. discriminate.
Defined.

(** C4, as the code has it.  On a valid input the greedy path is taken
    exactly when [daily_hours] is at least 0.25, and every Hours value it
    emits is a positive whole multiple of 0.25.  Below 0.25 the fallback
    is taken, and every row carries [daily_hours] itself, which is no
    multiple of 0.25. *)
Theorem hours_granularity today topics exam_date daily_hours include_weekends :
  topics <> [] ->
  Forall valid_topic topics ->
  study_days_of today exam_date include_weekends <> [] ->
  exists sched rem total,
    generate_schedule today topics exam_date daily_hours include_weekends
    = Some (inr (sched, rem, total)) /\
    (1 # 4 <= daily_hours -> Forall (fun r => pos_quarter (Hours r)) sched) /\
    (daily_hours < 1 # 4 ->
     Forall (fun r => Hours r = daily_hours /\ ~ pos_quarter (Hours r)) sched).
Proof.
  intros Ht Hv Hd.
  destruct (valid_run today exam_date topics daily_hours include_weekends Ht Hv Hd)
    as (rem0 & rem & rows & _ & _ & _ & _ & _ & Hinv & Hlow & Hne & G).
  eexists _, rem, _. split; [exact G|].
  pose proof (study_days_sorted today exam_date include_weekends) as Hs.
  split.
  - intro Hq. specialize (Hne Hq). destruct rows as [|r rows]; [congruence|].
    apply groupby_sum_pos_quarter.
    destruct Hinv as [C|(_ & F & _)]; [discriminate | exact F].
  - intro Hq. destruct (Hlow Hq) as [-> _].
    rewrite groupby_sum_sorted by (now apply round_robin_sorted).
    eapply Forall_impl; [|apply round_robin_hours].
    simpl. intros r ->. split; [reflexivity | now apply small_not_pos_quarter].
Qed.

Lemma hours_granularity_witness :
  exists sched rem total,
    generate_schedule 738000 [mkTopic "Calculus" 3 true; mkTopic "Biology" 2 false]
                      738003 (5 # 2) true
    = Some (inr (sched, rem, total)) /\
    (1 # 4 <= 5 # 2 -> Forall (fun r => pos_quarter (Hours r)) sched) /\
    (5 # 2 < 1 # 4 ->
     Forall (fun r => Hours r = 5 # 2 /\ ~ pos_quarter (Hours r)) sched).
Proof.
  apply hours_granularity.
  - discriminate.
  - repeat constructor; unfold valid_topic; simpl; lia.
  - vm_compute. discriminate.
Defined.

(** C4 as stated fails: one topic, one study day and 0.125 hours a day
    are a valid input; the greedy pass emits nothing, and the fallback
    row carries 0.125 hours, which is no multiple of 0.25. *)
Lemma hours_granularity_counterexample :
  0 < 1 # 8 /\
  exists r rem total,
    generate_schedule 738000 [mkTopic "History" 1 false] 738001 (1 # 8) true
    = Some (inr ([r], rem, total)) /\
    Hours r == 1 # 8 /\
    ~ pos_quarter (Hours r).
Proof.
  split; [reflexivity|].
  eexists _, _, _. split; [vm_compute; reflexivity|].
  split; [reflexivity|].
  apply small_not_pos_quarter. reflexivity.
Qed.

(** C5, as the code has it.  For every input with at least one topic
    and at least one study day, [generate_schedule] returns a schedule
    that is not empty.  When the greedy pass yields no rows, the schedule
    has one row per study day, in order: day [i] is assigned name
    [i mod n] of the [n] distinct topic names, taken in the order of their
    first occurrence in the topic list, and the full [daily_hours].  The
    distinct names are the topic list itself when no name is repeated. *)
Theorem fallback_guarantee today topics exam_date daily_hours include_weekends :
  topics <> [] ->
  Forall valid_topic topics ->
  study_days_of today exam_date include_weekends <> [] ->
  let study_days := study_days_of today exam_date include_weekends in
  exists rem0 sched rem rows total,
    demand_model topics total = inr rem0 /\
    for_days (day_fuel daily_hours) study_days daily_hours rem0 [] = Some (rem, rows) /\
    generate_schedule today topics exam_date daily_hours include_weekends
    = Some (inr (sched, rem, total)) /\
    sched <> [] /\
    (rows = [] ->
     let topic_names := distinct_names (map name topics) in
     (NoDup (map name topics) -> topic_names = map name topics) /\
     List.length sched = List.length study_days /\
     forall i, (i < List.length study_days)%nat ->
       nth_error sched i
       = Some (mkRow (nth i study_days 0%Z)
                     (nth (Nat.modulo i (List.length topic_names)) topic_names EmptyString)
                     daily_hours)).
Proof.
  intros Ht Hv Hd study_days.
  destruct (valid_run today exam_date topics daily_hours include_weekends Ht Hv Hd)
    as (rem0 & rem & rows & D0 & _ & N0 & F & _ & Hinv & Hlow & Hne & G).
  exists rem0. eexists _, rem, rows, _.
  split; [exact D0|]. split; [exact F|]. split; [exact G|].
  pose proof (study_days_sorted today exam_date include_weekends) as Hs.
  split.
  - apply groupby_sum_nonempty. destruct rows as [|r rows]; [|discriminate].
    fold study_days in Hd |- *. destruct study_days; [congruence | discriminate].
  - intros ->. cbv zeta.
    assert (E : rem = rem0).
    { destruct (Qlt_le_dec daily_hours (1 # 4)) as [L|L]; [now apply Hlow|].
      now specialize (Hne L). }
    subst rem. rewrite groupby_sum_sorted by (now apply round_robin_sorted).
    rewrite <- (demand_model_keys_distinct _ _ _ D0).
    split; [now apply (demand_model_keys _ _ _ D0)|]. split.
    + now rewrite <- (length_map Date), round_robin_dates.
    + intros i Hi. now rewrite round_robin_nth.
Qed.

Lemma fallback_guarantee_witness :
  exists sched rem total,
    generate_schedule 738000 [mkTopic "Calculus" 3 true; mkTopic "Biology" 2 false]
                      738003 (1 # 8) true
    = Some (inr (sched, rem, total)) /\
    sched <> [].
Proof.
  destruct (fallback_guarantee 738000 [mkTopic "Calculus" 3 true; mkTopic "Biology" 2 false]
                               738003 (1 # 8) true)
    as (rem0 & sched & rem & rows & total & _ & _ & G & N & _).
  - discriminate.
  - repeat constructor; unfold valid_topic; simpl; lia.
  - vm_compute. discriminate.
  - exists sched, rem, total. split; [exact G | exact N].
Defined.

(** C5 as stated fails in its account of the fallback when a name is
    repeated: two topics named Calculus and one named History, three
    study days and 0.125 hours a day.  The topic list in order is
    Calculus, Calculus, History; the schedule reads Calculus, History,
    Calculus. *)
Lemma fallback_cycle_counterexample :
  exists sched rem total,
    generate_schedule 738000
      [mkTopic "Calculus" 2 false; mkTopic "Calculus" 3 false; mkTopic "History" 1 false]
      738003 (1 # 8) true
    = Some (inr (sched, rem, total)) /\
    map Topic_ sched = ["Calculus"; "History"; "Calculus"]%string /\
    map name [mkTopic "Calculus" 2 false; mkTopic "Calculus" 3 false;
              mkTopic "History" 1 false]
    = ["Calculus"; "Calculus"; "History"]%string /\
    nth_error (map Topic_ sched) 1
    <> nth_error (map name [mkTopic "Calculus" 2 false; mkTopic "Calculus" 3 false;
                            mkTopic "History" 1 false]) (Nat.modulo 1 3).
Proof.
  eexists _, _, _. split; [vm_compute; reflexivity|].
  split; [reflexivity|]. split; [reflexivity|]. discriminate.
Qed.

Lemma for_days_empty_dict fuel daily_hours days rows :
  for_days fuel days daily_hours [] rows = Some ([], rows).
Proof.
  induction days as [|day days IH]; simpl; [reflexivity|].
  assert (G : loop_guard (mkState [] daily_hours rows) = false)
    by (unfold loop_guard; simpl; apply andb_false_r).
  destruct fuel; simpl; rewrite G; exact IH.
Qed.

Lemma fallback_rows_empty_names days ti daily_hours :
  days <> [] -> fallback_rows days [] ti daily_hours = inl ZeroDivisionError.
Proof. destruct days; [congruence | reflexivity]. Qed.

Lemma generate_schedule_no_topics today exam_date daily_hours include_weekends :
  study_days_of today exam_date include_weekends <> [] ->
  generate_schedule today [] exam_date daily_hours include_weekends
  = Some (inl ZeroDivisionError).
Proof.
  intro Hd. rewrite generate_schedule_window by exact Hd. cbv zeta.
  change (demand_model [] _) with (@inr exn dict []). cbv beta iota.
  rewrite for_days_empty_dict.
  change (dict_keys []) with (@nil string).
  now rewrite fallback_rows_empty_names.
Qed.

(** C10. Called with an empty topic list and a study window that is not
    empty, [generate_schedule] returns no schedule and raises no
    [ValueError]: the proportional split divides nothing, the greedy
    pass emits no rows, and the fallback raises [ZeroDivisionError] from
    the modulo by [len(topic_names) = 0]. *)
Theorem empty_topics_raise today exam_date daily_hours include_weekends :
  study_days_of today exam_date include_weekends <> [] ->
  let study_days := study_days_of today exam_date include_weekends in
  let total := inject_Z (Z.of_nat (List.length study_days)) * daily_hours in
  demand_model [] total = inr [] /\
  for_days (day_fuel daily_hours) study_days daily_hours [] [] = Some ([], []) /\
  fallback_rows study_days (dict_keys []) 0 daily_hours = inl ZeroDivisionError /\
  generate_schedule today [] exam_date daily_hours include_weekends
  = Some (inl ZeroDivisionError).
Proof.
  intros Hd study_days total.
  split; [reflexivity|].
  split; [apply for_days_empty_dict|].
  split; [now apply fallback_rows_empty_names|].
  now apply generate_schedule_no_topics.
Qed.

Lemma empty_topics_raise_witness :
  study_days_of 738000 738003 false <> [] /\
  generate_schedule 738000 [] 738003 3 false = Some (inl ZeroDivisionError).
Proof.
  split; [vm_compute; discriminate|].
  apply (empty_topics_raise 738000 738003 3 false). vm_compute. discriminate.
Defined.

(** C2, as the code has it.  [generate_schedule] has no guard on the
    sum of the weights.  On a window that is not empty, a topic list
    whose weights sum to zero makes it raise [ZeroDivisionError]: from
    the division of the proportional split itself when there is a topic,
    from the modulo of the fallback when there is none. *)
Theorem zero_weights_raise today topics exam_date daily_hours include_weekends :
  sum_weights (map weight topics) == 0 ->
  study_days_of today exam_date include_weekends <> [] ->
  let study_days := study_days_of today exam_date include_weekends in
  let total := inject_Z (Z.of_nat (List.length study_days)) * daily_hours in
  generate_schedule today topics exam_date daily_hours include_weekends
  = Some (inl ZeroDivisionError) /\
  (forall t rest, topics = t :: rest ->
     allocated_hours (weight t) (sum_weights (map weight topics)) total
     = inl ZeroDivisionError /\
     demand_model topics total = inl ZeroDivisionError) /\
  (topics = [] ->
     demand_model topics total = inr [] /\
     fallback_rows study_days (dict_keys []) 0 daily_hours = inl ZeroDivisionError).
Proof.
  intros Hz Hd study_days total.
  destruct topics as [|t rest].
  - split; [now apply generate_schedule_no_topics|]. split; [discriminate|].
    intros _. split; [reflexivity | now apply fallback_rows_empty_names].
  - assert (A : allocated_hours (weight t) (sum_weights (map weight (t :: rest))) total
                = inl ZeroDivisionError) by (now apply allocated_hours_zero).
    assert (D0 : demand_model (t :: rest) total = inl ZeroDivisionError).
    { unfold demand_model.
      change (combine (t :: rest) (map weight (t :: rest)))
        with ((t, weight t) :: combine rest (map weight rest)).
      cbn [demand_loop]. now rewrite A. }
    split; [|split; [|discriminate]].
    + rewrite generate_schedule_window by exact Hd. cbv zeta.
      fold study_days. fold total. now rewrite D0.
    + intros t' rest' [= <- <-]. split; [exact A | exact D0].
Qed.

Lemma zero_weights_raise_witness :
  sum_weights (map weight [mkTopic "History" 0 false]) == 0 /\
  study_days_of 738000 738003 false <> [] /\
  generate_schedule 738000 [mkTopic "History" 0 false] 738003 3 false
  = Some (inl ZeroDivisionError).
Proof.
  split; [reflexivity|]. split; [vm_compute; discriminate|].
  apply (zero_weights_raise 738000 [mkTopic "History" 0 false] 738003 3 false).
  - reflexivity.
  - vm_compute. discriminate.
Defined.

(** C2 as stated fails: with no topic the weights sum to zero, and what
    [generate_schedule] raises is the [ZeroDivisionError] of the
    fallback, not a descriptive error raised ahead of the split; with a
    topic of weight zero it is the division of the split that raises. *)
Lemma degenerate_weights_counterexample :
  (sum_weights (map weight []) == 0 /\
   generate_schedule 738000 [] 738001 3 true = Some (inl ZeroDivisionError) /\
   forall msg, generate_schedule 738000 [] 738001 3 true <> Some (inl (ValueError msg))) /\
  (sum_weights (map weight [mkTopic "History" 0 false]) == 0 /\
   allocated_hours (weight (mkTopic "History" 0 false))
                   (sum_weights (map weight [mkTopic "History" 0 false])) (1 * 3)
   = inl ZeroDivisionError /\
   generate_schedule 738000 [mkTopic "History" 0 false] 738001 3 true
   = Some (inl ZeroDivisionError)).
Proof.
  repeat split; try reflexivity. intros msg. vm_compute. discriminate.
Qed.

(** C7, as the code has it.  In each greedy step the amount is
    [min(remaining[topic], hours_left)] rounded to the NEAREST quarter
    hour (ties to the even number of quarters): it lies within 0.125 of
    that minimum, on either side.  It equals the minimum, and so does not
    exceed it, in every step of a run whose [daily_hours] is a whole
    number of quarters. *)
Theorem alloc_rounds_to_nearest topics total daily_hours rem0 day st st' fl :
  demand_model topics total = inr rem0 ->
  reachable daily_hours rem0 st ->
  loop_guard st = true ->
  loop_body day st = (st', fl) ->
  (st' = st /\ fl = Stop) \/
  exists topic r alloc,
    dict_get (remaining_hours st) topic = Some r /\
    schedule_rows st' = schedule_rows st ++ [mkRow day topic alloc] /\
    alloc = round4 (Qmin r (hours_left st)) /\
    Qmin r (hours_left st) - (1 # 8) <= alloc /\
    alloc <= Qmin r (hours_left st) + (1 # 8) /\
    (quarter daily_hours -> alloc == Qmin r (hours_left st)).
Proof.
  intros D0 R G B.
  destruct (loop_body_cases _ _ _ _ B) as [H|(topic & r & alloc & E)]; [now left|].
  right. exists topic, r, alloc.
  pose proof (reachable_dict_ok _ _ _ (proj1 (demand_model_ok _ _ _ D0)) R) as Hok.
  pose proof (emits_alloc_near _ _ _ _ _ _ _ E) as [Hl Hu].
  split; [apply max_item_get; [apply Hok | apply E]|].
  split; [eapply emits_rows; eauto|].
  split; [apply E|]. split; [exact Hl|]. split; [exact Hu|].
  intro Hq. eapply emits_alloc_exact; eauto.
  - eapply dict_ok_max; [exact Hok | apply E].
  - eapply reachable_quarter; eauto.
Qed.

Lemma alloc_rounds_to_nearest_witness :
  exists rem0 st' fl,
    demand_model [mkTopic "History" 1 false] (1 * (23 # 16)) = inr rem0 /\
    loop_body 738000 (mkState rem0 (23 # 16) []) = (st', fl) /\
    ((st' = mkState rem0 (23 # 16) [] /\ fl = Stop) \/
     exists topic r alloc,
       dict_get rem0 topic = Some r /\
       schedule_rows st' = [] ++ [mkRow 738000 topic alloc] /\
       alloc = round4 (Qmin r (23 # 16)) /\
       Qmin r (23 # 16) - (1 # 8) <= alloc /\
       alloc <= Qmin r (23 # 16) + (1 # 8) /\
       (quarter (23 # 16) -> alloc == Qmin r (23 # 16))).
Proof.
  eexists _, _, _. split; [vm_compute; reflexivity|]. split; [vm_compute; reflexivity|].
  eapply (alloc_rounds_to_nearest [mkTopic "History" 1 false] (1 * (23 # 16)) (23 # 16)).
  - vm_compute. reflexivity.
  - apply reach_start.
  - vm_compute. reflexivity.
  - vm_compute. reflexivity.
Defined.

(** C7 as stated fails: with one topic, one study day and 1.4375 hours
    a day, the first step has [remaining = 1.5] and [hours_left = 1.4375];
    their minimum is 1.4375 and the amount emitted is 1.5. *)
Lemma alloc_rounds_down_counterexample :
  exists rem0 st' fl r row,
    demand_model [mkTopic "History" 1 false] (1 * (23 # 16)) = inr rem0 /\
    reachable (23 # 16) rem0 (mkState rem0 (23 # 16) []) /\
    loop_guard (mkState rem0 (23 # 16) []) = true /\
    loop_body 738000 (mkState rem0 (23 # 16) []) = (st', fl) /\
    dict_get rem0 "History" = Some r /\
    schedule_rows st' = [row] /\
    Qmin r (23 # 16) == 23 # 16 /\
    Hours row == 3 # 2 /\
    ~ Hours row <= Qmin r (23 # 16).
Proof.
  eexists _, _, _, _, _.
  split; [vm_compute; reflexivity|].
  split; [apply reach_start|].
  split; [vm_compute; reflexivity|].
  split; [vm_compute; reflexivity|].
  split; [vm_compute; reflexivity|].
  split; [reflexivity|].
  split; [reflexivity|]. split; [reflexivity|].
  vm_compute. intro H. apply H. reflexivity.
Qed.

(** C8. No step of the allocation increases an entry of the dict or
    makes it negative: in every state of a run, a run of the loop body
    leaves each entry at most what it was and at least zero; and so the
    dict after the greedy pass lies, entry by entry, between zero and
    the dict of the demand model. *)
Theorem demand_map_non_increasing topics total daily_hours rem0 :
  demand_model topics total = inr rem0 ->
  (forall st day st' fl k v,
      reachable daily_hours rem0 st ->
      loop_body day st = (st', fl) ->
      dict_get (remaining_hours st) k = Some v ->
      exists v', dict_get (remaining_hours st') k = Some v' /\ 0 <= v' /\ v' <= v) /\
  (forall fuel days rem rows k v,
      for_days fuel days daily_hours rem0 [] = Some (rem, rows) ->
      dict_get rem0 k = Some v ->
      exists v', dict_get rem k = Some v' /\ 0 <= v' /\ v' <= v).
Proof.
  intro D0. pose proof (proj1 (demand_model_ok _ _ _ D0)) as Hok0. split.
  - intros st day st' fl k v R B G.
    eapply loop_body_decreases; eauto. eapply reachable_dict_ok; eauto.
  - intros fuel days rem rows k v F G.
    exact (for_days_below _ _ _ _ _ _ _ Hok0 F k v G).
Qed.

Lemma demand_map_non_increasing_witness :
  exists rem0 rem rows,
    demand_model [mkTopic "Calculus" 3 true; mkTopic "Biology" 2 false] (2 * 3) = inr rem0 /\
    for_days 24 [738000; 738001]%Z 3 rem0 [] = Some (rem, rows) /\
    forall k v, dict_get rem0 k = Some v ->
                exists v', dict_get rem k = Some v' /\ 0 <= v' /\ v' <= v.
Proof.
  eexists _, _, _. split; [vm_compute; reflexivity|]. split; [vm_compute; reflexivity|].
  intros k v.
  eapply (proj2 (demand_map_non_increasing
                   [mkTopic "Calculus" 3 true; mkTopic "Biology" 2 false] (2 * 3) 3 _ _)
                24%nat [738000; 738001]%Z).
  vm_compute. reflexivity.
  Unshelve. vm_compute. reflexivity.
Defined.

(** C9, as the code has it.  The allocation terminates on every input:
    [generate_schedule] returns, and more fuel than [day_fuel] changes
    nothing.  The loop of a day cannot run forever because every run of
    its body either breaks or leaves [hours_left] at least 0.25 and
    lower by at least 0.125, half a granularity unit; the drop is at
    least a full unit of 0.25 when [hours_left] is a whole number of
    quarters. *)
Theorem allocation_terminates today topics exam_date daily_hours include_weekends :
  (exists res,
      generate_schedule today topics exam_date daily_hours include_weekends = Some res) /\
  (forall fuel, (day_fuel daily_hours <= fuel)%nat ->
      generate_schedule_fuel fuel today topics exam_date daily_hours include_weekends
      = generate_schedule today topics exam_date daily_hours include_weekends) /\
  (forall fuel day st,
      (Z.to_nat (Qfloor (8 * hours_left st)) <= fuel)%nat ->
      exists st', while_loop fuel day st = Some st') /\
  (forall day st st',
      loop_body day st = (st', Next) ->
      1 # 4 <= hours_left st' /\
      hours_left st' <= hours_left st - (1 # 8) /\
      (quarter (hours_left st) -> hours_left st' <= hours_left st - (1 # 4))).
Proof.
  split; [apply generate_schedule_returns|].
  split; [intros fuel; apply generate_schedule_fuel_enough|].
  split; [intros fuel day st; apply while_loop_terminates|].
  intros day st st' B.
  destruct (loop_body_cases _ _ _ _ B) as [[_ [=]]|(t & r & a & E)].
  split; [|split].
  - destruct E as (_ & _ & _ & _ & -> & Hfl). simpl.
    destruct (Qlt_bool _ (1 # 4)) eqn:L; [discriminate|].
    now apply Qlt_bool_false.
  - eapply emits_hours_left_drop; eauto.
  - intro Hq. rewrite (emits_hours_left_exact _ _ _ _ _ _ _ E Hq).
    pose proof (pos_quarter_ge _ (emits_alloc_pos_quarter _ _ _ _ _ _ _ E)). lra.
Qed.

Lemma allocation_terminates_witness :
  (day_fuel 3 <= 30)%nat /\
  generate_schedule_fuel 30 738000
    [mkTopic "Calculus" 3 true; mkTopic "Biology" 2 false; mkTopic "History" 1 false]
    738010 3 false
  = generate_schedule 738000
    [mkTopic "Calculus" 3 true; mkTopic "Biology" 2 false; mkTopic "History" 1 false]
    738010 3 false.
Proof.
  split; [vm_compute; lia|].
  apply (proj1 (proj2 (allocation_terminates 738000
    [mkTopic "Calculus" 3 true; mkTopic "Biology" 2 false; mkTopic "History" 1 false]
    738010 3 false))).
  vm_compute. lia.
Defined.

(** C9 as stated fails in its reason: four topics of equal weight, four
    study days and 1.1875 hours a day.  At the start of the fourth day
    the largest entry is 0.25 and [hours_left] is 1.1875; the body emits
    0.25, sets [hours_left] to 1.0 and goes on: a drop of 0.1875, less
    than the granularity unit of 0.25. *)
Lemma hours_left_drop_counterexample :
  exists rem0 st st',
    demand_model [mkTopic "Calculus" 2 false; mkTopic "Biology" 2 false;
                  mkTopic "History" 2 false; mkTopic "Physics" 2 false]
                 (4 * (19 # 16)) = inr rem0 /\
    reachable (19 # 16) rem0 st /\
    loop_guard st = true /\
    loop_body 738003 st = (st', Next) /\
    hours_left st == 19 # 16 /\
    hours_left st' == 1 /\
    ~ hours_left st' <= hours_left st - (1 # 4).
Proof.
  eexists _, _, _. split; [vm_compute; reflexivity|].
  split.
  { eapply (for_days_reachable _ _ 9 [738000; 738001; 738002]%Z (mkState _ (19 # 16) [])).
    - apply reach_start.
    - vm_compute. reflexivity. }
  split; [vm_compute; reflexivity|].
  split; [vm_compute; reflexivity|].
  split; [reflexivity|]. split; [reflexivity|].
  vm_compute. intro H. apply H. reflexivity.
Qed.

Lemma demand_model_sum_nonzero topics total d :
  topics <> [] ->
  demand_model topics total = inr d -> ~ sum_weights (map weight topics) == 0.
Proof.
  destruct topics as [|t topics]; [congruence|]. intros _. unfold demand_model.
  change (combine (t :: topics) (map weight (t :: topics)))
    with ((t, weight t) :: combine topics (map weight topics)).
  cbn [demand_loop].
  destruct (allocated_hours (weight t) _ total) as [e|a] eqn:A; [discriminate|].
  intros _. exact (proj1 (allocated_hours_value _ _ _ _ A)).
Qed.

(** The value stored for a topic of a list the demand model accepts. *)
Lemma stored_value_spec pre t post total d :
  demand_model (pre ++ t :: post) total = inr d ->
  exists a,
    allocated_hours (weight t) (sum_weights (map weight (pre ++ t :: post))) total
    = inr a /\
    a == Qmax (1 # 2)
           (inject_Z (py_round (weight t / sum_weights (map weight (pre ++ t :: post))
                                * total * 2)) / 2).
Proof.
  intros D0.
  assert (Hs : ~ sum_weights (map weight (pre ++ t :: post)) == 0).
  { apply (demand_model_sum_nonzero _ total d); [now destruct pre | exact D0]. }
  destruct (allocated_hours_defined (weight t) _ total Hs) as [a A].
  exists a. split; [exact A|]. exact (proj2 (allocated_hours_value _ _ _ _ A)).
Qed.

(** *** The demand model over the computed share *)

Section Float_entries.

Variables (fdiv fmul : Q -> Q -> Q).

Lemma allocated_hours_fl_value w sum_w total a :
  allocated_hours_fl fdiv fmul w sum_w total = inr a ->
  ~ sum_w == 0 /\
  a == Qmax (1 # 2) (inject_Z (py_round (fmul (fdiv w sum_w) total * 2)) / 2).
Proof.
  unfold allocated_hours_fl. destruct (Qeq_bool sum_w 0) eqn:Z; [discriminate|].
  apply Qeq_bool_neq in Z. split; [exact Z|].
  destruct (Qlt_bool _ (1 # 2)) eqn:L; injection H as <-.
  - apply Qlt_bool_iff in L. rewrite Q.max_l; [reflexivity | lra].
  - apply Qlt_bool_false in L. rewrite Q.max_r; [reflexivity | exact L].
Qed.

Lemma allocated_hours_fl_defined w sum_w total :
  ~ sum_w == 0 -> exists a, allocated_hours_fl fdiv fmul w sum_w total = inr a.
Proof.
  intro N. unfold allocated_hours_fl.
  destruct (Qeq_bool sum_w 0) eqn:Z; [|eauto].
  apply Qeq_bool_iff in Z. contradiction.
Qed.

Lemma demand_loop_fl_absent sum_w total k tws : forall d0 d,
  demand_loop_fl fdiv fmul tws sum_w total d0 = inr d ->
  ~ In k (map (fun tw => name (fst tw)) tws) ->
  dict_get d k = dict_get d0 k.
Proof.
  induction tws as [|[t w] tws IH]; intros d0 d; simpl.
  - now intros [= <-].
  - destruct (allocated_hours_fl fdiv fmul w sum_w total) as [e|a]; [discriminate|].
    intros L N. rewrite (IH _ _ L) by tauto.
    apply dict_get_set_other. tauto.
Qed.

(** The entry of a name is the value computed for the last topic
    carrying it. *)
Lemma demand_loop_fl_last sum_w total pre t w post : forall d0 d,
  demand_loop_fl fdiv fmul (pre ++ (t, w) :: post) sum_w total d0 = inr d ->
  ~ In (name t) (map (fun tw => name (fst tw)) post) ->
  exists a, allocated_hours_fl fdiv fmul w sum_w total = inr a /\
            dict_get d (name t) = Some a.
Proof.
  induction pre as [|[t0 w0] pre IH]; intros d0 d; simpl.
  - destruct (allocated_hours_fl fdiv fmul w sum_w total) as [e|a]; [discriminate|].
    intros L N. exists a. split; [reflexivity|].
    rewrite (demand_loop_fl_absent _ _ _ _ _ _ L N). apply dict_get_set_same.
  - destruct (allocated_hours_fl fdiv fmul w0 sum_w total) as [e|a0]; [discriminate|].
    apply IH.
Qed.

Lemma demand_model_fl_entry pre t post total d :
  demand_model_fl fdiv fmul (pre ++ t :: post) total = inr d ->
  ~ In (name t) (map name post) ->
  exists a,
    allocated_hours_fl fdiv fmul (weight t)
      (sum_weights (map weight (pre ++ t :: post))) total = inr a /\
    dict_get d (name t) = Some a.
Proof.
  unfold demand_model_fl. rewrite combine_weights, map_app. simpl.
  intros L N. eapply demand_loop_fl_last; [exact L|].
  now rewrite names_of_pairs.
Qed.

(** A list the demand model accepts has a weight sum other than zero. *)
Lemma demand_model_fl_sum_nonzero topics total d :
  topics <> [] ->
  demand_model_fl fdiv fmul topics total = inr d ->
  ~ sum_weights (map weight topics) == 0.
Proof.
  destruct topics as [|t topics]; [congruence|]. intros _. unfold demand_model_fl.
  change (combine (t :: topics) (map weight (t :: topics)))
    with ((t, weight t) :: combine topics (map weight topics)).
  cbn [demand_loop_fl].
  destruct (allocated_hours_fl fdiv fmul (weight t) _ total) as [e|a] eqn:A;
    [discriminate|].
  intros _. exact (proj1 (allocated_hours_fl_value _ _ _ _ A)).
Qed.

End Float_entries.

(** With exact operations the parametric model is the exact one. *)
Lemma demand_loop_fl_exact tws sum_w total : forall d0,
  demand_loop_fl Qdiv Qmult tws sum_w total d0 = demand_loop tws sum_w total d0.
Proof.
  induction tws as [|[t w] tws IH]; intro d0; simpl; [reflexivity|].
  change (allocated_hours_fl Qdiv Qmult w sum_w total)
    with (allocated_hours w sum_w total).
  destruct (allocated_hours w sum_w total) as [e|a]; [reflexivity | apply IH].
Qed.

Lemma demand_model_fl_exact topics total :
  demand_model_fl Qdiv Qmult topics total = demand_model topics total.
Proof. apply demand_loop_fl_exact. Qed.

(** The input of the tie below has dyadic shares: doubles compute them
    exactly, and the dict is the one of the exact model. *)
Lemma tie_shares_exact_in_doubles :
  demand_model_fl div64 mul64
    [mkTopic "Calculus" 2 false; mkTopic "Biology" 2 false] (1 * (5 # 2))
  = demand_model [mkTopic "Calculus" 2 false; mkTopic "Biology" 2 false] (1 * (5 # 2)).
Proof. vm_compute. reflexivity. Qed.

(** C1, as the code has it.  Let [value] be the share of a topic as
    line 93 computes it, with whatever division and multiplication the
    floats have ([fdiv], [fmul]; the exact ones and those of doubles are
    instances).  The value stored for the topic is [value], doubled,
    rounded to the nearest integer and halved, and raised to 0.5 when
    that is less.  A doubled computed share exactly half way between two
    integers goes to the even one, not upward; away from such ties the
    rounding is round-half-up.  The stored value is the entry of the dict
    under the name of the topic unless a later topic of the same name
    overwrites it. *)
Theorem entitlement_rounding (fdiv fmul : Q -> Q -> Q) pre t post total d :
  demand_model_fl fdiv fmul (pre ++ t :: post) total = inr d ->
  exists value a,
    value = fmul (fdiv (weight t) (sum_weights (map weight (pre ++ t :: post)))) total /\
    allocated_hours_fl fdiv fmul (weight t)
      (sum_weights (map weight (pre ++ t :: post))) total = inr a /\
    a == Qmax (1 # 2) (inject_Z (py_round (value * 2)) / 2) /\
    inject_Z (py_round (value * 2)) - (1 # 2) <= value * 2 /\
    value * 2 <= inject_Z (py_round (value * 2)) + (1 # 2) /\
    (forall n : Z, value * 2 == inject_Z n + (1 # 2) ->
       py_round (value * 2) = if Z.even n then n else (n + 1)%Z) /\
    ((forall n : Z, ~ value * 2 == inject_Z n + (1 # 2)) ->
       py_round (value * 2) = round_half_up (value * 2)) /\
    (~ In (name t) (map name post) -> dict_get d (name t) = Some a).
Proof.
  intros D0.
  assert (Hs : ~ sum_weights (map weight (pre ++ t :: post)) == 0).
  { apply (demand_model_fl_sum_nonzero fdiv fmul _ total d);
      [now destruct pre | exact D0]. }
  destruct (allocated_hours_fl_defined fdiv fmul (weight t) _ total Hs) as [a A].
  destruct (allocated_hours_fl_value _ _ _ _ _ _ A) as [_ Ea].
  eexists _, a. split; [reflexivity|]. split; [exact A|]. split; [exact Ea|].
  split; [apply py_round_bounds|]. split; [apply py_round_bounds|].
  split; [intro n; apply py_round_tie|]. split; [apply py_round_half_up|].
  intro N. destruct (demand_model_fl_entry _ _ _ _ _ _ _ D0 N) as (a0 & A0 & G).
  congruence.
Qed.

(** In double arithmetic, five study days of 5.5 hours and weights
    6, 6, 3, 6, 1: the exact share of History is 3/22 of 27.5, that is
    3.75, a tie; the computed share is one unit in the last place below
    it, and 3.5 is stored. *)
Lemma entitlement_rounding_witness :
  exists d value a,
    demand_model_fl div64 mul64
      ([mkTopic "Calculus" 3 true; mkTopic "Biology" 3 true]
         ++ mkTopic "History" 3 false
         :: [mkTopic "Physics" 3 true; mkTopic "Art" 1 false])
      (5 * (11 # 2)) = inr d /\
    value == (15 # 4) - (1 # 2251799813685248) /\
    a == Qmax (1 # 2) (inject_Z (py_round (value * 2)) / 2) /\
    a == 7 # 2 /\
    dict_get d "History" = Some a.
Proof.
  eexists.
  destruct (entitlement_rounding div64 mul64
              [mkTopic "Calculus" 3 true; mkTopic "Biology" 3 true]
              (mkTopic "History" 3 false)
              [mkTopic "Physics" 3 true; mkTopic "Art" 1 false]
              (5 * (11 # 2)) _ ltac:(vm_compute; reflexivity))
    as (value & a & V & _ & E & _ & _ & _ & _ & G).
  exists value, a. split; [vm_compute; reflexivity|].
  split; [rewrite V; vm_compute; reflexivity|]. split; [exact E|].
  split; [rewrite E, V; vm_compute; reflexivity|].
  apply G. simpl. intros [H|[H|[]]]; discriminate.
Defined.

(** C1 as stated fails: two topics of equal weight, one study day and
    2.5 hours a day.  The share of each is 1.25 hours, half way between
    1.0 and 1.5; round-half-up gives 1.5, the stored entry is 1.0. *)
Lemma entitlement_rounding_counterexample :
  exists d a,
    demand_model [mkTopic "Calculus" 2 false; mkTopic "Biology" 2 false] (1 * (5 # 2))
    = inr d /\
    weight (mkTopic "Calculus" 2 false)
    / sum_weights (map weight [mkTopic "Calculus" 2 false; mkTopic "Biology" 2 false])
    * (1 * (5 # 2)) == 5 # 4 /\
    dict_get d "Calculus" = Some a /\
    a == 1 /\
    inject_Z (round_half_up ((5 # 4) * 2)) / 2 == 3 # 2 /\
    ~ a == inject_Z (round_half_up ((5 # 4) * 2)) / 2.
Proof.
  eexists _, _. split; [vm_compute; reflexivity|].
  split; [reflexivity|]. split; [vm_compute; reflexivity|].
  split; [reflexivity|]. split; [reflexivity|]. discriminate.
Qed.

(** ** Priority *)

Section Priority.

Lemma sum_weights_app l1 l2 :
  sum_weights (l1 ++ l2) == sum_weights l1 + sum_weights l2.
Proof.
  induction l1 as [|w l1 IH]; [unfold sum_weights; simpl; lra|].
  simpl. rewrite !sum_weights_cons, IH. lra.
Qed.

Lemma weight_mark_priority t :
  priority t = false -> weight (mark_priority t) == 2 * weight t.
Proof. unfold weight, mark_priority. simpl. intros ->. ring. Qed.

(** A weight doubled within its sum does not lose share. *)
Lemma share_doubles w s : 0 < w -> w <= s -> w / s <= (2 * w) / (s + w).
Proof.
  intros Hw Hs. apply Qle_shift_div_l; [lra|].
  assert (E : w / s * (s + w) == w + w * (w / s)) by (field; lra).
  rewrite E.
  assert (L : w / s <= 1) by (apply Qle_shift_div_r; lra).
  assert (M : w * (w / s) <= w * 1) by (apply Qmult_le_l; [exact Hw | exact L]).
  lra.
Qed.

Lemma Qmult_nonneg_nonpos a b : 0 <= a -> b <= 0 -> a * b <= 0.
Proof.
  intros Ha Hb. assert (H : 0 <= a * - b) by (apply Qmult_le_0_compat; lra).
  lra.
Qed.

Lemma stored_mono x y :
  x <= y ->
  Qmax (1 # 2) (inject_Z (py_round (x * 2)) / 2)
  <= Qmax (1 # 2) (inject_Z (py_round (y * 2)) / 2).
Proof.
  intro H. apply Q.max_le_compat_l.
  assert (L : (py_round (x * 2) <= py_round (y * 2))%Z) by (apply py_round_mono; lra).
  rewrite Zle_Qle in L. unfold Qdiv. change (/ 2) with (1 # 2). lra.
Qed.

Lemma stored_floor x :
  x <= 0 -> Qmax (1 # 2) (inject_Z (py_round (x * 2)) / 2) == 1 # 2.
Proof.
  intro H. apply Q.max_l.
  assert (L : (py_round (x * 2) <= py_round 0)%Z) by (apply py_round_mono; lra).
  change (py_round 0) with 0%Z in L. rewrite Zle_Qle in L.
  unfold Qdiv. change (/ 2) with (1 # 2). change (inject_Z 0) with 0 in L. lra.
Qed.

End Priority.

(** C6, as the code has it.  Marking one topic as priority, all else
    equal, makes its weight exactly twice the unmarked weight, and the
    value stored for it (after the rounding to 0.5 and the floor of 0.5)
    is at least the value stored without the mark.  These values are
    the entries of the dict under its name provided no later topic
    carries the same name (the dict is keyed by name, and a later topic
    of that name overwrites the entry). *)
Theorem priority_doubling pre t post total :
  Forall valid_topic (pre ++ t :: post) ->
  priority t = false ->
  weight (mark_priority t) == 2 * weight t /\
  exists d d' a a',
    demand_model (pre ++ t :: post) total = inr d /\
    demand_model (pre ++ mark_priority t :: post) total = inr d' /\
    allocated_hours (weight t) (sum_weights (map weight (pre ++ t :: post))) total
    = inr a /\
    allocated_hours (weight (mark_priority t))
                    (sum_weights (map weight (pre ++ mark_priority t :: post))) total
    = inr a' /\
    a <= a' /\
    (~ In (name t) (map name post) ->
     dict_get d (name t) = Some a /\ dict_get d' (name t) = Some a').
Proof.
  intros V P. pose proof (weight_mark_priority t P) as W2.
  split; [exact W2|].
  assert (V' : Forall valid_topic (pre ++ mark_priority t :: post)).
  { apply Forall_app in V. destruct V as [Vp Vt]. apply Forall_app. split; [exact Vp|].
    inversion Vt; subst. constructor; assumption. }
  destruct (demand_model_defined (pre ++ t :: post) total) as (d & D0 & _);
    [now destruct pre | exact V|].
  destruct (demand_model_defined (pre ++ mark_priority t :: post) total) as (d' & D0' & _);
    [now destruct pre | exact V'|].
  destruct (stored_value_spec _ _ _ _ _ D0) as (a & A & Ea).
  destruct (stored_value_spec _ _ _ _ _ D0') as (a' & A' & Ea').
  exists d, d', a, a'.
  split; [exact D0|]. split; [exact D0'|]. split; [exact A|]. split; [exact A'|].
  split.
  2: { intro N.
       destruct (demand_model_entry _ _ _ _ _ D0 N) as (a0 & A0 & G).
       destruct (demand_model_entry _ (mark_priority t) _ _ _ D0' N) as (a0' & A0' & G').
       change (name (mark_priority t)) with (name t) in G'.
       split; congruence. }
  rewrite Ea, Ea'. clear Ea Ea' A A' D0 D0'.
  set (w := weight t) in *.
  set (s := sum_weights (map weight (pre ++ t :: post))).
  set (s' := sum_weights (map weight (pre ++ mark_priority t :: post))).
  assert (Hw : 1 <= w).
  { apply weight_ge_1. apply Forall_app in V. destruct V as [_ Vt]. now inversion Vt. }
  assert (Hp : 0 <= sum_weights (map weight pre)).
  { apply sum_weights_nonneg, weights_valid. apply Forall_app in V. tauto. }
  assert (Hq : 0 <= sum_weights (map weight post)).
  { apply sum_weights_nonneg, weights_valid. apply Forall_app in V.
    destruct V as [_ Vt]. now inversion Vt. }
  assert (Es : s == sum_weights (map weight pre) + (w + sum_weights (map weight post))).
  { unfold s. rewrite map_app, sum_weights_app. simpl. rewrite sum_weights_cons.
    reflexivity. }
  assert (Es' : s' == s + w).
  { unfold s'. rewrite map_app, sum_weights_app. simpl. rewrite sum_weights_cons.
    rewrite W2, Es. ring. }
  assert (Hshare : w / s <= weight (mark_priority t) / s').
  { rewrite W2, Es'. apply share_doubles; lra. }
  assert (H0 : 0 <= w / s) by (apply Qle_shift_div_l; lra).
  destruct (Qlt_le_dec total 0) as [Tn|Tp].
  - assert (L : w / s * total <= 0) by (apply Qmult_nonneg_nonpos; lra).
    assert (L' : weight (mark_priority t) / s' * total <= 0)
      by (apply Qmult_nonneg_nonpos; lra).
    rewrite (stored_floor _ L), (stored_floor _ L'). lra.
  - apply stored_mono. apply Qmult_le_compat_r; assumption.
Qed.

Lemma priority_doubling_witness :
  weight (mark_priority (mkTopic "Biology" 2 false)) == 2 * weight (mkTopic "Biology" 2 false) /\
  exists d d' a a',
    demand_model ([mkTopic "Calculus" 3 false] ++ mkTopic "Biology" 2 false
                    :: [mkTopic "History" 1 false]) (10 * 3) = inr d /\
    demand_model ([mkTopic "Calculus" 3 false] ++ mark_priority (mkTopic "Biology" 2 false)
                    :: [mkTopic "History" 1 false]) (10 * 3) = inr d' /\
    a <= a' /\
    dict_get d "Biology" = Some a /\
    dict_get d' "Biology" = Some a'.
Proof.
  destruct (priority_doubling [mkTopic "Calculus" 3 false] (mkTopic "Biology" 2 false)
                              [mkTopic "History" 1 false] (10 * 3))
    as (W & d & d' & a & a' & D & D' & _ & _ & L & G).
  - repeat constructor; unfold valid_topic; simpl; lia.
  - reflexivity.
  - split; [exact W|]. exists d, d', a, a'.
    split; [exact D|]. split; [exact D'|]. split; [exact L|].
    apply G. simpl. intros [H|[]]. discriminate.
Defined.

(** C6 as stated fails on its second half when a later topic has the
    same name: of two topics named Calculus and one named History, in
    one day of 4 hours, the dict entry of Calculus is 2.0; with the first
    Calculus marked as priority it is 1.5, the share of the second one
    in a larger sum. *)
Lemma priority_entry_counterexample :
  exists d d' a a',
    demand_model [mkTopic "Calculus" 2 false; mkTopic "Calculus" 3 false;
                  mkTopic "History" 1 false] (1 * 4) = inr d /\
    demand_model [mark_priority (mkTopic "Calculus" 2 false); mkTopic "Calculus" 3 false;
                  mkTopic "History" 1 false] (1 * 4) = inr d' /\
    dict_get d "Calculus" = Some a /\
    dict_get d' "Calculus" = Some a' /\
    a == 2 /\ a' == 3 # 2 /\
    ~ a <= a'.
Proof.
  eexists _, _, _, _.
  split; [vm_compute; reflexivity|]. split; [vm_compute; reflexivity|].
  split; [vm_compute; reflexivity|]. split; [vm_compute; reflexivity|].
  split; [reflexivity|]. split; [reflexivity|].
  vm_compute. intro H. apply H. reflexivity.
Qed.

(** * Further properties of the code *)

(** ** The study window (lines 66-78) *)

Lemma study_days_In today exam_date include_weekends d :
  In d (study_days_of today exam_date include_weekends) <->
  (today <= d < exam_date)%Z /\ (include_weekends = true \/ (weekday d < 5)%Z).
Proof.
  unfold study_days_of. rewrite filter_In, in_map_iff, orb_true_iff, Z.ltb_lt.
  split.
  - intros [(i & <- & Hi) Hw]. apply in_seq in Hi. split; [lia | exact Hw].
  - intros [Hr Hw]. split; [|exact Hw].
    exists (Z.to_nat (d - today)). split; [lia|]. apply in_seq. lia.
Qed.

(** X1. A date is a study day exactly when it lies from today up to the
    day before the exam and, with weekends excluded, is a Monday to
    Friday; the study days come in strictly increasing order, and with
    weekends included there are [exam_date - today] of them. *)
Theorem study_days_spec today exam_date include_weekends :
  (forall d, In d (study_days_of today exam_date include_weekends) <->
             (today <= d < exam_date)%Z /\
             (include_weekends = true \/ (weekday d < 5)%Z)) /\
  StronglySorted Z.lt (study_days_of today exam_date include_weekends) /\
  List.length (study_days_of today exam_date true) = Z.to_nat (exam_date - today).
Proof.
  split; [intro d; apply study_days_In|].
  split; [apply study_days_sorted|].
  unfold study_days_of.
  rewrite forallb_filter_id by (apply forallb_forall; reflexivity).
  now rewrite length_map, length_seq.
Qed.

(** X2. With the exam in the future, the window is empty only with
    weekends excluded, and only when today is a Saturday and the exam at
    most two days away, or today is a Sunday and the exam tomorrow. *)
Theorem empty_window_cases today exam_date include_weekends :
  (today < exam_date)%Z ->
  (study_days_of today exam_date include_weekends = [] <->
   include_weekends = false /\
   ((weekday today = 5 /\ exam_date - today <= 2)%Z \/
    (weekday today = 6 /\ exam_date - today = 1)%Z)).
Proof.
  intro Hf. pose proof (study_days_In today exam_date include_weekends) as S.
  unfold weekday in *. split.
  - intro E. rewrite E in S.
    assert (N : forall d, (today <= d < exam_date)%Z ->
                          include_weekends = false /\ (5 <= (d + 6) mod 7)%Z).
    { intros d Hd. destruct include_weekends.
      - exfalso. apply (proj2 (S d)). auto.
      - split; [reflexivity|].
        destruct (Z_lt_le_dec ((d + 6) mod 7) 5) as [L|L]; [|exact L].
        exfalso. apply (proj2 (S d)). auto. }
    destruct (N today ltac:(lia)) as [-> H0]. split; [reflexivity|].
    destruct (Z_lt_le_dec (today + 1) exam_date) as [H1|H1].
    + destruct (N (today + 1)%Z ltac:(lia)) as [_ H1'].
      destruct (Z_lt_le_dec (today + 2) exam_date) as [H2|H2].
      * destruct (N (today + 2)%Z ltac:(lia)) as [_ H2']. exfalso. clear S N. Z.div_mod_to_equations. lia.
      * left. clear S N. Z.div_mod_to_equations. lia.
    + assert (C : ((today + 6) mod 7 = 5 \/ (today + 6) mod 7 = 6)%Z)
        by (clear S N; Z.div_mod_to_equations; lia).
      destruct C; [left | right]; lia.
  - intros [-> C].
    destruct (study_days_of today exam_date false) as [|d ds] eqn:E; [reflexivity|].
    exfalso. destruct (proj1 (S d) (or_introl eq_refl)) as [Hr [Hw|Hw]]; [discriminate|].
    clear S E. Z.div_mod_to_equations. lia.
Qed.

Lemma empty_window_cases_witness :
  (738002 < 738004)%Z /\ study_days_of 738002 738004 false = [].
Proof.
  split; [lia|].
  apply (proj2 (empty_window_cases 738002 738004 false ltac:(lia))).
  split; [reflexivity|]. left. vm_compute. split; [reflexivity | discriminate].
Defined.

(** ** What [generate_schedule] returns and raises *)

Lemma sum_weights_nil_zero topics :
  ~ sum_weights (map weight topics) == 0 -> topics <> [].
Proof. intros N ->. apply N. reflexivity. Qed.

Lemma demand_model_defined_nonzero topics total :
  ~ sum_weights (map weight topics) == 0 ->
  exists d, demand_model topics total = inr d /\ d <> [].
Proof.
  intro N. pose proof (sum_weights_nil_zero _ N) as Ht. unfold demand_model.
  destruct (demand_loop_defined (combine topics (map weight topics))
              (sum_weights (map weight topics)) total [] N) as [d Hd].
  exists d. split; [exact Hd|].
  destruct topics as [|t topics]; [congruence|].
  pose proof (demand_loop_keys _ _ _ _ _ Hd (name t)) as K.
  simpl in K. specialize (K (or_intror (or_introl eq_refl))).
  intros ->. exact K.
Qed.

Lemma demand_model_zero_sum t topics total :
  sum_weights (map weight (t :: topics)) == 0 ->
  demand_model (t :: topics) total = inl ZeroDivisionError.
Proof.
  intro Z. unfold demand_model.
  change (combine (t :: topics) (map weight (t :: topics)))
    with ((t, weight t) :: combine topics (map weight topics)).
  cbn [demand_loop]. now rewrite (allocated_hours_zero _ _ _ Z).
Qed.

(** A run past the window checks and the demand model: the greedy pass
    returns, and the schedule is the aggregate of its rows, or of the
    round robin when there are none. *)
Lemma run_from_demand today topics exam_date daily_hours include_weekends rem0 :
  let study_days := study_days_of today exam_date include_weekends in
  let total := inject_Z (Z.of_nat (List.length study_days)) * daily_hours in
  study_days <> [] ->
  demand_model topics total = inr rem0 ->
  rem0 <> [] ->
  exists rem rows,
    for_days (day_fuel daily_hours) study_days daily_hours rem0 [] = Some (rem, rows) /\
    (daily_hours < 1 # 4 -> rows = [] /\ rem = rem0) /\
    (1 # 4 <= daily_hours -> rows <> []) /\
    generate_schedule today topics exam_date daily_hours include_weekends
    = Some (inr (groupby_sum
                   (match rows with
                    | [] => round_robin study_days (dict_keys rem) 0 daily_hours
                    | _ :: _ => rows
                    end), rem, total)).
Proof.
  intros study_days total Hdays D0 N0.
  pose proof (demand_model_ok _ _ _ D0) as Hok0.
  destruct (for_days_terminates (day_fuel daily_hours) daily_hours study_days rem0 []
              (Nat.le_refl _)) as [[rem rows] F].
  assert (Hlow : daily_hours < 1 # 4 -> rows = [] /\ rem = rem0).
  { intro H. rewrite (for_days_idle daily_hours _ study_days rem0 [] H) in F.
    split; congruence. }
  assert (Hhigh : 1 # 4 <= daily_hours -> rows <> []).
  { intro Hq. destruct study_days as [|day days] eqn:Ed; [congruence|].
    eapply for_days_nonempty; eauto. }
  exists rem, rows. split; [exact F|]. split; [exact Hlow|]. split; [exact Hhigh|].
  rewrite generate_schedule_window by exact Hdays.
  cbv zeta. fold study_days. fold total. rewrite D0, F.
  destruct rows; [|reflexivity].
  assert (K : dict_keys rem <> []).
  { destruct (Qlt_le_dec daily_hours (1 # 4)) as [L|L].
    - destruct (Hlow L) as [_ ->]. destruct rem0; [congruence | discriminate].
    - now specialize (Hhigh L). }
  rewrite fallback_rows_nonempty_names by exact K. reflexivity.
Qed.

(** The four ways a call ends. *)
Lemma generate_schedule_cases today topics exam_date daily_hours include_weekends :
  let study_days := study_days_of today exam_date include_weekends in
  let total := inject_Z (Z.of_nat (List.length study_days)) * daily_hours in
  let res := generate_schedule today topics exam_date daily_hours include_weekends in
  ((exam_date <= today)%Z /\ study_days = [] /\
   res = Some (inl (ValueError "Exam date must be in the future."))) \/
  ((today < exam_date)%Z /\ study_days = [] /\
   res = Some (inl (ValueError
                      "No study days available (check exam date / weekend option)."))) \/
  ((today < exam_date)%Z /\ study_days <> [] /\
   sum_weights (map weight topics) == 0 /\ res = Some (inl ZeroDivisionError)) \/
  ((today < exam_date)%Z /\ study_days <> [] /\
   ~ sum_weights (map weight topics) == 0 /\
   exists rem0 rem rows,
     demand_model topics total = inr rem0 /\ rem0 <> [] /\
     for_days (day_fuel daily_hours) study_days daily_hours rem0 [] = Some (rem, rows) /\
     (daily_hours < 1 # 4 -> rows = [] /\ rem = rem0) /\
     (1 # 4 <= daily_hours -> rows <> []) /\
     res = Some (inr (groupby_sum
                        (match rows with
                         | [] => round_robin study_days (dict_keys rem) 0 daily_hours
                         | _ :: _ => rows
                         end), rem, total))).
Proof.
  intros study_days total res.
  assert (Hfut : study_days <> [] -> (today < exam_date)%Z)
    by (apply study_days_future).
  destruct (Z_le_gt_dec exam_date today) as [L|L].
  { left. split; [exact L|]. split.
    - destruct (list_eq_dec Z.eq_dec study_days []) as [E|Hd]; [exact E|].
      apply Hfut in Hd. lia.
    - unfold res, generate_schedule, generate_schedule_fuel.
      destruct (Z.leb_spec exam_date today); [reflexivity | lia]. }
  right. destruct (list_eq_dec Z.eq_dec study_days []) as [E|Hd].
  { left. split; [lia|]. split; [exact E|].
    unfold res, generate_schedule, generate_schedule_fuel.
    destruct (Z.leb_spec exam_date today); [lia|].
    fold study_days. rewrite E. reflexivity. }
  right. destruct (Qeq_dec (sum_weights (map weight topics)) 0) as [Z|N].
  { left. split; [lia|]. split; [exact Hd|]. split; [exact Z|].
    unfold res. destruct topics as [|t topics].
    - now apply generate_schedule_no_topics.
    - rewrite generate_schedule_window by exact Hd. cbv zeta.
      now rewrite (demand_model_zero_sum _ _ _ Z). }
  right. split; [lia|]. split; [exact Hd|]. split; [exact N|].
  destruct (demand_model_defined_nonzero topics total N) as (rem0 & D0 & N0).
  destruct (run_from_demand today topics exam_date daily_hours include_weekends rem0
              Hd D0 N0) as (rem & rows & F & Hl & Hh & G).
  exists rem0, rem, rows. repeat split; auto; now apply Hl.
Qed.

(** What is behind a returned schedule. *)
Lemma schedule_inv today topics exam_date daily_hours include_weekends sched rem total :
  generate_schedule today topics exam_date daily_hours include_weekends
  = Some (inr (sched, rem, total)) ->
  let study_days := study_days_of today exam_date include_weekends in
  study_days <> [] /\
  total = inject_Z (Z.of_nat (List.length study_days)) * daily_hours /\
  exists rem0 rows,
    demand_model topics total = inr rem0 /\ rem0 <> [] /\
    for_days (day_fuel daily_hours) study_days daily_hours rem0 [] = Some (rem, rows) /\
    (daily_hours < 1 # 4 -> rows = [] /\ rem = rem0) /\
    (1 # 4 <= daily_hours -> rows <> []) /\
    sched = groupby_sum
              (match rows with
               | [] => round_robin study_days (dict_keys rem) 0 daily_hours
               | _ :: _ => rows
               end).
Proof.
  intros H. cbv zeta.
  pose proof (generate_schedule_cases today topics exam_date daily_hours include_weekends)
    as C.
  cbv zeta in C.
  destruct C
    as [(_ & _ & R)|[(_ & _ & R)|[(_ & _ & _ & R)|(_ & Hd & _ & rem0 & rem' & rows & C)]]];
    try congruence.
  destruct C as (D0 & N0 & F & Hl & Hh & R). rewrite R in H.
  injection H as <- <- <-. split; [exact Hd|]. split; [reflexivity|].
  exists rem0, rows. repeat split; auto; now apply Hl.
Qed.

(** X3. The outcome of [generate_schedule] by its input, whatever the
    topics: the first [ValueError] exactly when the exam is not in the
    future, the second exactly when it is but the window is empty,
    [ZeroDivisionError] exactly when the window is not empty and the
    weights sum to zero (as with no topic at all), and a schedule in the
    one remaining case.  The window is checked before the weights. *)
Theorem generate_schedule_outcomes today topics exam_date daily_hours include_weekends :
  let study_days := study_days_of today exam_date include_weekends in
  let res := generate_schedule today topics exam_date daily_hours include_weekends in
  (res = Some (inl (ValueError "Exam date must be in the future."))
   <-> (exam_date <= today)%Z) /\
  (res = Some (inl (ValueError "No study days available (check exam date / weekend option)."))
   <-> (today < exam_date)%Z /\ study_days = []) /\
  (res = Some (inl ZeroDivisionError)
   <-> study_days <> [] /\ sum_weights (map weight topics) == 0) /\
  ((exists sched rem total, res = Some (inr (sched, rem, total)))
   <-> study_days <> [] /\ ~ sum_weights (map weight topics) == 0).
Proof.
  pose proof (generate_schedule_cases today topics exam_date daily_hours include_weekends)
    as C.
  cbv zeta in *.
  destruct C
    as [(L & E & R)|[(L & E & R)|[(L & Hd & Z & R)|(L & Hd & N & rem0 & rem & rows & C)]]].
  - rewrite R. split; [tauto|].
    split; [split; [discriminate | intros [H _]; lia]|].
    split; [split; [discriminate | intros [H _]; contradiction]|].
    split; [intros (? & ? & ? & ?); discriminate | intros [H _]; contradiction].
  - rewrite R. split; [split; [discriminate | lia]|].
    split; [split; [split; [lia | exact E] | reflexivity]|].
    split; [split; [discriminate | intros [H _]; contradiction]|].
    split; [intros (? & ? & ? & ?); discriminate | intros [H _]; contradiction].
  - rewrite R. split; [split; [discriminate | lia]|].
    split; [split; [discriminate | intros [_ H]; contradiction]|].
    split; [split; [split; assumption | reflexivity]|].
    split; [intros (? & ? & ? & ?); discriminate | intros [_ H]; contradiction].
  - destruct C as (_ & _ & _ & _ & _ & R). rewrite R.
    split; [split; [discriminate | lia]|].
    split; [split; [discriminate | intros [_ H]; contradiction]|].
    split; [split; [discriminate | intros [_ H]; contradiction]|].
    split; [intros _; split; assumption | intros _; eauto].
Qed.

Lemma generate_schedule_outcomes_witness :
  exists sched rem total,
    generate_schedule 738000 [mkTopic "Calculus" 3 true; mkTopic "Biology" 2 false]
                      738003 3 false
    = Some (inr (sched, rem, total)).
Proof.
  apply (proj2 (proj2 (proj2 (proj2
           (generate_schedule_outcomes 738000
              [mkTopic "Calculus" 3 true; mkTopic "Biology" 2 false] 738003 3 false))))).
  split; [vm_compute; discriminate | vm_compute; discriminate].
Defined.

(** ** The aggregated table (line 138) *)

Section Key_order.

Lemma ascii_compare_trans a b c :
  Ascii.compare a b = Lt -> Ascii.compare b c = Lt -> Ascii.compare a c = Lt.
Proof.
  unfold Ascii.compare. rewrite !N.compare_lt_iff. apply N.lt_trans.
Qed.

Lemma string_compare_trans : forall s1 s2 s3,
  String.compare s1 s2 = Lt -> String.compare s2 s3 = Lt -> String.compare s1 s3 = Lt.
Proof.
  induction s1 as [|a s1 IH]; intros [|b s2] [|c s3]; simpl; try congruence.
  destruct (Ascii.compare a b) eqn:Eab; try discriminate;
    destruct (Ascii.compare b c) eqn:Ebc; try discriminate.
  - apply Ascii.compare_eq_iff in Eab, Ebc. subst.
    unfold Ascii.compare at 1. rewrite N.compare_refl. apply IH.
  - apply Ascii.compare_eq_iff in Eab. subst. rewrite Ebc. reflexivity.
  - apply Ascii.compare_eq_iff in Ebc. subst. rewrite Eab. reflexivity.
  - rewrite (ascii_compare_trans _ _ _ Eab Ebc). reflexivity.
Qed.

Lemma key_compare_antisym a b : key_compare a b = CompOpp (key_compare b a).
Proof.
  unfold key_compare. rewrite (Z.compare_antisym (Date a) (Date b)).
  destruct (Date a ?= Date b)%Z; simpl; auto using String.compare_antisym.
Qed.

Lemma key_compare_Gt a b : key_compare a b = Gt -> key_lt b a.
Proof.
  unfold key_lt. rewrite (key_compare_antisym b a). now intros ->.
Qed.

Lemma key_compare_Eq_topic a b : key_compare a b = Eq -> Topic_ a = Topic_ b.
Proof.
  unfold key_compare. destruct (Date a ?= Date b)%Z; try discriminate.
  apply String.compare_eq_iff.
Qed.

Lemma key_lt_trans a b c : key_lt a b -> key_lt b c -> key_lt a c.
Proof.
  unfold key_lt, key_compare.
  destruct (Z.compare_spec (Date a) (Date b)) as [Eab|Lab|Gab]; try discriminate;
    destruct (Z.compare_spec (Date b) (Date c)) as [Ebc|Lbc|Gbc]; try discriminate;
    destruct (Z.compare_spec (Date a) (Date c)) as [Eac|Lac|Gac]; try lia; auto.
  apply string_compare_trans.
Qed.

(** The order looks at the date and the topic only. *)
Lemma key_lt_same_key x a h :
  key_lt x a -> key_lt x (mkRow (Date a) (Topic_ a) h).
Proof. exact (fun H => H). Qed.

Lemma key_lt_from_same_key a h b :
  key_lt a b -> key_lt (mkRow (Date a) (Topic_ a) h) b.
Proof. exact (fun H => H). Qed.

Lemma agg_insert_above x r : forall acc,
  key_lt x r -> Forall (key_lt x) acc -> Forall (key_lt x) (agg_insert r acc).
Proof.
  intros acc Hr H. induction H as [|a acc Ha H IH]; simpl.
  - repeat constructor. exact Hr.
  - destruct (key_compare r a); repeat constructor; auto.
Qed.

Lemma agg_insert_sorted r : forall acc,
  StronglySorted key_lt acc -> StronglySorted key_lt (agg_insert r acc).
Proof.
  intros acc H. induction H as [|a acc H IH F]; simpl.
  - repeat constructor.
  - destruct (key_compare r a) eqn:K.
    + constructor; [exact H|].
      eapply Forall_impl; [|exact F]. intros b Hb. exact Hb.
    + constructor; [constructor; assumption|].
      constructor; [exact K|].
      eapply Forall_impl; [|exact F]. intros b Hb.
      exact (key_lt_trans _ _ _ K Hb).
    + constructor; [exact IH|].
      apply agg_insert_above; [now apply key_compare_Gt | exact F].
Qed.

Lemma groupby_sum_sorted_keys rows : StronglySorted key_lt (groupby_sum rows).
Proof.
  unfold groupby_sum.
  enough (H : forall acc, StronglySorted key_lt acc ->
                          StronglySorted key_lt
                            (fold_left (fun acc r => agg_insert r acc) rows acc))
    by (apply H; constructor).
  induction rows as [|r rows IH]; intros acc S; simpl; [exact S|].
  apply IH. now apply agg_insert_sorted.
Qed.

Lemma key_lt_irrefl a : ~ key_lt a a.
Proof.
  unfold key_lt. intro H. pose proof (key_compare_antisym a a) as A.
  rewrite H in A. discriminate.
Qed.

End Key_order.

Section Aggregate_keys.

Variable P : Z -> string -> Prop.

Lemma agg_insert_keys r : forall acc,
  P (Date r) (Topic_ r) ->
  Forall (fun a => P (Date a) (Topic_ a)) acc ->
  Forall (fun a => P (Date a) (Topic_ a)) (agg_insert r acc).
Proof.
  intros acc Hr H. induction H as [|a acc Ha H IH]; simpl.
  - repeat constructor. exact Hr.
  - destruct (key_compare r a); repeat constructor; auto.
Qed.

Lemma groupby_sum_keys rows :
  Forall (fun a => P (Date a) (Topic_ a)) rows ->
  Forall (fun a => P (Date a) (Topic_ a)) (groupby_sum rows).
Proof.
  unfold groupby_sum.
  generalize (@nil ScheduleRow) (Forall_nil (fun a => P (Date a) (Topic_ a))).
  intros acc Hacc H. revert acc Hacc.
  induction H as [|r rows Hr H IH]; intros acc Hacc; simpl; [exact Hacc|].
  apply IH. now apply agg_insert_keys.
Qed.

End Aggregate_keys.

Section Topic_sums.

Variable k : string.

Lemma topic_sum_nil : topic_sum k [] = 0.
Proof. reflexivity. Qed.

Lemma topic_sum_cons a rows :
  topic_sum k (a :: rows)
  = if String.eqb (Topic_ a) k then Hours a + topic_sum k rows else topic_sum k rows.
Proof. unfold topic_sum. simpl. now destruct (String.eqb (Topic_ a) k). Qed.

Lemma topic_sum_app l1 l2 : topic_sum k (l1 ++ l2) == topic_sum k l1 + topic_sum k l2.
Proof. unfold topic_sum. rewrite filter_app. apply sum_hours_app. Qed.

Lemma topic_sum_agg_insert r : forall acc,
  topic_sum k (agg_insert r acc) == topic_sum k acc + topic_sum k [r].
Proof.
  induction acc as [|a acc IH]; cbn [agg_insert].
  - rewrite !topic_sum_cons, !topic_sum_nil. destruct (String.eqb (Topic_ r) k); lra.
  - destruct (key_compare r a) eqn:K.
    + apply key_compare_Eq_topic in K. rewrite !topic_sum_cons, !topic_sum_nil.
      cbn [Topic_ Hours]. rewrite K. destruct (String.eqb (Topic_ a) k); lra.
    + rewrite !topic_sum_cons, !topic_sum_nil.
      destruct (String.eqb (Topic_ r) k), (String.eqb (Topic_ a) k); lra.
    + rewrite !topic_sum_cons, !topic_sum_nil in *.
      destruct (String.eqb (Topic_ a) k); rewrite IH; lra.
Qed.

Lemma topic_sum_fold rows : forall acc,
  topic_sum k (fold_left (fun acc r => agg_insert r acc) rows acc)
  == topic_sum k acc + topic_sum k rows.
Proof.
  induction rows as [|r rows IH]; intro acc; cbn [fold_left].
  - rewrite topic_sum_nil. lra.
  - rewrite IH, topic_sum_agg_insert, !topic_sum_cons, !topic_sum_nil.
    destruct (String.eqb (Topic_ r) k); lra.
Qed.

Lemma topic_sum_groupby rows : topic_sum k (groupby_sum rows) == topic_sum k rows.
Proof. unfold groupby_sum. rewrite topic_sum_fold, topic_sum_nil. lra. Qed.

End Topic_sums.

(** ** What the greedy pass keeps *)

Section Trace.

Lemma quarter_small x : quarter x -> x < 1 # 4 -> x == 0.
Proof.
  intros (n & Hn & E) L. rewrite E in L |- *.
  assert (H : inject_Z n < 1).
  { unfold Qdiv in L. change (/ 4) with (1 # 4) in L. lra. }
  change 1 with (inject_Z 1) in H. rewrite <- Zlt_Qlt in H.
  replace n with 0%Z by lia. reflexivity.
Qed.

Lemma quarter_above x : quarter x -> 249 # 1000 < x -> 1 # 4 <= x.
Proof.
  intros Hq L. destruct (Qlt_le_dec x (1 # 4)) as [S|S]; [|exact S].
  rewrite (quarter_small _ Hq S) in L. lra.
Qed.

(** Under the loop condition, on a dict of quarters, the body emits a
    row: neither of its first two [break]s is taken. *)
Lemma guard_emits day st :
  loop_guard st = true -> dict_ok (remaining_hours st) ->
  exists st1 fl topic r alloc,
    loop_body day st = (st1, fl) /\ emits day st st1 fl topic r alloc.
Proof.
  intros G Hok. pose proof (loop_guard_hours _ G) as Hh.
  unfold loop_guard in G. apply andb_true_iff in G. destruct G as [_ G].
  apply existsb_exists in G. destruct G as (h & Hin & Hgt).
  apply Qlt_bool_iff in Hgt.
  destruct (max_item (remaining_hours st)) as [[t r]|] eqn:M.
  2: { apply max_item_None in M. rewrite M in Hin. destruct Hin. }
  assert (Hr : 1 # 4 <= r).
  { apply quarter_above; [eapply dict_ok_max; eauto|].
    pose proof (max_item_max _ _ _ M) as F. rewrite Forall_forall in F.
    unfold dict_values in Hin. apply in_map_iff in Hin.
    destruct Hin as ([k' h'] & <- & Hin). specialize (F _ Hin). simpl in *. lra. }
  assert (Ha : 1 # 4 <= round4 (Qmin r (hours_left st))).
  { assert (E4 : round4 (1 # 4) == 1 # 4) by reflexivity.
    rewrite <- E4 at 1. apply round4_mono. apply Q.min_glb; lra. }
  destruct (loop_body day st) as [st1 fl] eqn:B.
  exists st1, fl, t, r, (round4 (Qmin r (hours_left st))).
  split; [reflexivity|].
  unfold loop_body in B. rewrite M in B.
  destruct (Qlt_bool r (1 # 4)) eqn:L1.
  { apply Qlt_bool_iff in L1. lra. }
  destruct (Qle_bool (round4 (Qmin r (hours_left st))) 0) eqn:L2.
  { apply Qle_bool_iff in L2. lra. }
  injection B as <- <-. unfold emits. repeat split; auto; lra.
Qed.

Lemma emits_keys day st st' fl topic r alloc :
  emits day st st' fl topic r alloc ->
  In topic (dict_keys (remaining_hours st)) /\
  dict_keys (remaining_hours st') = dict_keys (remaining_hours st).
Proof.
  intro E. assert (I : In topic (dict_keys (remaining_hours st))).
  { pose proof (max_item_In _ _ _ (proj1 E)) as I.
    change topic with (fst (topic, r)). now apply in_map. }
  split; [exact I|].
  rewrite (emits_remaining _ _ _ _ _ _ _ E). now apply dict_keys_set_old.
Qed.

(** The hours of a row come off the entry of its topic, and off no
    other. *)
Lemma emits_conserves day st st' fl topic r alloc k v0 :
  emits day st st' fl topic r alloc ->
  dict_ok (remaining_hours st) ->
  dict_get (remaining_hours st) k = Some v0 ->
  exists v, dict_get (remaining_hours st') k = Some v /\
            topic_sum k [mkRow day topic alloc] + v == v0.
Proof.
  intros E Hok G. pose proof (dict_ok_max _ _ _ Hok (proj1 E)) as Hr.
  rewrite (emits_remaining _ _ _ _ _ _ _ E), topic_sum_cons, topic_sum_nil.
  cbn [Topic_ Hours]. destruct (String.eqb_spec topic k) as [<-|N].
  - rewrite dict_get_set_same. eexists. split; [reflexivity|].
    assert (v0 = r).
    { pose proof (max_item_get _ _ _ (proj1 Hok) (proj1 E)). congruence. }
    subst v0. rewrite (emits_remaining_exact _ _ _ _ _ _ _ E Hr). lra.
  - rewrite dict_get_set_other by exact N. exists v0. split; [exact G | lra].
Qed.

Lemma while_loop_trace fuel day : forall st st',
  dict_ok (remaining_hours st) ->
  while_loop fuel day st = Some st' ->
  dict_keys (remaining_hours st') = dict_keys (remaining_hours st) /\
  exists new,
    schedule_rows st' = schedule_rows st ++ new /\
    Forall (fun r => Date r = day /\ In (Topic_ r) (dict_keys (remaining_hours st))) new /\
    forall k v0, dict_get (remaining_hours st) k = Some v0 ->
      exists v, dict_get (remaining_hours st') k = Some v /\ topic_sum k new + v == v0.
Proof.
  assert (Base : forall st, dict_ok (remaining_hours st) ->
    dict_keys (remaining_hours st) = dict_keys (remaining_hours st) /\
    exists new,
      schedule_rows st = schedule_rows st ++ new /\
      Forall (fun r => Date r = day /\ In (Topic_ r) (dict_keys (remaining_hours st))) new /\
      forall k v0, dict_get (remaining_hours st) k = Some v0 ->
        exists v, dict_get (remaining_hours st) k = Some v /\ topic_sum k new + v == v0).
  { intros st Hok. split; [reflexivity|]. exists []. rewrite app_nil_r.
    split; [reflexivity|]. split; [constructor|].
    intros k v0 G. exists v0. rewrite topic_sum_nil. split; [exact G | lra]. }
  induction fuel as [|fuel IH]; intros st st' Hok; simpl.
  - destruct (loop_guard st); [discriminate|]. intros [= <-]. now apply Base.
  - destruct (loop_guard st) eqn:G; [|intros [= <-]; now apply Base].
    destruct (guard_emits day st G Hok) as (st1 & fl & t & r & a & B & E).
    rewrite B. pose proof (emits_dict_ok _ _ _ _ _ _ _ E Hok) as Hok1.
    destruct (emits_keys _ _ _ _ _ _ _ E) as [It Kt].
    pose proof (emits_rows _ _ _ _ _ _ _ E) as Hrows.
    assert (Step : forall st2 new,
      dict_keys (remaining_hours st2) = dict_keys (remaining_hours st1) ->
      schedule_rows st2 = schedule_rows st1 ++ new ->
      Forall (fun r => Date r = day /\ In (Topic_ r) (dict_keys (remaining_hours st1))) new ->
      (forall k v0, dict_get (remaining_hours st1) k = Some v0 ->
         exists v, dict_get (remaining_hours st2) k = Some v /\ topic_sum k new + v == v0) ->
      dict_keys (remaining_hours st2) = dict_keys (remaining_hours st) /\
      exists new',
        schedule_rows st2 = schedule_rows st ++ new' /\
        Forall (fun r => Date r = day /\ In (Topic_ r) (dict_keys (remaining_hours st))) new' /\
        forall k v0, dict_get (remaining_hours st) k = Some v0 ->
          exists v, dict_get (remaining_hours st2) k = Some v /\ topic_sum k new' + v == v0).
    { intros st2 new K2 R2 F2 C2. split; [now rewrite K2|].
      exists (mkRow day t a :: new). rewrite R2, Hrows, <- app_assoc.
      split; [reflexivity|]. split.
      - constructor; [split; [reflexivity | exact It]|]. now rewrite <- Kt.
      - intros k v0 G0.
        destruct (emits_conserves _ _ _ _ _ _ _ k v0 E Hok G0) as (v1 & G1 & C1).
        destruct (C2 _ _ G1) as (v & G2 & C). exists v. split; [exact G2|].
        rewrite topic_sum_cons in *. rewrite topic_sum_nil in C1. cbn [Topic_ Hours] in *.
        destruct (String.eqb t k); lra. }
    destruct fl.
    + intro W. destruct (IH _ _ Hok1 W) as (K2 & new & R2 & F2 & C2).
      now apply (Step st' new).
    + intros [= <-]. destruct (Base st1 Hok1) as (K2 & new & R2 & F2 & C2).
      now apply (Step st1 new).
Qed.

Lemma for_days_trace fuel daily_hours days : forall rem rows rem' rows',
  dict_ok rem ->
  for_days fuel days daily_hours rem rows = Some (rem', rows') ->
  dict_ok rem' /\
  dict_keys rem' = dict_keys rem /\
  exists new,
    rows' = rows ++ new /\
    Forall (fun r => In (Date r) days /\ In (Topic_ r) (dict_keys rem)) new /\
    forall k v0, dict_get rem k = Some v0 ->
      exists v, dict_get rem' k = Some v /\ topic_sum k new + v == v0.
Proof.
  induction days as [|day days IH]; intros rem rows rem' rows' Hok; simpl.
  - intros [= <- <-]. split; [exact Hok|]. split; [reflexivity|].
    exists []. rewrite app_nil_r.
    split; [reflexivity|]. split; [constructor|].
    intros k v0 G. exists v0. rewrite topic_sum_nil. split; [exact G | lra].
  - destruct (while_loop fuel day (mkState rem daily_hours rows)) as [st|] eqn:W;
      [|discriminate].
    destruct (while_loop_trace fuel day (mkState rem daily_hours rows) st Hok W)
      as (K1 & new1 & R1 & F1 & C1).
    destruct (while_loop_rows fuel day (mkState rem daily_hours rows) st Hok W)
      as [Hok1 _].
    cbn [remaining_hours schedule_rows] in *.
    intro F. destruct (IH _ _ _ _ Hok1 F) as (Hok' & K2 & new2 & R2 & F2 & C2).
    split; [exact Hok'|]. split; [now rewrite K2|].
    exists (new1 ++ new2). rewrite R2, R1, <- app_assoc.
    split; [reflexivity|]. split.
    + apply Forall_app. split.
      * eapply Forall_impl; [|exact F1]. intros r [-> Hr]. simpl. auto.
      * eapply Forall_impl; [|exact F2]. intros r [Hd Hr]. rewrite K1 in Hr. simpl. auto.
    + intros k v0 G0. destruct (C1 _ _ G0) as (v1 & G1 & E1).
      destruct (C2 _ _ G1) as (v & G2 & E2). exists v. split; [exact G2|].
      rewrite topic_sum_app. lra.
Qed.

End Trace.

(** ** The returned schedule and report *)

Lemma distinct_names_incl names k : In k (distinct_names names) -> In k names.
Proof.
  unfold distinct_names.
  enough (H : forall acc,
            In k (fold_left (fun acc k => if in_dec string_dec k acc then acc else acc ++ [k])
                            names acc) -> In k acc \/ In k names)
    by (intro I; destruct (H [] I) as [[]|I']; exact I').
  induction names as [|n names IH]; intros acc I; simpl in *; [auto|].
  destruct (IH _ I) as [Ia|In']; [|auto].
  destruct (in_dec string_dec n acc); [auto|].
  apply in_app_or in Ia. destruct Ia as [Ia|[<-|[]]]; auto.
Qed.

Lemma round_robin_topics names daily_hours days : forall ti,
  names <> [] ->
  Forall (fun r => In (Topic_ r) names) (round_robin days names ti daily_hours).
Proof.
  induction days as [|day days IH]; intros ti N; simpl; constructor; auto.
  simpl. apply nth_In. apply Nat.mod_upper_bound.
  destruct names; [congruence | discriminate].
Qed.

Lemma round_robin_in_days names daily_hours days ti :
  Forall (fun r => In (Date r) days) (round_robin days names ti daily_hours).
Proof.
  rewrite Forall_forall. intros r Hr.
  rewrite <- (round_robin_dates names daily_hours days ti). now apply in_map.
Qed.

(** X4. Every row of a returned schedule lies in the study window, from
    today up to the day before the exam and never on a weekend that is
    excluded, and names one of the given topics. *)
Theorem schedule_rows_in_window today topics exam_date daily_hours include_weekends
        sched rem total :
  generate_schedule today topics exam_date daily_hours include_weekends
  = Some (inr (sched, rem, total)) ->
  Forall (fun r => (today <= Date r < exam_date)%Z /\
                   (include_weekends = true \/ (weekday (Date r) < 5)%Z) /\
                   In (Topic_ r) (map name topics)) sched.
Proof.
  intro H. destruct (schedule_inv _ _ _ _ _ _ _ _ H)
    as (Hd & _ & rem0 & rows & D0 & N0 & F & Hl & Hh & ->).
  pose proof (proj1 (demand_model_ok _ _ _ D0)) as Hok0.
  destruct (for_days_trace _ _ _ _ _ _ _ Hok0 F) as (_ & K & new & R & Fn & _).
  simpl in R. subst new.
  assert (Hk : forall k, In k (dict_keys rem) -> In k (map name topics)).
  { intros k Ik. rewrite K, (demand_model_keys_distinct _ _ _ D0) in Ik.
    now apply distinct_names_incl. }
  apply (groupby_sum_keys
           (fun d t => (today <= d < exam_date)%Z /\
                       (include_weekends = true \/ (weekday d < 5)%Z) /\
                       In t (map name topics))).
  assert (Conv : forall r : ScheduleRow,
            In (Date r) (study_days_of today exam_date include_weekends) ->
            In (Topic_ r) (dict_keys rem) ->
            (today <= Date r < exam_date)%Z /\
            (include_weekends = true \/ (weekday (Date r) < 5)%Z) /\
            In (Topic_ r) (map name topics)).
  { intros r Id It. apply study_days_In in Id. destruct Id. auto. }
  destruct rows as [|r0 rows].
  - assert (Kn : dict_keys rem <> []).
    { destruct (Qlt_le_dec daily_hours (1 # 4)) as [L|L].
      - destruct (Hl L) as [_ ->]. destruct rem0; [congruence | discriminate].
      - now specialize (Hh L). }
    pose proof (round_robin_in_days (dict_keys rem) daily_hours
                  (study_days_of today exam_date include_weekends) 0) as Fd.
    pose proof (round_robin_topics (dict_keys rem) daily_hours
                  (study_days_of today exam_date include_weekends) 0 Kn) as Ft.
    rewrite Forall_forall in *. intros r Hr. apply Conv; auto.
  - rewrite Forall_forall in *. intros r Hr. destruct (Fn _ Hr) as [Id It].
    apply Conv; [exact Id | now rewrite K].
Qed.

Lemma schedule_rows_in_window_witness :
  exists sched rem total,
    generate_schedule 738000 [mkTopic "Calculus" 3 true; mkTopic "Biology" 2 false]
                      738007 3 false
    = Some (inr (sched, rem, total)) /\
    Forall (fun r => (738000 <= Date r < 738007)%Z /\
                     (false = true \/ (weekday (Date r) < 5)%Z) /\
                     In (Topic_ r) (map name [mkTopic "Calculus" 3 true;
                                              mkTopic "Biology" 2 false])) sched.
Proof.
  eexists _, _, _. split; [vm_compute; reflexivity|].
  eapply (schedule_rows_in_window 738000
            [mkTopic "Calculus" 3 true; mkTopic "Biology" 2 false] 738007 3 false).
  vm_compute. reflexivity.
Defined.

Lemma sorted_keys_NoDup rows :
  StronglySorted key_lt rows -> NoDup (map (fun r => (Date r, Topic_ r)) rows).
Proof.
  induction 1 as [|a rows S IH F]; simpl; constructor; [|exact IH].
  intro I. apply in_map_iff in I. destruct I as (b & E & Ib).
  rewrite Forall_forall in F. specialize (F _ Ib).
  injection E as E1 E2. apply (key_lt_irrefl b).
  unfold key_lt, key_compare in *. rewrite <- E1, <- E2 in F. exact F.
Qed.

(** X5. A returned schedule is in strictly increasing order of date and,
    within a date, of topic name: no two of its rows share both. *)
Theorem schedule_sorted today topics exam_date daily_hours include_weekends
        sched rem total :
  generate_schedule today topics exam_date daily_hours include_weekends
  = Some (inr (sched, rem, total)) ->
  StronglySorted key_lt sched /\
  NoDup (map (fun r => (Date r, Topic_ r)) sched).
Proof.
  intro H. destruct (schedule_inv _ _ _ _ _ _ _ _ H)
    as (_ & _ & rem0 & rows & _ & _ & _ & _ & _ & ->).
  pose proof (groupby_sum_sorted_keys
                (match rows with
                 | [] => round_robin (study_days_of today exam_date include_weekends)
                                     (dict_keys rem) 0 daily_hours
                 | _ :: _ => rows
                 end)) as S.
  split; [exact S | now apply sorted_keys_NoDup].
Qed.

Lemma schedule_sorted_witness :
  exists sched rem total,
    generate_schedule 738000 [mkTopic "Calculus" 3 true; mkTopic "Biology" 2 false]
                      738003 3 true
    = Some (inr (sched, rem, total)) /\
    StronglySorted key_lt sched /\
    NoDup (map (fun r => (Date r, Topic_ r)) sched).
Proof.
  eexists _, _, _. split; [vm_compute; reflexivity|].
  eapply (schedule_sorted 738000 [mkTopic "Calculus" 3 true; mkTopic "Biology" 2 false]
                          738003 3 true).
  vm_compute. reflexivity.
Defined.

(** X6. The remaining-hours report of a returned schedule has one entry
    per distinct topic name, in the order of first appearance in the
    topic list, and every entry is a whole number of quarter hours, not
    negative. *)
Theorem report_entries today topics exam_date daily_hours include_weekends
        sched rem total :
  generate_schedule today topics exam_date daily_hours include_weekends
  = Some (inr (sched, rem, total)) ->
  dict_keys rem = distinct_names (map name topics) /\
  NoDup (dict_keys rem) /\
  Forall (fun kv => quarter (snd kv)) rem.
Proof.
  intro H. destruct (schedule_inv _ _ _ _ _ _ _ _ H)
    as (_ & _ & rem0 & rows & D0 & _ & F & _ & _ & _).
  pose proof (proj1 (demand_model_ok _ _ _ D0)) as Hok0.
  destruct (for_days_trace _ _ _ _ _ _ _ Hok0 F) as ([ND Fq] & K & _).
  split; [|split; assumption].
  rewrite K. now apply (demand_model_keys_distinct _ _ _ D0).
Qed.

Lemma report_entries_witness :
  exists sched rem total,
    generate_schedule 738000 [mkTopic "Calculus" 3 true; mkTopic "Calculus" 2 false;
                              mkTopic "Biology" 2 false] 738003 3 true
    = Some (inr (sched, rem, total)) /\
    dict_keys rem = ["Calculus"; "Biology"]%string.
Proof.
  eexists _, _, _. split; [vm_compute; reflexivity|].
  exact (proj1 (report_entries 738000 [mkTopic "Calculus" 3 true; mkTopic "Calculus" 2 false;
                                       mkTopic "Biology" 2 false] 738003 3 true _ _ _
                               ltac:(vm_compute; reflexivity))).
Defined.

(** X7. On the greedy path, taken when [daily_hours] is at least 0.25,
    the hours the schedule gives a topic name and the hours the report
    leaves it add up to the entry of the demand model: nothing is lost
    to rounding.  Below 0.25 the fallback leaves the report at the
    demand model, whatever it schedules. *)
Theorem hours_conserved today topics exam_date daily_hours include_weekends
        sched rem total rem0 :
  generate_schedule today topics exam_date daily_hours include_weekends
  = Some (inr (sched, rem, total)) ->
  demand_model topics total = inr rem0 ->
  (1 # 4 <= daily_hours ->
   forall k v0, dict_get rem0 k = Some v0 ->
     exists v, dict_get rem k = Some v /\ topic_sum k sched + v == v0) /\
  (daily_hours < 1 # 4 -> rem = rem0).
Proof.
  intros H D0'. destruct (schedule_inv _ _ _ _ _ _ _ _ H)
    as (_ & _ & rem0' & rows & D0 & _ & F & Hl & Hh & ->).
  assert (rem0' = rem0) by congruence. subst rem0'. split.
  - intros Hq k v0 G. specialize (Hh Hq).
    pose proof (proj1 (demand_model_ok _ _ _ D0)) as Hok0.
    destruct (for_days_trace _ _ _ _ _ _ _ Hok0 F) as (_ & _ & new & R & _ & C).
    simpl in R. subst new. destruct (C _ _ G) as (v & Gv & E).
    exists v. split; [exact Gv|]. rewrite topic_sum_groupby.
    destruct rows; [congruence | exact E].
  - intro L. now apply Hl.
Qed.

Lemma hours_conserved_witness :
  exists sched rem total rem0,
    generate_schedule 738000 [mkTopic "Calculus" 3 true; mkTopic "Biology" 2 false]
                      738003 3 true
    = Some (inr (sched, rem, total)) /\
    demand_model [mkTopic "Calculus" 3 true; mkTopic "Biology" 2 false] total = inr rem0 /\
    forall k v0, dict_get rem0 k = Some v0 ->
      exists v, dict_get rem k = Some v /\ topic_sum k sched + v == v0.
Proof.
  eexists _, _, _, _. split; [vm_compute; reflexivity|].
  split; [vm_compute; reflexivity|].
  refine (proj1 (hours_conserved 738000 [mkTopic "Calculus" 3 true; mkTopic "Biology" 2 false]
                                 738003 3 true _ _ _ _ _ _) _).
  - vm_compute. reflexivity.
  - vm_compute. reflexivity.
  - vm_compute. discriminate.
Defined.

(** ** A whole number of quarter hours a day *)

Section Exact.

Lemma all_done_guard st : all_done (remaining_hours st) -> loop_guard st = false.
Proof.
  intro A. unfold loop_guard. apply andb_false_iff. right.
  unfold dict_values. induction A as [|[k v] d Hv A IH]; simpl; [reflexivity|].
  apply orb_false_iff. split; [|exact IH].
  apply Qlt_bool_false. simpl in Hv. rewrite Hv. discriminate.
Qed.

Lemma for_days_all_done fuel daily_hours days rem rows :
  all_done rem -> for_days fuel days daily_hours rem rows = Some (rem, rows).
Proof.
  intro A. induction days as [|day days IH]; simpl; [reflexivity|].
  pose proof (all_done_guard (mkState rem daily_hours rows) A) as G.
  destruct fuel; simpl; rewrite G; exact IH.
Qed.

(** When the loop condition fails on quarters, the day is full or no
    topic has hours left. *)
Lemma guard_false_exact st :
  loop_guard st = false -> dict_ok (remaining_hours st) -> quarter (hours_left st) ->
  hours_left st == 0 \/ all_done (remaining_hours st).
Proof.
  intros G [_ F] Hq. unfold loop_guard in G. apply andb_false_iff in G.
  destruct G as [G|G].
  - left. apply quarter_small; [exact Hq|]. now apply Qle_bool_false.
  - right. unfold all_done, dict_values in *.
    induction F as [|[k v] d Hv F IH]; constructor; simpl in *;
      apply orb_false_iff in G; destruct G as [Gv Gd]; [|auto].
    apply Qlt_bool_false in Gv. apply quarter_small; [exact Hv | lra].
Qed.

Lemma while_loop_exact fuel day : forall st st',
  dict_ok (remaining_hours st) -> quarter (hours_left st) ->
  while_loop fuel day st = Some st' ->
  exists new,
    schedule_rows st' = schedule_rows st ++ new /\
    day_rows day new /\
    sum_hours new + hours_left st' == hours_left st /\
    0 <= hours_left st' /\
    (hours_left st' == 0 \/ all_done (remaining_hours st')).
Proof.
  assert (Base : forall st, loop_guard st = false ->
    dict_ok (remaining_hours st) -> quarter (hours_left st) ->
    exists new,
      schedule_rows st = schedule_rows st ++ new /\
      day_rows day new /\
      sum_hours new + hours_left st == hours_left st /\
      0 <= hours_left st /\
      (hours_left st == 0 \/ all_done (remaining_hours st))).
  { intros st G Hok Hq. exists []. rewrite app_nil_r.
    split; [reflexivity|]. split; [constructor|]. split; [simpl; lra|].
    split; [now apply quarter_nonneg | now apply guard_false_exact]. }
  induction fuel as [|fuel IH]; intros st st' Hok Hq; simpl.
  - destruct (loop_guard st) eqn:G; [discriminate|]. intros [= <-]. now apply Base.
  - destruct (loop_guard st) eqn:G; [|intros [= <-]; now apply Base].
    destruct (guard_emits day st G Hok) as (st1 & fl & t & r & a & B & E).
    rewrite B. pose proof (emits_dict_ok _ _ _ _ _ _ _ E Hok) as Hok1.
    pose proof (emits_hours_left_quarter _ _ _ _ _ _ _ E) as Hq1.
    pose proof (emits_hours_left_exact _ _ _ _ _ _ _ E Hq) as Hex.
    pose proof (emits_rows _ _ _ _ _ _ _ E) as Hrows.
    pose proof (emits_alloc_pos_quarter _ _ _ _ _ _ _ E) as Ha.
    destruct fl.
    + intro W. destruct (IH _ _ Hok1 Hq1 W) as (new & R & Dn & S & P & C).
      exists (mkRow day t a :: new). rewrite R, Hrows, <- app_assoc.
      split; [reflexivity|]. split; [constructor; [split|]; auto|].
      simpl. split; [lra|]. split; assumption.
    + intros [= <-]. exists [mkRow day t a]. split; [exact Hrows|].
      split; [repeat constructor; auto|]. simpl. split; [lra|].
      split; [now apply quarter_nonneg|]. left.
      apply quarter_small; [exact Hq1|].
      destruct E as (_ & _ & _ & _ & -> & Hfl). cbn [hours_left].
      destruct (Qlt_bool _ (1 # 4)) eqn:L; [now apply Qlt_bool_iff | discriminate].
Qed.

Lemma for_days_exact fuel daily_hours days : forall rem rows rem' rows',
  quarter daily_hours -> dict_ok rem -> NoDup days ->
  (forall r, In r rows -> ~ In (Date r) days) ->
  for_days fuel days daily_hours rem rows = Some (rem', rows') ->
  (forall d, ~ In d days -> day_sum d rows' == day_sum d rows) /\
  (forall d, In d days -> day_sum d rows' <= daily_hours) /\
  ((forall d, In d days -> day_sum d rows' == daily_hours) \/ all_done rem').
Proof.
  intros rem rows rem' rows' HD. revert rem rows rem' rows'.
  induction days as [|day days IH]; intros rem rows rem' rows' Hok ND Hfresh; simpl.
  - intros [= <- <-]. split; [reflexivity|]. split; [intros d []|]. left. intros d [].
  - destruct (while_loop fuel day (mkState rem daily_hours rows)) as [st|] eqn:W;
      [|discriminate].
    destruct (while_loop_exact fuel day (mkState rem daily_hours rows) st Hok HD W)
      as (new & R & Dn & S & P & C).
    destruct (while_loop_rows fuel day (mkState rem daily_hours rows) st Hok W)
      as [Hok1 _].
    cbn [remaining_hours schedule_rows hours_left] in *.
    inversion ND as [|? ? Hday ND']; subst.
    assert (Hfresh1 : forall r, In r (schedule_rows st) -> ~ In (Date r) days).
    { rewrite R. intros r Hr. apply in_app_or in Hr. destruct Hr as [Hr|Hr].
      - intro I. apply (Hfresh r Hr). simpl. auto.
      - unfold day_rows in Dn. rewrite Forall_forall in Dn.
        destruct (Dn _ Hr) as [-> _]. exact Hday. }
    assert (Hday_sum : day_sum day (schedule_rows st) == daily_hours - hours_left st).
    { rewrite R, day_sum_app, (day_sum_absent day rows), (day_sum_day_rows _ _ Dn); [lra|].
      intros r Hr E. apply (Hfresh r Hr). simpl. auto. }
    intro F.
    destruct C as [C|C].
    2: { rewrite (for_days_all_done fuel daily_hours days _ (schedule_rows st) C) in F.
         injection F as <- <-. split; [|split].
         - intros d Nd. rewrite R, day_sum_app.
           rewrite (day_sum_other_day d day new); [lra | | exact Dn].
           intros ->. apply Nd. simpl. auto.
         - intros d [<-|I]; [rewrite Hday_sum; lra|].
           rewrite R, day_sum_app, (day_sum_other_day d day new); [| |exact Dn].
           + rewrite (day_sum_absent d rows); [apply quarter_nonneg in HD; lra|].
             intros r Hr E. apply (Hfresh r Hr). simpl. rewrite E. auto.
           + intros ->. contradiction.
         - right. exact C. }
    destruct (IH _ _ _ _ Hok1 ND' Hfresh1 F) as (Out & Le & Dis).
    assert (Hday' : day_sum day rows' == daily_hours).
    { rewrite (Out day Hday), Hday_sum. lra. }
    split; [|split].
    + intros d Nd. rewrite (Out d) by (intro I; apply Nd; simpl; auto).
      rewrite R, day_sum_app, (day_sum_other_day d day new); [lra | | exact Dn].
      intros ->. apply Nd. simpl. auto.
    + intros d [<-|I]; [rewrite Hday'; lra | now apply Le].
    + destruct Dis as [Dis|Dis]; [left | now right].
      intros d [<-|I]; [exact Hday' | now apply Dis].
Qed.

End Exact.

Section Budget.

Lemma sum_hours_partition (p : ScheduleRow -> bool) rows :
  sum_hours rows
  == sum_hours (filter p rows) + sum_hours (filter (fun r => negb (p r)) rows).
Proof.
  induction rows as [|a rows IH]; simpl; [lra|].
  destruct (p a); simpl; rewrite IH; lra.
Qed.

Lemma day_sum_filter_other d day rows :
  d <> day ->
  day_sum d (filter (fun r => negb (Date r =? day)%Z) rows) = day_sum d rows.
Proof.
  intro N. unfold day_sum. f_equal.
  induction rows as [|a rows IH]; simpl; [reflexivity|].
  destruct (Z.eqb_spec (Date a) day) as [E|E]; simpl.
  - destruct (Z.eqb_spec (Date a) d) as [E'|E']; [congruence | exact IH].
  - destruct (Z.eqb_spec (Date a) d); [f_equal|]; exact IH.
Qed.

Lemma inject_Z_succ n : inject_Z (Z.of_nat (S n)) == inject_Z (Z.of_nat n) + 1.
Proof. rewrite Nat2Z.inj_succ. unfold Z.succ. rewrite inject_Z_plus. reflexivity. Qed.

Lemma rows_of_other_days day days rows :
  Forall (fun r => In (Date r) (day :: days)) rows ->
  Forall (fun r => In (Date r) days) (filter (fun r => negb (Date r =? day)%Z) rows).
Proof.
  intro F. rewrite Forall_forall in *. intros r Hr. apply filter_In in Hr.
  destruct Hr as [Hr Hn]. destruct (F _ Hr) as [E|I]; [|exact I].
  rewrite <- E, Z.eqb_refl in Hn. discriminate.
Qed.

(** Rows whose dates are study days: the hours are those of the days. *)
Lemma budget_le daily_hours days : forall rows,
  NoDup days ->
  Forall (fun r => In (Date r) days) rows ->
  (forall d, In d days -> day_sum d rows <= daily_hours) ->
  sum_hours rows <= inject_Z (Z.of_nat (List.length days)) * daily_hours.
Proof.
  induction days as [|day days IH]; intros rows ND F B.
  - destruct rows as [|r rows]; [|inversion F as [|? ? []]].
    change (0 <= 0 * daily_hours). lra.
  - inversion ND as [|? ? Hday ND']; subst. cbn [List.length].
    rewrite inject_Z_succ, (sum_hours_partition (fun r => (Date r =? day)%Z) rows).
    assert (H1 : sum_hours (filter (fun r => (Date r =? day)%Z) rows) <= daily_hours)
      by (apply (B day); simpl; auto).
    assert (H2 : sum_hours (filter (fun r => negb (Date r =? day)%Z) rows)
                 <= inject_Z (Z.of_nat (List.length days)) * daily_hours).
    { apply IH; [exact ND' | now apply rows_of_other_days|].
      intros d I. rewrite day_sum_filter_other by (intros ->; contradiction).
      apply B. simpl. auto. }
    lra.
Qed.

Lemma budget_eq daily_hours days : forall rows,
  NoDup days ->
  Forall (fun r => In (Date r) days) rows ->
  (forall d, In d days -> day_sum d rows == daily_hours) ->
  sum_hours rows == inject_Z (Z.of_nat (List.length days)) * daily_hours.
Proof.
  induction days as [|day days IH]; intros rows ND F B.
  - destruct rows as [|r rows]; [|inversion F as [|? ? []]].
    change (0 == 0 * daily_hours). lra.
  - inversion ND as [|? ? Hday ND']; subst. cbn [List.length].
    rewrite inject_Z_succ, (sum_hours_partition (fun r => (Date r =? day)%Z) rows).
    assert (H1 : sum_hours (filter (fun r => (Date r =? day)%Z) rows) == daily_hours)
      by (apply (B day); simpl; auto).
    assert (H2 : sum_hours (filter (fun r => negb (Date r =? day)%Z) rows)
                 == inject_Z (Z.of_nat (List.length days)) * daily_hours).
    { apply IH; [exact ND' | now apply rows_of_other_days|].
      intros d I. rewrite day_sum_filter_other by (intros ->; contradiction).
      apply B. simpl. auto. }
    lra.
Qed.

Lemma sum_hours_agg_insert r : forall acc,
  sum_hours (agg_insert r acc) == sum_hours acc + Hours r.
Proof.
  induction acc as [|a acc IH]; simpl; [lra|].
  destruct (key_compare r a); simpl; [lra | lra | rewrite IH; lra].
Qed.

Lemma sum_hours_groupby rows : sum_hours (groupby_sum rows) == sum_hours rows.
Proof.
  unfold groupby_sum.
  enough (H : forall acc,
            sum_hours (fold_left (fun acc r => agg_insert r acc) rows acc)
            == sum_hours acc + sum_hours rows)
    by (rewrite H; simpl; lra).
  induction rows as [|r rows IH]; intro acc; simpl; [lra|].
  rewrite IH, sum_hours_agg_insert. lra.
Qed.

End Budget.

(** The greedy pass of a run whose [daily_hours] is a positive number of
    quarters. *)
Lemma exact_run today topics exam_date daily_hours include_weekends sched rem total :
  generate_schedule today topics exam_date daily_hours include_weekends
  = Some (inr (sched, rem, total)) ->
  pos_quarter daily_hours ->
  let study_days := study_days_of today exam_date include_weekends in
  total = inject_Z (Z.of_nat (List.length study_days)) * daily_hours /\
  exists rows,
    sched = groupby_sum rows /\
    Forall (fun r => In (Date r) study_days) rows /\
    (forall d, ~ In d study_days -> day_sum d rows == 0) /\
    (forall d, In d study_days -> day_sum d rows <= daily_hours) /\
    ((forall d, In d study_days -> day_sum d rows == daily_hours) \/ all_done rem).
Proof.
  intros H HD. cbv zeta.
  destruct (schedule_inv _ _ _ _ _ _ _ _ H)
    as (_ & Et & rem0 & rows & D0 & _ & F & _ & Hh & ->).
  split; [exact Et|].
  pose proof (proj1 (demand_model_ok _ _ _ D0)) as Hok0.
  pose proof (sorted_NoDup _ (study_days_sorted today exam_date include_weekends)) as ND.
  destruct (for_days_exact _ _ _ _ _ _ _ (pos_quarter_quarter _ HD) Hok0 ND
              (fun r (I : In r []) => match I with end) F) as (Out & Le & Dis).
  destruct (for_days_trace _ _ _ _ _ _ _ Hok0 F) as (_ & _ & new & R & Fn & _).
  simpl in R. subst new.
  specialize (Hh (pos_quarter_ge _ HD)).
  exists rows. split; [destruct rows; [congruence | reflexivity]|].
  split; [eapply Forall_impl; [|exact Fn]; simpl; tauto|].
  split; [intros d Nd; rewrite (Out d Nd); reflexivity|].
  split; assumption.
Qed.

(** X8. When [daily_hours] is a positive whole number of quarter hours,
    no date of the schedule carries more than [daily_hours], with no
    tolerance; and either every study day carries exactly [daily_hours]
    or the report shows no hours left for any topic. *)
Theorem exact_capacity today topics exam_date daily_hours include_weekends
        sched rem total :
  generate_schedule today topics exam_date daily_hours include_weekends
  = Some (inr (sched, rem, total)) ->
  pos_quarter daily_hours ->
  (forall d, day_sum d sched <= daily_hours) /\
  ((forall d, In d (study_days_of today exam_date include_weekends) ->
              day_sum d sched == daily_hours) \/
   all_done rem).
Proof.
  intros H HD.
  destruct (exact_run _ _ _ _ _ _ _ _ H HD) as (_ & rows & -> & _ & Out & Le & Dis).
  split.
  - intro d. rewrite day_sum_groupby.
    destruct (in_dec Z.eq_dec d (study_days_of today exam_date include_weekends))
      as [I|I]; [now apply Le|].
    rewrite (Out d I). apply pos_quarter_ge in HD. lra.
  - destruct Dis as [Dis|Dis]; [left | now right].
    intros d I. rewrite day_sum_groupby. now apply Dis.
Qed.

Lemma exact_capacity_witness :
  exists sched rem total,
    generate_schedule 738000 [mkTopic "Calculus" 3 true; mkTopic "Biology" 2 false]
                      738003 (5 # 2) true
    = Some (inr (sched, rem, total)) /\
    forall d, day_sum d sched <= 5 # 2.
Proof.
  eexists _, _, _. split; [vm_compute; reflexivity|].
  refine (proj1 (exact_capacity 738000 [mkTopic "Calculus" 3 true; mkTopic "Biology" 2 false]
                                738003 (5 # 2) true _ _ _ _ _)).
  - vm_compute. reflexivity.
  - exists 10%Z. split; [lia | reflexivity].
Defined.

(** X9. When [daily_hours] is a positive whole number of quarter hours,
    the hours of the schedule add up to at most [total_available_hours];
    and either they add up to exactly that, or the report shows no hours
    left for any topic. *)
Theorem budget_respected today topics exam_date daily_hours include_weekends
        sched rem total :
  generate_schedule today topics exam_date daily_hours include_weekends
  = Some (inr (sched, rem, total)) ->
  pos_quarter daily_hours ->
  sum_hours sched <= total /\
  (sum_hours sched == total \/ all_done rem).
Proof.
  intros H HD.
  destruct (exact_run _ _ _ _ _ _ _ _ H HD) as (-> & rows & -> & Fd & _ & Le & Dis).
  pose proof (sorted_NoDup _ (study_days_sorted today exam_date include_weekends)) as ND.
  rewrite sum_hours_groupby. split.
  - now apply budget_le.
  - destruct Dis as [Dis|Dis]; [left | now right]. now apply budget_eq.
Qed.

Lemma budget_respected_witness :
  exists sched rem total,
    generate_schedule 738000 [mkTopic "Calculus" 3 true; mkTopic "Biology" 2 false]
                      738003 (5 # 2) true
    = Some (inr (sched, rem, total)) /\
    sum_hours sched <= total.
Proof.
  eexists _, _, _. split; [vm_compute; reflexivity|].
  refine (proj1 (budget_respected 738000 [mkTopic "Calculus" 3 true; mkTopic "Biology" 2 false]
                                  738003 (5 # 2) true _ _ _ _ _)).
  - vm_compute. reflexivity.
  - exists 10%Z. split; [lia | reflexivity].
Defined.

(** ** The choice of the topic (line 107) *)

Lemma max_item_first d : forall k v,
  max_item d = Some (k, v) ->
  exists pre post,
    d = pre ++ (k, v) :: post /\
    Forall (fun kv => snd kv < v) pre /\
    Forall (fun kv => snd kv <= v) post.
Proof.
  induction d as [|[k0 v0] d IH]; intros k v; simpl; [discriminate|].
  destruct (max_item d) as [[k1 v1]|] eqn:M.
  - destruct (Qlt_bool v0 v1) eqn:L; intros [= <- <-].
    + destruct (IH _ _ eq_refl) as (pre & post & -> & Fpre & Fpost).
      exists ((k0, v0) :: pre), post. split; [reflexivity|].
      split; [|exact Fpost]. constructor; [|exact Fpre].
      simpl. now apply Qlt_bool_iff.
    + exists [], d. split; [reflexivity|]. split; [constructor|].
      apply Qlt_bool_false in L. pose proof (max_item_max _ _ _ M) as F.
      eapply Forall_impl; [|exact F]. simpl. intros a Ha. lra.
  - intros [= <- <-]. apply max_item_None in M. subst d.
    exists [], []. repeat split; constructor.
Qed.

(** X10. A run of the loop body that emits a row gives it the topic
    whose entry is the largest; among equal largest entries it takes
    the one inserted first, every entry before it being strictly
    smaller. *)
Theorem greedy_picks_first_max day st st' fl row :
  loop_body day st = (st', fl) ->
  schedule_rows st' = schedule_rows st ++ [row] ->
  exists pre v post,
    remaining_hours st = pre ++ (Topic_ row, v) :: post /\
    Forall (fun kv => snd kv < v) pre /\
    Forall (fun kv => snd kv <= v) post.
Proof.
  intros B R. destruct (loop_body_cases _ _ _ _ B) as [[-> _]|(t & r & a & E)].
  - exfalso. apply (f_equal (@List.length ScheduleRow)) in R.
    rewrite length_app in R. simpl in R. lia.
  - rewrite (emits_rows _ _ _ _ _ _ _ E) in R. apply app_inv_head in R.
    injection R as <-. simpl.
    destruct (max_item_first _ _ _ (proj1 E)) as (pre & post & H).
    exists pre, r, post. exact H.
Qed.

Lemma greedy_picks_first_max_witness :
  exists pre v post,
    [("Calculus", 1); ("Biology", 2); ("History", 2)]%string
    = pre ++ ("Biology"%string, v) :: post /\
    Forall (fun kv => snd kv < v) pre /\
    Forall (fun kv => snd kv <= v) post.
Proof.
  apply (greedy_picks_first_max 738000
           (mkState [("Calculus", 1); ("Biology", 2); ("History", 2)]%string 3 [])
           (mkState [("Calculus", 1); ("Biology", 0 # 4); ("History", 2)]%string (4 # 4)
                    [mkRow 738000 "Biology" (8 # 4)])
           Next (mkRow 738000 "Biology" (8 # 4))).
  - vm_compute. reflexivity.
  - reflexivity.
Defined.

(** ** The dict of the demand model (lines 91-98) *)

Lemma allocated_hours_pos_half w sum_w total a :
  allocated_hours w sum_w total = inr a -> pos_half a.
Proof.
  unfold allocated_hours. destruct (Qeq_bool sum_w 0); [discriminate|].
  set (z := py_round (w / sum_w * total * 2)).
  destruct (Qlt_bool (inject_Z z / 2) (1 # 2)) eqn:L; intros [= <-].
  - exists 1%Z. split; [lia | reflexivity].
  - apply Qlt_bool_false in L. exists z. split; [|reflexivity].
    apply (proj2 (inject_Z_ge_1 _)).
    unfold Qdiv in L. change (/ 2) with (1 # 2) in L. lra.
Qed.

Lemma demand_loop_pos_half tws sum_w total : forall d0 d,
  demand_loop tws sum_w total d0 = inr d ->
  Forall (fun kv => pos_half (snd kv)) d0 ->
  Forall (fun kv => pos_half (snd kv)) d.
Proof.
  induction tws as [|[t w] tws IH]; intros d0 d; simpl.
  - now intros [= <-].
  - destruct (allocated_hours w sum_w total) as [e|a] eqn:A; [discriminate|].
    intros L F. apply (IH _ _ L). apply dict_set_Forall; [exact F|].
    eapply allocated_hours_pos_half; eauto.
Qed.

(** X11. The dict the demand model builds has one entry per distinct
    topic name, in the order of first appearance, and every entry is a
    whole number of half hours, at least one. *)
Theorem demand_model_entries topics total d :
  demand_model topics total = inr d ->
  dict_keys d = distinct_names (map name topics) /\
  NoDup (dict_keys d) /\
  Forall (fun kv => pos_half (snd kv)) d.
Proof.
  intro D0. split; [now apply (demand_model_keys_distinct _ _ _ D0)|].
  split; [apply (demand_model_ok _ _ _ D0)|].
  apply (demand_loop_pos_half _ _ _ _ _ D0). constructor.
Qed.

Lemma demand_model_entries_witness :
  exists d,
    demand_model [mkTopic "Calculus" 3 true; mkTopic "Biology" 2 false;
                  mkTopic "Calculus" 1 false] (10 * 3) = inr d /\
    dict_keys d = ["Calculus"; "Biology"]%string /\
    Forall (fun kv => pos_half (snd kv)) d.
Proof.
  eexists. split; [vm_compute; reflexivity|].
  destruct (demand_model_entries
              [mkTopic "Calculus" 3 true; mkTopic "Biology" 2 false;
               mkTopic "Calculus" 1 false] (10 * 3) _ ltac:(vm_compute; reflexivity))
    as (K & _ & F).
  split; [exact K | exact F].
Defined.

(** ** [parse_topics] (lines 34-58) *)

Section Tokens.

Lemma scan_token_spec d p token :
  scan_token (d, p) token
  = match difficulty_of_word token with
    | Some v => (v, p)
    | None => if is_priority_word token then (d, true) else (d, p)
    end.
Proof.
  unfold scan_token, difficulty_of_word, is_priority_word.
  destruct (token_in token ["easy"; "e"]%string); [reflexivity|].
  destruct (token_in token ["medium"; "m"]%string); [reflexivity|].
  destruct (token_in token ["hard"; "h"]%string); reflexivity.
Qed.

Lemma difficulty_of_word_range token v :
  difficulty_of_word token = Some v -> (1 <= v <= 3)%Z.
Proof.
  unfold difficulty_of_word.
  destruct (token_in token ["easy"; "e"]%string); [intros [= <-]; lia|].
  destruct (token_in token ["medium"; "m"]%string); [intros [= <-]; lia|].
  destruct (token_in token ["hard"; "h"]%string); [intros [= <-]; lia | discriminate].
Qed.

(** No word sets both. *)
Lemma priority_word_no_difficulty token :
  is_priority_word token = true -> difficulty_of_word token = None.
Proof.
  unfold is_priority_word, token_in. intro H. apply existsb_exists in H.
  destruct H as (w & Hw & E). apply String.eqb_eq in E. subst w.
  simpl in Hw. destruct Hw as [<-|[<-|[<-|[]]]]; reflexivity.
Qed.

Lemma scan_priority tokens : forall d p,
  snd (fold_left scan_token tokens (d, p)) = p || existsb is_priority_word tokens.
Proof.
  induction tokens as [|tok tokens IH]; intros d p; cbn [fold_left existsb snd];
    [now rewrite orb_false_r|].
  rewrite scan_token_spec.
  destruct (is_priority_word tok) eqn:P.
  - rewrite (priority_word_no_difficulty _ P), IH. cbn [orb]. now rewrite orb_true_r.
  - destruct (difficulty_of_word tok); rewrite IH; reflexivity.
Qed.

Lemma scan_no_difficulty tokens : forall d p,
  (forall tok, In tok tokens -> difficulty_of_word tok = None) ->
  fst (fold_left scan_token tokens (d, p)) = d.
Proof.
  induction tokens as [|tok tokens IH]; intros d p H; cbn [fold_left]; [reflexivity|].
  rewrite scan_token_spec, (H tok (or_introl eq_refl)).
  destruct (is_priority_word tok); apply IH; intros t I; apply H; simpl; auto.
Qed.

Lemma scan_last_difficulty ts1 tok ts2 v d p :
  difficulty_of_word tok = Some v ->
  (forall t, In t ts2 -> difficulty_of_word t = None) ->
  fst (fold_left scan_token (ts1 ++ tok :: ts2) (d, p)) = v.
Proof.
  intros Hv H. rewrite fold_left_app. cbn [fold_left].
  destruct (fold_left scan_token ts1 (d, p)) as [d1 p1].
  rewrite scan_token_spec, Hv. now apply scan_no_difficulty.
Qed.

Lemma scan_range tokens : forall d p,
  (1 <= d <= 3)%Z -> (1 <= fst (fold_left scan_token tokens (d, p)) <= 3)%Z.
Proof.
  induction tokens as [|tok tokens IH]; intros d p H; cbn [fold_left]; [exact H|].
  rewrite scan_token_spec. destruct (difficulty_of_word tok) as [v|] eqn:E.
  - apply IH. eapply difficulty_of_word_range; eauto.
  - destruct (is_priority_word tok); now apply IH.
Qed.

Lemma parse_line_fields ln :
  name (parse_line ln) = title (hd EmptyString (map (fun p => lower (strip p)) (split_comma ln))) /\
  difficulty (parse_line ln) = fst (fold_left scan_token (tokens_of ln) (2%Z, false)) /\
  priority (parse_line ln) = snd (fold_left scan_token (tokens_of ln) (2%Z, false)).
Proof.
  unfold parse_line, tokens_of.
  destruct (fold_left scan_token _ (2%Z, false)) as [d p]. auto.
Qed.

End Tokens.

Lemma parse_line_valid ln : valid_topic (parse_line ln).
Proof.
  unfold valid_topic. rewrite (proj1 (proj2 (parse_line_fields ln))).
  apply scan_range. lia.
Qed.

Lemma parse_topics_valid_topics text_block :
  Forall valid_topic (parse_topics text_block).
Proof.
  unfold parse_topics. apply Forall_forall. intros t Ht.
  apply in_map_iff in Ht. destruct Ht as (ln & <- & _). apply parse_line_valid.
Qed.

(** X12. Every topic [parse_topics] returns has difficulty 1, 2 or 3,
    whatever the text, so the weights of a list it returns that is not
    empty add up to more than zero: the list is fit for
    [generate_schedule]. *)
Theorem parse_topics_valid text_block :
  Forall valid_topic (parse_topics text_block) /\
  (parse_topics text_block <> [] ->
   0 < sum_weights (map weight (parse_topics text_block))).
Proof.
  pose proof (parse_topics_valid_topics text_block) as V.
  split; [exact V|]. intro N.
  apply sum_weights_pos; [|now apply weights_valid].
  destruct (parse_topics text_block); [congruence | discriminate].
Qed.

Lemma parse_topics_valid_witness :
  0 < sum_weights (map weight (parse_topics "Calculus, hard, priority")).
Proof.
  apply (proj2 (parse_topics_valid "Calculus, hard, priority")).
  vm_compute. discriminate.
Defined.

(** X13. On a line, the priority is set exactly when one of the tokens
    after the name is a priority word; the difficulty is that of the
    last token that is a difficulty word, and 2 when there is none.
    Tokens that are neither are ignored. *)
Theorem parse_line_tokens ln :
  priority (parse_line ln) = existsb is_priority_word (tokens_of ln) /\
  ((forall tok, In tok (tokens_of ln) -> difficulty_of_word tok = None) ->
   difficulty (parse_line ln) = 2%Z) /\
  (forall ts1 tok ts2 v,
     tokens_of ln = ts1 ++ tok :: ts2 ->
     difficulty_of_word tok = Some v ->
     (forall t, In t ts2 -> difficulty_of_word t = None) ->
     difficulty (parse_line ln) = v).
Proof.
  destruct (parse_line_fields ln) as (_ & Hd & Hp). rewrite Hd, Hp.
  split; [apply scan_priority|]. split.
  - now apply scan_no_difficulty.
  - intros ts1 tok ts2 v -> Hv H. now apply scan_last_difficulty.
Qed.

Lemma parse_line_tokens_witness :
  difficulty (parse_line "calculus, easy, Priority, HARD, soon") = 3%Z.
Proof.
  apply (proj2 (proj2 (parse_line_tokens "calculus, easy, Priority, HARD, soon"))
           ["easy"; "priority"]%string "hard"%string ["soon"]%string 3%Z).
  - vm_compute. reflexivity.
  - reflexivity.
  - intros t [<-|[]]. reflexivity.
Defined.

Section Lines.

Lemma string_ind2 (P : string -> Prop) :
  P EmptyString ->
  (forall c, P (String c EmptyString)) ->
  (forall c c' s, P s -> P (String c' s) -> P (String c (String c' s))) ->
  forall s, P s.
Proof.
  intros H0 H1 H2 s.
  enough (H : P s /\ forall c, P (String c s)) by apply H.
  induction s as [|c' s [IHs IHc]]; split; auto.
Qed.

Lemma splitlines_one c :
  splitlines (String c EmptyString)
  = if is_linebreak c then [EmptyString] else [String c EmptyString].
Proof. reflexivity. Qed.

Lemma splitlines_two c c' s :
  splitlines (String c (String c' s))
  = if is_linebreak c then
      EmptyString :: (if Ascii.eqb c "013"%char && Ascii.eqb c' "010"%char
                      then splitlines s else splitlines (String c' s))
    else match splitlines (String c' s) with
         | line :: lines => String c line :: lines
         | [] => [String c EmptyString]
         end.
Proof. reflexivity. Qed.

(** The lines are made of characters of the text. *)
Lemma splitlines_forall (p : ascii -> bool) : forall s,
  string_forall p s = true ->
  Forall (fun l => string_forall p l = true) (splitlines s).
Proof.
  apply (string_ind2 (fun s => string_forall p s = true ->
                               Forall (fun l => string_forall p l = true) (splitlines s))).
  - constructor.
  - intros c H. rewrite splitlines_one.
    destruct (is_linebreak c); repeat constructor. exact H.
  - intros c c' s IH1 IH2 H. rewrite splitlines_two.
    cbn [string_forall] in H. apply andb_true_iff in H. destruct H as [Hc H'].
    assert (Hs : string_forall p s = true).
    { apply andb_true_iff in H'. apply H'. }
    specialize (IH1 Hs). specialize (IH2 H').
    destruct (is_linebreak c).
    + constructor; [reflexivity|].
      destruct (Ascii.eqb c "013"%char && Ascii.eqb c' "010"%char); assumption.
    + destruct (splitlines (String c' s)) as [|line lines]; repeat constructor.
      * cbn [string_forall]. now rewrite Hc.
      * inversion IH2; subst. cbn [string_forall]. rewrite Hc. assumption.
      * inversion IH2; assumption.
Qed.

Lemma lstrip_all_space s : string_forall is_space s = true -> lstrip s = EmptyString.
Proof.
  induction s as [|c s IH]; simpl; [reflexivity|].
  intro H. apply andb_true_iff in H. destruct H as [-> H]. now apply IH.
Qed.

Lemma strip_all_space s : string_forall is_space s = true -> blank s.
Proof. intro H. unfold blank, strip. now rewrite lstrip_all_space. Qed.

End Lines.

(** X14. [parse_topics] returns no topic exactly when every line of the
    text is blank; so it is with the empty text and with any text of
    white space only. *)
Theorem parse_topics_blank text_block :
  (parse_topics text_block = [] <-> Forall blank (splitlines text_block)) /\
  (string_forall is_space text_block = true -> parse_topics text_block = []).
Proof.
  assert (Iff : parse_topics text_block = [] <-> Forall blank (splitlines text_block)).
  { unfold parse_topics, blank.
    induction (splitlines text_block) as [|l ls IH]; simpl.
    - split; constructor.
    - destruct (String.eqb_spec (strip l) EmptyString) as [E|E]; simpl.
      + rewrite IH. split; [intro F; constructor; assumption|].
        intro F. now inversion F.
      + split; [discriminate|]. intro F. inversion F. contradiction. }
  split; [exact Iff|].
  intro H. apply Iff. eapply Forall_impl; [|apply (splitlines_forall _ _ H)].
  intros l. apply strip_all_space.
Qed.

Lemma parse_topics_blank_witness :
  parse_topics (String " " (String "010" (String "009" (String " " EmptyString)))) = [].
Proof.
  apply (proj2 (parse_topics_blank _)). reflexivity.
Defined.

Section Case.

Lemma lower_char_space c : is_space (lower_char c) = is_space c.
Proof. destruct c as [[] [] [] [] [] [] [] []]; reflexivity. Qed.

Lemma lower_char_linebreak c : is_linebreak (lower_char c) = is_linebreak c.
Proof. destruct c as [[] [] [] [] [] [] [] []]; reflexivity. Qed.

Lemma lower_char_comma c : Ascii.eqb (lower_char c) ","%char = Ascii.eqb c ","%char.
Proof. destruct c as [[] [] [] [] [] [] [] []]; reflexivity. Qed.

Lemma lower_char_cr c : Ascii.eqb (lower_char c) "013"%char = Ascii.eqb c "013"%char.
Proof. destruct c as [[] [] [] [] [] [] [] []]; reflexivity. Qed.

Lemma lower_char_lf c : Ascii.eqb (lower_char c) "010"%char = Ascii.eqb c "010"%char.
Proof. destruct c as [[] [] [] [] [] [] [] []]; reflexivity. Qed.

Lemma lower_char_idem c : lower_char (lower_char c) = lower_char c.
Proof. destruct c as [[] [] [] [] [] [] [] []]; reflexivity. Qed.

Lemma lower_idem s : lower (lower s) = lower s.
Proof. induction s as [|c s IH]; simpl; [|rewrite lower_char_idem, IH]; reflexivity. Qed.

Lemma lstrip_lower s : lstrip (lower s) = lower (lstrip s).
Proof.
  induction s as [|c s IH]; simpl; [reflexivity|].
  rewrite lower_char_space. destruct (is_space c); [exact IH | reflexivity].
Qed.

Lemma rstrip_lower s : rstrip (lower s) = lower (rstrip s).
Proof.
  induction s as [|c s IH]; simpl; [reflexivity|].
  rewrite IH, lower_char_space.
  destruct (rstrip s); simpl; [destruct (is_space c)|]; reflexivity.
Qed.

Lemma strip_lower s : strip (lower s) = lower (strip s).
Proof. unfold strip. now rewrite lstrip_lower, rstrip_lower. Qed.

Lemma lower_empty s : lower s = EmptyString <-> s = EmptyString.
Proof. destruct s; simpl; split; congruence. Qed.

Lemma split_comma_lower s : split_comma (lower s) = map lower (split_comma s).
Proof.
  induction s as [|c s IH]; simpl; [reflexivity|].
  rewrite lower_char_comma, IH.
  destruct (Ascii.eqb c ","%char); [reflexivity|].
  destruct (split_comma s); reflexivity.
Qed.

Lemma splitlines_lower : forall s, splitlines (lower s) = map lower (splitlines s).
Proof.
  apply (string_ind2 (fun s => splitlines (lower s) = map lower (splitlines s))).
  - reflexivity.
  - intro c. cbn [lower]. rewrite !splitlines_one, lower_char_linebreak.
    destruct (is_linebreak c); reflexivity.
  - intros c c' s IH1 IH2. cbn [lower] in *.
    rewrite !splitlines_two, lower_char_linebreak, lower_char_cr, lower_char_lf, IH1, IH2.
    destruct (is_linebreak c).
    + destruct (Ascii.eqb c "013"%char && Ascii.eqb c' "010"%char); reflexivity.
    + destruct (splitlines (String c' s)); reflexivity.
Qed.

Lemma parse_line_lower ln : parse_line (lower ln) = parse_line ln.
Proof.
  unfold parse_line. rewrite split_comma_lower, map_map.
  rewrite (map_ext (fun p => lower (strip (lower p))) (fun p => lower (strip p)));
    [reflexivity|].
  intro p. now rewrite strip_lower, lower_idem.
Qed.

End Case.

(** X15. [parse_topics] does not see the case of ASCII letters: a text
    and the same text in lower case give the same topics. *)
Theorem parse_topics_case_insensitive text_block :
  parse_topics (lower text_block) = parse_topics text_block.
Proof.
  unfold parse_topics. rewrite splitlines_lower.
  induction (splitlines text_block) as [|l ls IH]; simpl; [reflexivity|].
  rewrite strip_lower.
  destruct (String.eqb_spec (lower (strip l)) EmptyString) as [E|E];
    destruct (String.eqb_spec (strip l) EmptyString) as [E'|E']; simpl.
  - exact IH.
  - apply (proj1 (lower_empty _)) in E. contradiction.
  - rewrite E' in E. exfalso. apply E. reflexivity.
  - rewrite strip_lower, parse_line_lower, IH. reflexivity.
Qed.

(** ** Main flow on submit (lines 142-162) *)

Lemma schedule_dates today topics exam_date daily_hours include_weekends sched rem total :
  generate_schedule today topics exam_date daily_hours include_weekends
  = Some (inr (sched, rem, total)) ->
  sched <> [] /\
  Forall (fun r => In (Date r) (study_days_of today exam_date include_weekends)) sched.
Proof.
  intro H. destruct (schedule_inv _ _ _ _ _ _ _ _ H)
    as (Hd & _ & rem0 & rows & D0 & N0 & F & Hl & Hh & ->).
  pose proof (proj1 (demand_model_ok _ _ _ D0)) as Hok0.
  destruct (for_days_trace _ _ _ _ _ _ _ Hok0 F) as (_ & _ & new & R & Fn & _).
  simpl in R. subst new. split.
  - apply groupby_sum_nonempty. destruct rows; [|discriminate].
    destruct (study_days_of today exam_date include_weekends); [congruence | discriminate].
  - apply (groupby_sum_keys
             (fun d _ => In d (study_days_of today exam_date include_weekends))).
    destruct rows as [|r rows]; [apply round_robin_in_days|].
    eapply Forall_impl; [|exact Fn]. simpl. tauto.
Qed.

Lemma distinct_dates_count (dates days : list Z) :
  dates <> [] -> NoDup days -> (forall d, In d dates -> In d days) ->
  (1 <= List.length (nodup Z.eq_dec dates) <= List.length days)%nat.
Proof.
  intros N ND I. split.
  - destruct dates as [|d dates]; [congruence|].
    assert (H : In d (nodup Z.eq_dec (d :: dates))) by (apply nodup_In; simpl; auto).
    destruct (nodup Z.eq_dec (d :: dates)); [destruct H | simpl; lia].
  - apply NoDup_incl_length; [apply NoDup_nodup|].
    intros d Hd. apply nodup_In in Hd. now apply I.
Qed.

(** X16. What the page shows after a submit, by the input: the warning
    exactly when the text has no topic, and [generate_schedule] is then
    not called; otherwise the message of the first [ValueError] when the
    exam is not in the future, that of the second when the window is
    empty, and else a plan that is not empty, with a count of study days
    between one and the length of the window.  It never shows a
    [ZeroDivisionError]. *)
Theorem main_flow_outcomes today topics_input exam_date daily_hours include_weekends :
  let topics := parse_topics topics_input in
  let study_days := study_days_of today exam_date include_weekends in
  let shown := main_flow true today topics_input exam_date daily_hours include_weekends in
  (topics = [] ->
   shown = Some (Warning "Please enter at least one topic (one per line).")) /\
  (topics <> [] -> (exam_date <= today)%Z ->
   shown = Some (ErrorShown (ValueError "Exam date must be in the future."))) /\
  (topics <> [] -> (today < exam_date)%Z -> study_days = [] ->
   shown = Some (ErrorShown (ValueError
                   "No study days available (check exam date / weekend option)."))) /\
  (topics <> [] -> study_days <> [] ->
   exists df n total remaining,
     shown = Some (Plan df n total remaining) /\
     df <> [] /\ (1 <= n <= List.length study_days)%nat) /\
  shown <> Some (ErrorShown ZeroDivisionError) /\
  shown <> None.
Proof.
  cbv zeta. unfold main_flow.
  pose proof (parse_topics_valid_topics topics_input) as V.
  destruct (parse_topics topics_input) as [|t ts] eqn:P.
  { cbn [List.length Nat.eqb]. repeat split; try congruence; try discriminate. }
  cbn [List.length Nat.eqb].
  assert (N : ~ sum_weights (map weight (t :: ts)) == 0).
  { intro Z. pose proof (sum_weights_pos (map weight (t :: ts))
                           ltac:(discriminate) (weights_valid _ V)) as Pos.
    rewrite Z in Pos. lra. }
  pose proof (generate_schedule_cases today (t :: ts) exam_date daily_hours
                include_weekends) as C.
  cbv zeta in C.
  destruct C as [(L & E & R)|[(L & E & R)|[(L & Hd & Z & R)|(L & Hd & _ & rem0 & rem & rows & C)]]];
    [| | contradiction |].
  - rewrite R. split; [discriminate|]. split; [reflexivity|].
    split; [intros _ H; lia|]. split; [intros _ H; contradiction|].
    split; discriminate.
  - rewrite R. split; [discriminate|]. split; [intros _ H; lia|].
    split; [reflexivity|]. split; [intros _ H; contradiction|].
    split; discriminate.
  - destruct C as (_ & _ & _ & _ & _ & R).
    destruct (schedule_dates _ _ _ _ _ _ _ _ R) as [Ne Fd].
    rewrite R. split; [discriminate|]. split; [intros _ H; lia|].
    split; [intros _ _ H; contradiction|]. split; [|split; discriminate].
    intros _ _. eexists _, _, _, _. split; [reflexivity|]. split; [exact Ne|].
    apply distinct_dates_count.
    + intro M. apply map_eq_nil in M. contradiction.
    + apply sorted_NoDup, study_days_sorted.
    + intros d Hd'. apply in_map_iff in Hd'. destruct Hd' as (r & <- & Hr).
      rewrite Forall_forall in Fd. now apply Fd.
Qed.

Lemma main_flow_outcomes_witness :
  exists df n total remaining,
    main_flow true 738000 "Calculus, hard, priority" 738003 3 true
    = Some (Plan df n total remaining) /\
    df <> [] /\ (1 <= n <= List.length (study_days_of 738000 738003 true))%nat.
Proof.
  apply (proj1 (proj2 (proj2 (proj2
           (main_flow_outcomes 738000 "Calculus, hard, priority" 738003 3 true))))).
  - vm_compute. discriminate.
  - vm_compute. discriminate.
Defined.

(** ** Names *)

Section Names.

Lemma rstrip_keeps_head c s :
  is_space c = false -> exists r, rstrip (String c s) = String c r.
Proof.
  intro H. simpl. destruct (rstrip s); [rewrite H|]; eauto.
Qed.

Lemma rstrip_head s c r : rstrip s = String c r -> exists s', s = String c s'.
Proof.
  destruct s as [|c0 s]; simpl; [discriminate|].
  destruct (rstrip s).
  - destruct (is_space c0); [discriminate | intros [= <- <-]; eauto].
  - intros [= <- <-]. eauto.
Qed.

Lemma lstrip_head s c r : lstrip s = String c r -> is_space c = false.
Proof.
  induction s as [|c0 s IH]; simpl; [discriminate|].
  destruct (is_space c0) eqn:E; [exact IH|]. now intros [= <- <-].
Qed.

(** A stripped text that is not empty begins with a character that is
    no white space. *)
Lemma strip_head s c r : strip s = String c r -> is_space c = false.
Proof.
  unfold strip. intro H. destruct (rstrip_head _ _ _ H) as [s' E].
  eapply lstrip_head; eauto.
Qed.

Lemma map_map_hd (f : string -> string) l :
  f EmptyString = EmptyString ->
  hd EmptyString (map f l) = f (hd EmptyString l).
Proof. intro H. destruct l; simpl; congruence. Qed.

Lemma title_empty s : title s = EmptyString <-> s = EmptyString.
Proof. unfold title. destruct s; simpl; split; congruence. Qed.

Lemma split_comma_head c s :
  hd EmptyString (split_comma (String c s))
  = if Ascii.eqb c ","%char then EmptyString
    else String c (hd EmptyString (split_comma s)).
Proof.
  simpl. destruct (Ascii.eqb c ","%char); [reflexivity|].
  destruct (split_comma s); reflexivity.
Qed.

End Names.

(** X17. A line that [parse_topics] keeps gives a topic with the empty
    name exactly when, white space aside, it begins with a comma; a name
    is not checked to be non-empty. *)
Theorem empty_name_lines l :
  strip l <> EmptyString ->
  (name (parse_line (strip l)) = EmptyString <->
   exists rest, strip l = String ","%char rest).
Proof.
  intro N. destruct (strip l) as [|c s] eqn:E; [congruence|].
  pose proof (strip_head _ _ _ E) as Hc.
  rewrite (proj1 (parse_line_fields (String c s))).
  rewrite title_empty, (map_map_hd (fun p => lower (strip p))) by reflexivity.
  rewrite lower_empty, split_comma_head.
  destruct (Ascii.eqb_spec c ","%char) as [->|Nc].
  - split; [eauto | reflexivity].
  - split.
    + intro H. exfalso.
      destruct (rstrip_keeps_head c (hd EmptyString (split_comma s)) Hc) as [r Hr].
      unfold strip in H. cbn [lstrip] in H. rewrite Hc in H. congruence.
    + intros [rest [= -> _]]. contradiction.
Qed.

Lemma empty_name_lines_witness :
  name (parse_line (strip " , hard")) = EmptyString.
Proof.
  apply (proj2 (empty_name_lines " , hard" ltac:(vm_compute; discriminate))).
  eexists. vm_compute. reflexivity.
Defined.
